(** * Container convergence engine: lxdock/container.py and nomad/container.py

    A shallow embedding of the two [Container] classes of the repository
    (the [lxdock] package and its predecessor, the [nomad] package) and the
    properties of their lifecycle actions.

    The hypervisor daemon, the host, the guest and the resolution file are
    an explicit [World]; every call the code issues to one of them is
    recorded, in order, as an [Event].  Methods are computations in a small
    state-and-exception monad [M]. *)

From stdpp Require Import gmap strings list fin_maps pretty.
From Stdlib Require Import Ascii String ZArith Lia.

Open Scope Z_scope.
Open Scope nat_scope.

(** ** Python built-ins used by the source *)

Module Py.

(** [bool(s)] for a string: only the empty string is falsy. *)
Definition truthy (s : string) : bool :=
  match s with EmptyString => false | String _ _ => true end.

(** [s.startswith(p)]. *)
Definition startswith (s p : string) : bool := String.prefix p s.

(** [s.endswith('/')]. *)
Fixpoint endswith_sep (s : string) : bool :=
  match s with
  | EmptyString => false
  | String a EmptyString => bool_decide (a = "/"%char)
  | String _ s' => endswith_sep s'
  end.

Fixpoint take (n : nat) (s : string) : string :=
  match n, s with
  | S n', String a s' => String a (take n' s')
  | _, _ => EmptyString
  end.

(** [s[:stop]]: a negative [stop] counts from the end of the string. *)
Definition slice_to (s : string) (stop : Z) : string :=
  if (stop <? 0)%Z
  then take (Z.to_nat (Z.of_nat (String.length s) + stop)) s
  else take (Z.to_nat stop) s.

(** [os.path.join(a, b)] of posixpath. *)
Definition os_path_join (a b : string) : string :=
  if startswith b "/" then b
  else if negb (truthy a) || endswith_sep a then a +:+ b
  else a +:+ "/" +:+ b.

(** ['%s' % i] and ['{}'.format(i)] for a non-negative integer. *)
Definition str_of_nat (i : nat) : string := pretty i.

Definition lower_char (a : ascii) : ascii :=
  let n := nat_of_ascii a in
  if (65 <=? n) && (n <=? 90) then ascii_of_nat (n + 32) else a.

(** [s.lower()] on ASCII text. *)
Fixpoint lower (s : string) : string :=
  match s with
  | EmptyString => EmptyString
  | String a s' => String (lower_char a) (lower s')
  end.

(** [' '.join(l)]. *)
Fixpoint join_space (l : list string) : string :=
  match l with
  | [] => ""
  | [x] => x
  | x :: l' => x +:+ " " +:+ join_space l'
  end.

(** [enumerate(l, start)]. *)
Fixpoint enumerate {A} (start : nat) (l : list A) : list (nat * A) :=
  match l with
  | [] => []
  | x :: l' => (start, x) :: enumerate (S start) l'
  end.

End Py.

(** ** Data model *)

(** Modelled from the spec: the [constants] module is not part of the
    sources at hand.  Section 4.6 names the lifecycle states; the two status
    codes the code compares against are kept as two distinct constructors
    and every other code the daemon may report is [CONTAINER_OTHER]. *)
Inductive StatusCode := CONTAINER_STOPPED | CONTAINER_RUNNING | CONTAINER_OTHER.

Global Instance StatusCode_eq_dec : EqDecision StatusCode.
Proof. solve_decision. Defined.

(** Modelled from the spec: [constants.ProvisioningMode], the tri-state
    mode of section 4.6. *)
Inductive ProvisioningMode := AUTO | ENABLED | DISABLED.

Global Instance ProvisioningMode_eq_dec : EqDecision ProvisioningMode.
Proof. solve_decision. Defined.

(** A device of the daemon's object is a string/string dictionary; the
    device map is a dictionary of those. *)
Abbreviation Device := (gmap string string).
Abbreviation Devices := (gmap string (gmap string string)).

(** The remote object behind a PyLXD container handle. *)
Record Remote := mkRemote {
  status_code : StatusCode;
  config : gmap string string;
  devices : Devices
}.

(** One entry of [options['shares']]. *)
Record Share := mkShare {
  share_source : string;
  share_dest : string;
  share_set_host_acl : option bool
}.

(** One entry of [options['users']]. *)
Record User := mkUser {
  user_name : string;
  user_home : option string;
  user_password : option string
}.

(** One entry of [options['provisioning']]; only its ['type'] is read here,
    the rest is handed to the provisioner as it is. *)
Record ProvisioningItem := mkProvisioningItem {
  prov_type : string;
  prov_rest : list (string * string)
}.

(** [options['shell']]. *)
Record ShellConfig := mkShellConfig {
  shell_user : option string;
  shell_home : option string
}.

(** The keyword options of a container.  A key that the code reads with
    [options.get] or tests with [in] is an [option]; ['name'] and ['image']
    are read with [options[...]]. *)
Record Options := mkOptions {
  opt_name : string;
  opt_image : string;
  opt_privileged : option bool;
  opt_mode : option string;
  opt_protocol : option string;
  opt_server : option string;
  opt_lxc_config : option (gmap string string);
  opt_profiles : option (list string);
  opt_environment : option (list (string * string));
  opt_hostnames : option (list string);
  opt_shares : option (list Share);
  opt_users : option (list User);
  opt_provisioning : option (list ProvisioningItem);
  opt_shell : option ShellConfig
}.

(** [Container.__init__]: the descriptor of one invocation. *)
Record Container := mkContainer {
  project_name : string;
  homedir : string;
  options : Options
}.

(** The dictionary passed to [client.containers.create]. *)
Record CreateSpec := mkCreateSpec {
  spec_name : string;
  spec_alias : string;
  spec_mode : string;
  spec_protocol : string;
  spec_server : string;
  spec_config : gmap string string;
  spec_profiles : option (list string)
}.

Inductive Level := INFO | WARNING | ERROR.

(** Every call that leaves the orchestrator, and every log record. *)
Inductive Event :=
| Log (lvl : Level) (msg : string)
| ContainersCreate (spec : CreateSpec)
| ContainerStart
| ContainerStop (timeout : option nat) (force : option bool)
| ContainerDelete
| ContainerSave
| FilesPut (path content : string)
| GetIp
| Sleep (seconds : nat)
| FindFreeIp
| SetStaticIpOnDebian (ip gateway : string)
| PrepareDebian
| ProvisionWithAnsible (item : ProvisioningItem)
| HostGetSshPubkey
| HostGiveCurrentUserAccess (source : string)
| HostGiveMappedUserAccess (source : string) (userpath : option string)
| GuestAddSshPubkey (key : string)
| GuestCreateUser (name : string) (home password : option string)
| GuestRun (argv : list string)
| ProvisionerSetup (name : string)
| ProvisionerProvision (name : string)
| SubprocessCall (cmd : string)
| SubprocessPopen (cmd : string)
| OsStat (path : string)
| EtcHostsSave.

Global Instance Level_eq_dec : EqDecision Level.
Proof. solve_decision. Defined.

(** The calls that change the daemon's objects. *)
Definition is_daemon_mutation (e : Event) : bool :=
  match e with
  | ContainersCreate _ | ContainerStart | ContainerStop _ _
  | ContainerDelete | ContainerSave | FilesPut _ _ => true
  | _ => false
  end.

(** The calls that run something inside the guest. *)
Definition is_guest_command (e : Event) : bool :=
  match e with
  | GuestAddSshPubkey _ | GuestCreateUser _ _ _ | GuestRun _
  | ProvisionerSetup _ | ProvisionerProvision _ | FilesPut _ _
  | PrepareDebian | ProvisionWithAnsible _ | SetStaticIpOnDebian _ _
  | SubprocessCall _ => true
  | _ => false
  end.

Definition is_error_log (e : Event) : bool :=
  match e with Log ERROR _ => true | _ => false end.

(** Everything outside the orchestrator.  The [_feed] fields script the
    answers of the collaborators to successive calls; an exhausted feed
    answers that no address is assigned, that the creation and the stop
    succeed and that the start leaves the container running.  The calls
    whose exceptions the code does not catch ([save], [delete],
    [files.put], [os.stat], the commands of the host and of the guest) are
    taken to succeed. *)
Record World := mkWorld {
  remote : option Remote;            (* the daemon's object of this name, if any *)
  etc_hosts : gmap string string;    (* the bindings of the resolution file *)
  ip_feed : list string;             (* successive answers of get_ip, '' = none yet *)
  create_feed : list (option string);(* Some msg: create raises LXDAPIException(msg) *)
  start_feed : list StatusCode;      (* the status the handle shows after each start *)
  stop_feed : list bool;             (* false: stop raises LXDAPIException *)
  ssh_pubkey : option string;        (* Host.get_ssh_pubkey() *)
  free_ip : string * string;         (* find_free_ip(client) *)
  folderid : string -> string;       (* utils.identifier.folderid *)
  provisioners : gmap string string; (* Provisioner.provisioners: type -> name *)
  os_getuid : nat;
  rootfs_uid : nat;                  (* os.stat(rootfs).st_uid *)
  lxd_dir : string                   (* get_lxd_dir() *)
}.

Definition set_remote (r : option Remote) (w : World) : World :=
  mkWorld r (etc_hosts w) (ip_feed w) (create_feed w) (start_feed w)
          (stop_feed w) (ssh_pubkey w) (free_ip w) (folderid w)
          (provisioners w) (os_getuid w) (rootfs_uid w) (lxd_dir w).

Definition set_etc_hosts (h : gmap string string) (w : World) : World :=
  mkWorld (remote w) h (ip_feed w) (create_feed w) (start_feed w)
          (stop_feed w) (ssh_pubkey w) (free_ip w) (folderid w)
          (provisioners w) (os_getuid w) (rootfs_uid w) (lxd_dir w).

Definition set_ip_feed (l : list string) (w : World) : World :=
  mkWorld (remote w) (etc_hosts w) l (create_feed w) (start_feed w)
          (stop_feed w) (ssh_pubkey w) (free_ip w) (folderid w)
          (provisioners w) (os_getuid w) (rootfs_uid w) (lxd_dir w).

Definition set_create_feed (l : list (option string)) (w : World) : World :=
  mkWorld (remote w) (etc_hosts w) (ip_feed w) l (start_feed w)
          (stop_feed w) (ssh_pubkey w) (free_ip w) (folderid w)
          (provisioners w) (os_getuid w) (rootfs_uid w) (lxd_dir w).

Definition set_start_feed (l : list StatusCode) (w : World) : World :=
  mkWorld (remote w) (etc_hosts w) (ip_feed w) (create_feed w) l
          (stop_feed w) (ssh_pubkey w) (free_ip w) (folderid w)
          (provisioners w) (os_getuid w) (rootfs_uid w) (lxd_dir w).

Definition set_stop_feed (l : list bool) (w : World) : World :=
  mkWorld (remote w) (etc_hosts w) (ip_feed w) (create_feed w) (start_feed w)
          l (ssh_pubkey w) (free_ip w) (folderid w)
          (provisioners w) (os_getuid w) (rootfs_uid w) (lxd_dir w).

(** ** The monad of methods *)

Inductive Exn :=
| ContainerOperationFailed
| LXDAPIException (msg : string)
| NotFound
| KeyError (key : string).

Inductive Res (A : Type) :=
| Ok (a : A)
| Raise (e : Exn).
Arguments Ok {A} a.
Arguments Raise {A} e.

(** The outcome of a run: the value or the exception, the world it leaves
    and the calls it issued, oldest first. *)
Record Out (A : Type) := mkOut {
  res : Res A;
  world : World;
  events : list Event
}.
Arguments mkOut {A} _ _ _.
Arguments res {A} _.
Arguments world {A} _.
Arguments events {A} _.

Definition M (A : Type) : Type := World -> Out A.

Definition ret {A} (a : A) : M A := fun w => mkOut (Ok a) w [].

Definition raise {A} (e : Exn) : M A := fun w => mkOut (Raise e) w [].

(** The events of a first step put before the outcome of what follows. *)
Definition after {A} (evs : list Event) (o : Out A) : Out A :=
  match o with mkOut r w evs' => mkOut r w (evs ++ evs') end.

Definition bind {A B} (m : M A) (k : A -> M B) : M B := fun w =>
  match m w with
  | mkOut (Ok a) w' evs => after evs (k a w')
  | mkOut (Raise e) w' evs => mkOut (Raise e) w' evs
  end.

(** [try: m except handled-exceptions: h]; [h e = None] means that the
    except clause does not match [e]. *)
Definition try_except {A} (m : M A) (h : Exn -> option (M A)) : M A := fun w =>
  match m w with
  | mkOut (Ok a) w' evs => mkOut (Ok a) w' evs
  | mkOut (Raise e) w' evs =>
      match h e with
      | Some k => after evs (k w')
      | None => mkOut (Raise e) w' evs
      end
  end.

Declare Scope m_scope.
Delimit Scope m_scope with M.
Notation "x <- m ;; k" := (bind m (fun x => k))
  (at level 100, m at next level, right associativity) : m_scope.
Notation "m ;; k" := (bind m (fun _ => k))
  (at level 100, right associativity) : m_scope.
Open Scope m_scope.

Definition emit (e : Event) : M unit := fun w => mkOut (Ok tt) w [e].

Definition get_world : M World := fun w => mkOut (Ok w) w [].

Definition modify_world (f : World -> World) : M unit :=
  fun w => mkOut (Ok tt) (f w) [].

(** [for x in l: body x], threading a loop-carried value. *)
Fixpoint for_fold {A S} (l : list A) (s : S) (body : S -> A -> M S) : M S :=
  match l with
  | [] => ret s
  | x :: l' => s' <- body s x ;; for_fold l' s' body
  end.

Definition for_each {A} (l : list A) (body : A -> M unit) : M unit :=
  for_fold l tt (fun _ x => body x).

Definition when (b : bool) (m : M unit) : M unit := if b then m else ret tt.

Definition logger (lvl : Level) (msg : string) : M unit := emit (Log lvl msg).

(** ** The collaborators: daemon client, handle, network helpers *)

(** The double quote and the newline, for the messages that carry them. *)
Definition dq : string := String (ascii_of_nat 34) EmptyString.
Definition nl : string := String (ascii_of_nat 10) EmptyString.

(** [client.containers.get(lxd_name)]: [false] stands for [NotFound]. *)
Definition containers_get : M bool := fun w =>
  mkOut (Ok (match remote w with Some _ => true | None => false end)) w [].

(** [client.containers.create(spec, wait=True)]: a fresh object is stopped,
    carries the configuration of the request and no device of its own. *)
Definition containers_create (spec : CreateSpec) : M unit := fun w =>
  let fresh := Some (mkRemote CONTAINER_STOPPED (spec_config spec) ∅) in
  match create_feed w with
  | Some msg :: feed =>
      mkOut (Raise (LXDAPIException msg)) (set_create_feed feed w)
            [ContainersCreate spec]
  | None :: feed =>
      mkOut (Ok tt) (set_remote fresh (set_create_feed feed w))
            [ContainersCreate spec]
  | [] => mkOut (Ok tt) (set_remote fresh w) [ContainersCreate spec]
  end.

(** Reading through a handle.  The attribute maps of the handle are the
    store itself: the code saves after each group of assignments, and
    nothing else writes the object during an invocation. *)
Definition handle : M Remote := fun w =>
  match remote w with
  | Some r => mkOut (Ok r) w []
  | None => mkOut (Raise NotFound) w []
  end.

Definition update_handle (f : Remote -> Remote) : M unit :=
  r <- handle ;; modify_world (set_remote (Some (f r))).

Definition set_status (s : StatusCode) (r : Remote) : Remote :=
  mkRemote s (config r) (devices r).

(** [container.config[key] = value]. *)
Definition set_config (key value : string) (r : Remote) : Remote :=
  mkRemote (status_code r) (<[key := value]> (config r)) (devices r).

(** [container.devices[key] = d]. *)
Definition set_device (key : string) (d : Device) (r : Remote) : Remote :=
  mkRemote (status_code r) (config r) (<[key := d]> (devices r)).

(** [del container.devices[key]]. *)
Definition del_device (key : string) (r : Remote) : Remote :=
  mkRemote (status_code r) (config r) (delete key (devices r)).

(** [container.start(wait=True)]. *)
Definition container_start : M unit :=
  r <- handle ;;
  emit ContainerStart ;;
  fun w =>
    match start_feed w with
    | s :: feed =>
        mkOut (Ok tt) (set_remote (Some (set_status s r)) (set_start_feed feed w)) []
    | [] => mkOut (Ok tt) (set_remote (Some (set_status CONTAINER_RUNNING r)) w) []
    end.

(** [container.stop(timeout=.., force=.., wait=True)]. *)
Definition container_stop (timeout : option nat) (force : option bool) : M unit :=
  r <- handle ;;
  emit (ContainerStop timeout force) ;;
  fun w =>
    match stop_feed w with
    | false :: feed =>
        mkOut (Raise (LXDAPIException "")) (set_stop_feed feed w) []
    | true :: feed =>
        mkOut (Ok tt) (set_remote (Some (set_status CONTAINER_STOPPED r))
                                  (set_stop_feed feed w)) []
    | [] => mkOut (Ok tt) (set_remote (Some (set_status CONTAINER_STOPPED r)) w) []
    end.

(** [container.delete(wait=True)]. *)
Definition container_delete : M unit :=
  _ <- handle ;; emit ContainerDelete ;; modify_world (set_remote None).

(** [container.save(wait=True)]. *)
Definition container_save : M unit :=
  _ <- handle ;; emit ContainerSave.

(** [get_ip(container)] / [get_ipv4_ip(container)]: the next answer of the
    network, [''] when no address is assigned (yet). *)
Definition get_ip : M string :=
  emit GetIp ;;
  fun w =>
    match ip_feed w with
    | ip :: feed => mkOut (Ok ip) (set_ip_feed feed w) []
    | [] => mkOut (Ok "") w []
    end.

(** Modelled from the spec: the [EtcHosts] class of the [network] module is
    not part of the sources at hand.  Following sections 3 and 4.4, the
    resolution file holds at most one binding per hostname; the object reads
    the file when it is built, [ensure_binding_present] and
    [ensure_binding_absent] edit the copy in memory and set [changed] only
    when the copy really changes, and [save] writes the copy back. *)
Record EtcHosts := mkEtcHosts {
  bindings : gmap string string;
  changed : bool
}.

(** Modelled from the spec: [EtcHosts()], which reads the resolution file. *)
Definition EtcHosts_init : M EtcHosts := fun w =>
  mkOut (Ok (mkEtcHosts (etc_hosts w) false)) w [].

(** Modelled from the spec: [EtcHosts.ensure_binding_present]; nothing changes
    when the hostname already points to [ip]. *)
Definition ensure_binding_present (hostname ip : string) (e : EtcHosts) : EtcHosts :=
  if decide (bindings e !! hostname = Some ip) then e
  else mkEtcHosts (<[hostname := ip]> (bindings e)) true.

(** Modelled from the spec: [EtcHosts.ensure_binding_absent]; nothing changes
    when the hostname has no binding. *)
Definition ensure_binding_absent (hostname : string) (e : EtcHosts) : EtcHosts :=
  match bindings e !! hostname with
  | Some _ => mkEtcHosts (delete hostname (bindings e)) true
  | None => e
  end.

(** Modelled from the spec: [EtcHosts.save], which writes the copy back. *)
Definition EtcHosts_save (e : EtcHosts) : M unit :=
  emit EtcHostsSave ;; modify_world (set_etc_hosts (bindings e)).

(** ** What the two packages share

    [lxdock/container.py] and [nomad/container.py] have the same text for
    the members below, up to the product name in the configuration keys and
    the dictionary that [_get_container] sends to the daemon; a [Variant]
    carries these two. *)

Record Variant := mkVariant {
  product : string;
  container_config : Container -> string -> CreateSpec
}.

Section Common.

Context (V : Variant) (c : Container).

(** [Container.name] *)
Definition name : string := opt_name (options c).

(** [Container.lxd_name], given the [folderid] of the host. *)
Definition lxd_name (fid : string -> string) : string :=
  let lxd_name_prefix := project_name c +:+ "-" +:+ name in
  let project_id := fid (homedir c) in
  Py.slice_to lxd_name_prefix (63 - Z.of_nat (String.length project_id))
    +:+ "-" +:+ project_id.

(** [Container._get_container]: [true] is a handle, [false] is [None]. *)
Definition _get_container (create : bool) : M bool :=
  found <- containers_get ;;
  if found then ret true
  else if negb create then ret false
  else
    w <- get_world ;;
    logger WARNING ("Unable to find container " +:+ dq +:+ name +:+ dq +:+
                    " for directory " +:+ dq +:+ homedir c +:+ dq) ;;
    logger INFO ("Creating new container " +:+ dq +:+ lxd_name (folderid w) +:+ dq +:+
                 " from image " +:+ opt_image (options c)) ;;
    try_except
      (containers_create (container_config V c (lxd_name (folderid w))) ;; ret true)
      (fun e =>
         match e with
         | LXDAPIException error =>
             Some (logger ERROR ("Can't create container: " +:+ error) ;;
                   raise ContainerOperationFailed)
         | _ => None
         end).

(** [Container._container]: the handle, created on first use when the
    daemon has no such object.  The property memoises the handle; as the
    daemon's object is the one store behind every handle, the embedding
    resolves the name at each use, which reaches the same object without a
    second creation. *)
Definition _container : M Remote :=
  _ <- _get_container true ;; handle.

(** [Container.exists] *)
Definition exists_ : M bool := containers_get.

(** [Container.is_privileged] *)
Definition is_privileged : M bool :=
  r <- _container ;;
  ret (bool_decide (config r !! "security.privileged" = Some "true")).

(** [Container.is_provisioned] *)
Definition is_provisioned : M bool :=
  r <- _container ;;
  ret (bool_decide (config r !! ("user." +:+ product V +:+ ".provisioned") = Some "true")).

(** [Container.is_running] *)
Definition is_running : M bool :=
  r <- _container ;; ret (bool_decide (status_code r = CONTAINER_RUNNING)).

(** [Container.is_stopped] *)
Definition is_stopped : M bool :=
  r <- _container ;; ret (bool_decide (status_code r = CONTAINER_STOPPED)).

(** [Container.status] *)
Definition status : M string :=
  container <- _get_container false ;;
  if negb container then ret "not-created"
  else
    r <- handle ;;
    ret (match status_code r with
         | CONTAINER_RUNNING => "running"
         | CONTAINER_STOPPED => "stopped"
         | CONTAINER_OTHER => "undefined"
         end).

(** [not hostnames] for [hostnames = options.get('hostnames', [])]. *)
Definition hostnames : list string := default [] (opt_hostnames (options c)).

(** [Container._setup_hostnames] *)
Definition _setup_hostnames (ip : string) : M unit :=
  match hostnames with
  | [] => ret tt
  | _ =>
      etchosts <- EtcHosts_init ;;
      etchosts <- for_fold hostnames etchosts (fun etchosts hostname =>
        logger INFO ("Setting " +:+ hostname +:+ " to point to " +:+ ip +:+ ".") ;;
        ret (ensure_binding_present hostname ip etchosts)) ;;
      when (changed etchosts)
        (logger INFO "Saving host bindings to /etc/hosts. sudo may be needed" ;;
         EtcHosts_save etchosts)
  end.

(** [Container._unsetup_hostnames] *)
Definition _unsetup_hostnames : M unit :=
  match hostnames with
  | [] => ret tt
  | _ =>
      etchosts <- EtcHosts_init ;;
      etchosts <- for_fold hostnames etchosts (fun etchosts hostname =>
        logger INFO ("Unsetting " +:+ hostname +:+ ". sudo needed.") ;;
        ret (ensure_binding_absent hostname etchosts)) ;;
      when (changed etchosts) (EtcHosts_save etchosts)
  end.

(** [Container._wait_for_ip] / [Container._wait_for_ipv4_ip] *)
Fixpoint _wait_for_ip (seconds : nat) : M string :=
  match seconds with
  | 0 => ret ""
  | S seconds' =>
      emit (Sleep 1) ;;
      _ <- _container ;;
      ip <- get_ip ;;
      if Py.truthy ip then ret ip else _wait_for_ip seconds'
  end.

(** [Container.halt] *)
Definition halt : M unit :=
  stopped <- is_stopped ;;
  if stopped then logger INFO "The container is already stopped."
  else
    _unsetup_hostnames ;;
    logger INFO "Stopping..." ;;
    try_except
      (_ <- _container ;; container_stop (Some 30) (Some false))
      (fun e =>
         match e with
         | LXDAPIException _ =>
             Some (logger WARNING "Can't stop the container. Forcing..." ;;
                   _ <- _container ;; container_stop None (Some true))
         | _ => None
         end).

(** [Container.destroy] *)
Definition destroy : M unit :=
  container <- _get_container false ;;
  if negb container then logger INFO "Container doesn't exist, nothing to destroy."
  else
    halt ;;
    logger INFO ("Destroying container " +:+ dq +:+ name +:+ dq +:+ "...") ;;
    container_delete ;;
    logger INFO ("Container " +:+ dq +:+ name +:+ dq +:+ " destroyed!").

(** The device written for a share: [{'type': 'disk', 'source': source,
    'path': share['dest']}]. *)
Definition shareconf (source : string) (share : Share) : Device :=
  <["type" := "disk"]> (<["source" := source]> (<["path" := share_dest share]> ∅)).

(** [{k: d for k, d in container.devices.items() if
    k.startswith('<product>share')}] *)
Definition existing_shares (devs : Devices) : Devices :=
  filter (fun kd => Is_true (Py.startswith kd.1 (product V +:+ "share"))) devs.

(** [{d['source'] for d in existing_shares.values()}]: [None] stands for
    the [KeyError] of a device without a ['source']. *)
Definition existing_sources (shares : Devices) : option (gset string) :=
  list_to_set <$> mapM (fun d : Device => d !! "source") (map_to_list shares).*2.

(** The first lines of [_setup_shares]: the inventory of the sources
    already shared, then the removal of the shares of this product. *)
Definition _setup_shares_inventory : M (gset string) :=
  container <- _container ;;
  let existing := existing_shares (devices container) in
  match existing_sources existing with
  | None => raise (KeyError "source")
  | Some sources =>
      for_each (map_to_list existing).*1 (fun k => update_handle (del_device k)) ;;
      ret sources
  end.

End Common.

(** ** lxdock/container.py *)

Module Lxdock.

Definition _default_image_server : string := "https://images.linuxcontainers.org".
Definition _guest_shell_script_file : string := "/.lxdock.d/shell_cmd.sh".

(** The [container_config] dictionary of [_get_container]. *)
Definition container_config (c : Container) (lxd_name : string) : CreateSpec :=
  let privileged := default false (opt_privileged (options c)) in
  let mode := default "pull" (opt_mode (options c)) in
  let lxc_config :=
    <["security.privileged" := if privileged then "true" else "false"]>
      (<["user.lxdock.made" := "1"]>
         (<["user.lxdock.homedir" := homedir c]>
            (default ∅ (opt_lxc_config (options c))))) in
  mkCreateSpec lxd_name (opt_image (options c)) mode
    (default "simplestreams" (opt_protocol (options c)))
    (if String.eqb mode "pull"
     then default _default_image_server (opt_server (options c)) else "")
    lxc_config
    (match opt_profiles (options c) with
     | Some (p :: ps) => Some (p :: ps)
     | _ => None
     end).

Definition variant : Variant := mkVariant "lxdock" container_config.

Section Methods.

Context (c : Container).

Abbreviation _container := (_container variant c).
Abbreviation is_running := (is_running variant c).
Abbreviation is_provisioned := (is_provisioned variant c).
Abbreviation is_privileged := (is_privileged variant c).

(** The decorator [must_be_created_and_running]. *)
Definition must_be_created_and_running (method : M unit) : M unit :=
  e <- exists_ ;;
  if negb e then logger ERROR "The container is not created."
  else
    running <- is_running ;;
    if negb running then logger ERROR "The container is not running."
    else method.

(** [Container._setup_env] *)
Definition _setup_env : M unit :=
  match opt_environment (options c) with
  | Some ((k0, v0) :: env_override) =>
      for_each ((k0, v0) :: env_override) (fun kv =>
        _ <- _container ;;
        update_handle (set_config ("environment." +:+ kv.1) kv.2)) ;;
      _ <- _container ;; container_save
  | _ => ret tt
  end.

(** [Container._perform_barebones_setup] *)
Definition _perform_barebones_setup : M unit :=
  logger INFO "Doing bare bones setup on the machine..." ;;
  emit HostGetSshPubkey ;;
  w <- get_world ;;
  match ssh_pubkey w with
  | Some key => emit (GuestAddSshPubkey key)
  | None =>
      logger WARNING
        "SSH pubkey was not found. Provisioning tools may not work correctly..."
  end.

(** The loop of [provision] that instantiates the provisioners: the
    names of those whose type is registered, in declared order. *)
Definition instantiate_provisioners (steps : list ProvisioningItem) : M (list string) :=
  w <- get_world ;;
  ret (omap (fun item => provisioners w !! Py.lower (prov_type item)) steps).

(** The body of [Container.provision]. *)
Definition provision_body : M unit :=
  _setup_env ;;
  provisioned <- is_provisioned ;;
  let barebone := negb provisioned in
  let provisioning_steps := default [] (opt_provisioning (options c)) in
  when barebone _perform_barebones_setup ;;
  provs <- instantiate_provisioners provisioning_steps ;;
  logger INFO ("Provisioning container " +:+ dq +:+ name c +:+ dq +:+ "...") ;;
  when barebone
    (for_each provs (fun p =>
       logger INFO ("Performing barebones setup for provisioner " +:+ p) ;;
       emit (ProvisionerSetup p))) ;;
  for_each provs (fun p =>
    logger INFO ("Provisioning with " +:+ p) ;;
    emit (ProvisionerProvision p)) ;;
  _ <- _container ;;
  update_handle (set_config "user.lxdock.provisioned" "true") ;;
  _ <- _container ;;
  container_save.

(** [Container.provision] *)
Definition provision : M unit := must_be_created_and_running provision_body.

Definition truthy_opt (o : option string) : bool :=
  match o with Some s => Py.truthy s | None => false end.

Section Shell.

(** [shlex.quote] and [textwrap.dedent] of the Python library. *)
Context (shlex_quote textwrap_dedent : string -> string).

(** The body of [Container.shell]. *)
Definition shell_body (username : option string) (cmd_args : list string) : M unit :=
  _setup_env ;;
  w <- get_world ;;
  let lxd_name := lxd_name c (folderid w) in
  let shellcfg := default (mkShellConfig None None) (opt_shell (options c)) in
  let shelluser := if truthy_opt username then username else shell_user shellcfg in
  let cmd :=
    if truthy_opt shelluser then
      let shellhome := if negb (truthy_opt username) then shell_home shellcfg else None in
      let homearg := if truthy_opt shellhome
                     then "--env HOME=" +:+ default "" shellhome else "" in
      "lxc exec " +:+ lxd_name +:+ " " +:+ homearg +:+ " -- su -m " +:+ default "" shelluser
    else "lxc exec " +:+ lxd_name +:+ " -- su -m root" in
  match cmd_args with
  | [] => emit (SubprocessCall cmd)
  | _ =>
      emit (GuestRun ["mkdir"; "-p"; "/.lxdock.d"]) ;;
      _ <- _container ;;
      emit (FilesPut _guest_shell_script_file
              (textwrap_dedent
                 ("                #!/bin/sh" +:+ nl +:+
                  "                " +:+ Py.join_space (shlex_quote <$> cmd_args) +:+ nl +:+
                  "                "))) ;;
      emit (GuestRun ["chmod"; "a+rx"; _guest_shell_script_file]) ;;
      emit (SubprocessCall (cmd +:+ " -s " +:+ _guest_shell_script_file))
  end.

(** [Container.shell] *)
Definition shell (username : option string) (cmd_args : list string) : M unit :=
  must_be_created_and_running (shell_body username cmd_args).

End Shell.

(** [Container._setup_ip] *)
Definition _setup_ip : M string :=
  _ <- _container ;;
  ip <- get_ip ;;
  ip <- (if negb (Py.truthy ip)
         then logger INFO "No IP yet, waiting for at most 10 seconds..." ;;
              _wait_for_ip variant c 10
         else ret ip) ;;
  when (negb (Py.truthy ip))
    (logger WARNING "STILL no IP! Container is up, but probably broken." ;;
     logger INFO "Maybe that restarting it will help? Not trying to provision.") ;;
  ret ip.

(** The host-side grants of [_setup_shares] for one source. *)
Definition give_access (source : string) : M unit :=
  logger INFO ("Setting host-side ACL for " +:+ source) ;;
  emit (HostGiveCurrentUserAccess source) ;;
  privileged <- is_privileged ;;
  when (negb privileged)
    (emit (HostGiveMappedUserAccess source None) ;;
     for_each (default [] (opt_users (options c))) (fun uconfig =>
       emit (HostGiveMappedUserAccess source
               (Some (default ("/home/" +:+ user_name uconfig) (user_home uconfig)))))).

(** [Container._setup_shares] *)
Definition _setup_shares : M unit :=
  match opt_shares (options c) with
  | None => ret tt
  | Some shares =>
      logger INFO "Setting up shares..." ;;
      existing_sources <- _setup_shares_inventory variant c ;;
      for_each (Py.enumerate 1 shares) (fun ishare =>
        let source := Py.os_path_join (homedir c) (share_source ishare.2) in
        let set_host_acl := default true (share_set_host_acl ishare.2) in
        when (set_host_acl && bool_decide (source ∉ existing_sources))
          (give_access source) ;;
        update_handle
          (set_device ("lxdockshare" +:+ Py.str_of_nat ishare.1)
                      (shareconf source ishare.2))) ;;
      container_save
  end.

(** [Container._setup_users] *)
Definition _setup_users : M unit :=
  match default [] (opt_users (options c)) with
  | [] => ret tt
  | users =>
      logger INFO "Ensuring users are created..." ;;
      for_each users (fun user_config =>
        emit (GuestCreateUser (user_name user_config) (user_home user_config)
                              (user_password user_config)))
  end.

(** [Container.up] *)
Definition up (provisioning_mode : option ProvisioningMode) : M unit :=
  running <- is_running ;;
  if running
  then logger INFO ("Container " +:+ dq +:+ name c +:+ dq +:+ " is already running")
  else
    logger INFO ("Starting container " +:+ dq +:+ name c +:+ dq +:+ "...") ;;
    _ <- _container ;;
    container_start ;;
    running <- is_running ;;
    if negb running
    then logger ERROR "Something went wrong trying to start the container." ;;
         raise ContainerOperationFailed
    else
      ip <- _setup_ip ;;
      if negb (Py.truthy ip) then ret tt
      else
        logger INFO ("Container " +:+ dq +:+ name c +:+ dq +:+ " is up! IP: " +:+ ip) ;;
        _setup_hostnames c ip ;;
        _setup_users ;;
        _setup_shares ;;
        _setup_env ;;
        is_provisioned <- is_provisioned ;;
        let provisioning_mode := default AUTO provisioning_mode in
        if negb (bool_decide (provisioning_mode = DISABLED)) then
          if (negb is_provisioned && bool_decide (provisioning_mode = AUTO))
             || bool_decide (provisioning_mode = ENABLED)
          then provision
          else when is_provisioned
                 (logger INFO ("Container " +:+ dq +:+ name c +:+ dq +:+
                               " already provisioned, not provisioning."))
        else ret tt.

(** The steps of [up] down to [ip = self._setup_ip()]; [None] is the
    early return of a container that is already running. *)
Definition up_start : M (option string) :=
  running <- is_running ;;
  if running
  then logger INFO ("Container " +:+ dq +:+ name c +:+ dq +:+ " is already running") ;;
       ret None
  else
    logger INFO ("Starting container " +:+ dq +:+ name c +:+ dq +:+ "...") ;;
    _ <- _container ;;
    container_start ;;
    running <- is_running ;;
    if negb running
    then logger ERROR "Something went wrong trying to start the container." ;;
         raise ContainerOperationFailed
    else ip <- _setup_ip ;; ret (Some ip).

(** The steps of [up] that follow [ip = self._setup_ip()]. *)
Definition up_configure (provisioning_mode : option ProvisioningMode)
           (ip : string) : M unit :=
  if negb (Py.truthy ip) then ret tt
  else
    logger INFO ("Container " +:+ dq +:+ name c +:+ dq +:+ " is up! IP: " +:+ ip) ;;
    _setup_hostnames c ip ;;
    _setup_users ;;
    _setup_shares ;;
    _setup_env ;;
    is_provisioned <- is_provisioned ;;
    let provisioning_mode := default AUTO provisioning_mode in
    if negb (bool_decide (provisioning_mode = DISABLED)) then
      if (negb is_provisioned && bool_decide (provisioning_mode = AUTO))
         || bool_decide (provisioning_mode = ENABLED)
      then provision
      else when is_provisioned
             (logger INFO ("Container " +:+ dq +:+ name c +:+ dq +:+
                           " already provisioned, not provisioning."))
    else ret tt.

End Methods.

End Lxdock.

(** ** nomad/container.py *)

Module Nomad.

Definition _default_image_server : string := "https://images.linuxcontainers.org".

(** The [container_config] dictionary of [_get_container]. *)
Definition container_config (c : Container) (lxd_name : string) : CreateSpec :=
  let privileged := default false (opt_privileged (options c)) in
  let mode := default "local" (opt_mode (options c)) in
  mkCreateSpec lxd_name (opt_image (options c)) mode
    (default "simplestreams" (opt_protocol (options c)))
    (if String.eqb mode "pull"
     then default _default_image_server (opt_server (options c)) else "")
    (<["security.privileged" := if privileged then "true" else "false"]>
       (<["user.nomad.made" := "1"]> (<["user.nomad.homedir" := homedir c]> ∅)))
    None.

Definition variant : Variant := mkVariant "nomad" container_config.

Section Methods.

Context (c : Container).

Abbreviation _container := (_container variant c).
Abbreviation is_running := (is_running variant c).
Abbreviation is_provisioned := (is_provisioned variant c).
Abbreviation is_privileged := (is_privileged variant c).

(** The decorator [must_be_running]. *)
Definition must_be_running (method : M unit) : M unit :=
  running <- is_running ;;
  if negb running then logger ERROR "The container is not running."
  else method.

(** The body of [Container.provision]. *)
Definition provision_body (barebone : option bool) : M unit :=
  barebone <- match barebone with
              | None => provisioned <- is_provisioned ;; ret (negb provisioned)
              | Some b => ret b
              end ;;
  when barebone
    (logger INFO "Doing bare bone setup on the machine..." ;;
     _ <- _container ;; emit PrepareDebian) ;;
  logger INFO ("Provisioning container " +:+ dq +:+ name c +:+ dq +:+ "...") ;;
  for_each (default [] (opt_provisioning (options c))) (fun provisioning_item =>
    logger INFO ("Provisioning with " +:+ prov_type provisioning_item) ;;
    _ <- _container ;;
    emit (ProvisionWithAnsible provisioning_item)) ;;
  _ <- _container ;;
  update_handle (set_config "user.nomad.provisioned" "true") ;;
  _ <- _container ;;
  container_save.

(** [Container.provision] *)
Definition provision (barebone : option bool) : M unit :=
  must_be_running (provision_body barebone).

Definition truthy_opt (o : option string) : bool :=
  match o with Some s => Py.truthy s | None => false end.

(** The body of [Container.shell]. *)
Definition shell_body : M unit :=
  w <- get_world ;;
  let lxd_name := lxd_name c (folderid w) in
  let shellcfg := default (mkShellConfig None None) (opt_shell (options c)) in
  let shelluser := shell_user shellcfg in
  if truthy_opt shelluser then
    let shellhome := shell_home shellcfg in
    let homearg := if truthy_opt shellhome
                   then "--env HOME=" +:+ default "" shellhome else "" in
    emit (SubprocessCall
            ("lxc exec " +:+ lxd_name +:+ " " +:+ homearg +:+ " -- su -m " +:+
             default "" shelluser))
  else emit (SubprocessCall ("lxc exec " +:+ lxd_name +:+ " -- bash")).

(** [Container.shell] *)
Definition shell : M unit := must_be_running shell_body.

(** [Container._has_static_ip] *)
Definition _has_static_ip : M bool :=
  r <- _container ;;
  ret (bool_decide (config r !! "user.nomad.static_ip" = Some "true")).

(** [Container._assign_free_static_ip] *)
Definition _assign_free_static_ip : M unit :=
  emit FindFreeIp ;;
  w <- get_world ;;
  _ <- _container ;;
  emit (SetStaticIpOnDebian (free_ip w).1 (free_ip w).2) ;;
  _ <- _container ;;
  update_handle (set_config "user.nomad.static_ip" "true") ;;
  _ <- _container ;;
  container_save.

(** [Container._setup_ip] *)
Definition _setup_ip : M string :=
  _ <- _container ;;
  ip <- get_ip ;;
  ip <- (if negb (Py.truthy ip)
         then logger INFO "No IP yet, waiting 10 seconds..." ;;
              _wait_for_ip variant c 10
         else ret ip) ;;
  ip <- (if negb (Py.truthy ip)
         then logger INFO "Still no IP! Forcing a static IP..." ;;
              _ <- _container ;;
              container_stop None None ;;
              _assign_free_static_ip ;;
              _ <- _container ;;
              container_start ;;
              _wait_for_ip variant c 10
         else ret ip) ;;
  when (negb (Py.truthy ip))
    (logger WARNING "STILL no IP! Container is up, but probably broken." ;;
     logger INFO "Maybe that restarting it will help? Not trying to provision.") ;;
  ret ip.

(** The host-side grants of [_setup_shares] for one source. *)
Definition give_access (host_root_uid : option nat) (source : string) : M unit :=
  logger INFO ("Setting host-side ACL for " +:+ source) ;;
  w <- get_world ;;
  emit (SubprocessPopen
          ("setfacl -Rdm u:" +:+ Py.str_of_nat (os_getuid w) +:+ ":rwX " +:+ source)) ;;
  match host_root_uid with
  | Some uid =>
      emit (SubprocessPopen
              ("setfacl -Rm user:lxd:rwx,default:user:lxd:rwx,user:" +:+
               Py.str_of_nat uid +:+ ":rwx,default:user:" +:+ Py.str_of_nat uid +:+
               ":rwx " +:+ source))
  | None => ret tt
  end.

(** [Container._setup_shares] *)
Definition _setup_shares : M unit :=
  existing_sources <- _setup_shares_inventory variant c ;;
  privileged <- is_privileged ;;
  host_root_uid <-
    (if negb privileged then
       w <- get_world ;;
       emit (OsStat (Py.os_path_join
                       (Py.os_path_join (Py.os_path_join (lxd_dir w) "containers")
                                        (lxd_name c (folderid w)))
                       "rootfs")) ;;
       ret (Some (rootfs_uid w))
     else ret None) ;;
  for_each (Py.enumerate 1 (default [] (opt_shares (options c)))) (fun ishare =>
    let source := Py.os_path_join (homedir c) (share_source ishare.2) in
    when (bool_decide (source ∉ existing_sources))
      (give_access host_root_uid source) ;;
    update_handle
      (set_device ("nomadshare" +:+ Py.str_of_nat ishare.1)
                  (shareconf source ishare.2))) ;;
  container_save.

(** [Container.up] *)
Definition up : M unit :=
  running <- is_running ;;
  if running
  then logger INFO ("Container " +:+ dq +:+ name c +:+ dq +:+ " is already running")
  else
    match opt_shares (options c) with
    | Some _ => logger INFO "Setting up shares..." ;; _setup_shares
    | None => ret tt
    end ;;
    static <- _has_static_ip ;;
    when static _assign_free_static_ip ;;
    logger INFO ("Starting container " +:+ dq +:+ name c +:+ dq +:+ "...") ;;
    _ <- _container ;;
    container_start ;;
    running <- is_running ;;
    if negb running
    then logger ERROR "Something went wrong trying to start the container." ;;
         raise ContainerOperationFailed
    else
      ip <- _setup_ip ;;
      if negb (Py.truthy ip) then ret tt
      else
        logger INFO ("Container " +:+ dq +:+ name c +:+ dq +:+ " is up! IP: " +:+ ip) ;;
        _setup_hostnames c ip ;;
        provisioned <- is_provisioned ;;
        if negb provisioned then provision (Some true)
        else logger INFO ("Container " +:+ dq +:+ name c +:+ dq +:+
                          " already provisioned, not provisioning.").

(** The steps of [up] down to [ip = self._setup_ip()]; [None] is the
    early return of a container that is already running. *)
Definition up_start : M (option string) :=
  running <- is_running ;;
  if running
  then logger INFO ("Container " +:+ dq +:+ name c +:+ dq +:+ " is already running") ;;
       ret None
  else
    match opt_shares (options c) with
    | Some _ => logger INFO "Setting up shares..." ;; _setup_shares
    | None => ret tt
    end ;;
    static <- _has_static_ip ;;
    when static _assign_free_static_ip ;;
    logger INFO ("Starting container " +:+ dq +:+ name c +:+ dq +:+ "...") ;;
    _ <- _container ;;
    container_start ;;
    running <- is_running ;;
    if negb running
    then logger ERROR "Something went wrong trying to start the container." ;;
         raise ContainerOperationFailed
    else ip <- _setup_ip ;; ret (Some ip).

(** The steps of [up] that follow [ip = self._setup_ip()]. *)
Definition up_configure (ip : string) : M unit :=
  if negb (Py.truthy ip) then ret tt
  else
    logger INFO ("Container " +:+ dq +:+ name c +:+ dq +:+ " is up! IP: " +:+ ip) ;;
    _setup_hostnames c ip ;;
    provisioned <- is_provisioned ;;
    if negb provisioned then provision (Some true)
    else logger INFO ("Container " +:+ dq +:+ name c +:+ dq +:+
                      " already provisioned, not provisioning.").

End Methods.

End Nomad.

(** ** The vocabulary of the statements *)

(** What [_unsetup_hostnames] leaves in the copy of the resolution file. *)
Definition unsetup_result (c : Container) (w : World) : EtcHosts :=
  foldl (fun e h => ensure_binding_absent h e) (mkEtcHosts (etc_hosts w) false) (hostnames c).

(** What [_setup_hostnames] leaves in the copy of the resolution file. *)
Definition setup_result (c : Container) (ip : string) (w : World) : EtcHosts :=
  foldl (fun e h => ensure_binding_present h ip e) (mkEtcHosts (etc_hosts w) false) (hostnames c).

(** [k] rounds of the waiting loop: a sleep of one second, then a query. *)
Definition polls (k : nat) : list Event := List.concat (replicate k [Sleep 1; GetIp]).

(** The calls of the fallback of [nomad]: stop, allocation of a free
    address, static configuration pushed into the guest, flag saved,
    restart. *)
Definition static_ip_cycle (w : World) : list Event :=
  [ContainerStop None None; FindFreeIp;
   SetStaticIpOnDebian (free_ip w).1 (free_ip w).2; ContainerSave; ContainerStart].

Definition still_no_ip : list Event :=
  [Log WARNING "STILL no IP! Container is up, but probably broken.";
   Log INFO "Maybe that restarting it will help? Not trying to provision."].

(** The world that the fallback leaves after eleven queries without an
    address: the object carries the flag of the static address and the
    status that the restart gave it. *)
Definition static_ip_world (w : World) (r : Remote) : World :=
  let w1 := set_ip_feed (drop 11 (ip_feed w)) w in
  let w2 := match stop_feed w with _ :: feed => set_stop_feed feed w1 | [] => w1 end in
  let r' := set_config "user.nomad.static_ip" "true" (set_status CONTAINER_STOPPED r) in
  match start_feed w with
  | s :: feed => set_remote (Some (set_status s r')) (set_start_feed feed w2)
  | [] => set_remote (Some (set_status CONTAINER_RUNNING r')) w2
  end.

(** The last lines of [_setup_ip]: the report of an address that is still
    missing, and the return. *)
Definition report_ip (ip : string) : M string :=
  when (negb (Py.truthy ip))
    (logger WARNING "STILL no IP! Container is up, but probably broken." ;;
     logger INFO "Maybe that restarting it will help? Not trying to provision.") ;;
  ret ip.

(** [m] leaves the part [f] of the world as it finds it, whether it returns
    or raises. *)
Definition keeps {A F} (f : World -> F) (m : M A) : Prop :=
  forall w, f (world (m w)) = f w.

(** Every call that [m] issues satisfies [P]. *)
Definition emits {A} (P : Event -> Prop) (m : M A) : Prop :=
  forall w, Forall P (events (m w)).

(** The key under which the [i]-th share of a product is installed. *)
Definition share_key (V : Variant) (i : nat) : string :=
  product V +:+ "share" +:+ Py.str_of_nat i.

(** The keys in the namespace of the shares of a product. *)
Definition is_share (V : Variant) (k : string) : Prop :=
  Is_true (Py.startswith k (product V +:+ "share")).

(** The host path of a desired share. *)
Definition share_path (c : Container) (s : Share) : string :=
  Py.os_path_join (homedir c) (share_source s).

(** The entries that mirror the desired list [D], numbered from [start]. *)
Definition share_entries (V : Variant) (c : Container) (start : nat) (D : list Share)
  : list (string * Device) :=
  (fun ishare => (share_key V ishare.1, shareconf (share_path c ishare.2) ishare.2))
    <$> Py.enumerate start D.

(** The devices outside the namespace of the shares. *)
Definition purge (V : Variant) (devs : Devices) : Devices :=
  filter (fun kd => ~ is_share V kd.1) devs.

(** The grants of [lxdock] for one source. *)
Definition lxdock_grants (c : Container) (r : Remote) (source : string) : list Event :=
  Log INFO ("Setting host-side ACL for " +:+ source)
  :: HostGiveCurrentUserAccess source
  :: if bool_decide (config r !! "security.privileged" = Some "true") then []
     else HostGiveMappedUserAccess source None
          :: ((fun uconfig =>
                 HostGiveMappedUserAccess source
                   (Some (default ("/home/" +:+ user_name uconfig) (user_home uconfig))))
                <$> default [] (opt_users (options c))).

(** The grants of [nomad] for one source, given the user of the host and
    the owner of the root file system of an unprivileged container. *)
Definition nomad_grants_for (me : nat) (host_root_uid : option nat) (source : string)
  : list Event :=
  Log INFO ("Setting host-side ACL for " +:+ source)
  :: SubprocessPopen ("setfacl -Rdm u:" +:+ Py.str_of_nat me +:+ ":rwX " +:+ source)
  :: match host_root_uid with
     | Some uid =>
         [SubprocessPopen
            ("setfacl -Rm user:lxd:rwx,default:user:lxd:rwx,user:" +:+
             Py.str_of_nat uid +:+ ":rwx,default:user:" +:+ Py.str_of_nat uid +:+
             ":rwx " +:+ source)]
     | None => []
     end.

Definition nomad_grants (w : World) (r : Remote) (source : string) : list Event :=
  nomad_grants_for (os_getuid w)
    (if bool_decide (config r !! "security.privileged" = Some "true")
     then None else Some (rootfs_uid w))
    source.

(** The calls that grant access to a path on the host. *)
Definition is_grant (e : Event) : bool :=
  match e with
  | HostGiveCurrentUserAccess _ | HostGiveMappedUserAccess _ _ | SubprocessPopen _ => true
  | _ => false
  end.

(** The devices after a pass over the desired list [D]. *)
Definition reconciled (V : Variant) (c : Container) (D : list Share) (devs : Devices)
  : Devices :=
  foldl (fun d ishare =>
           <[share_key V ishare.1 := shareconf (share_path c ishare.2) ishare.2]> d)
        (purge V devs) (Py.enumerate 1 D).

(** The grants of a pass of [lxdock] over the desired list [D], when [S] is
    the set of the sources that were installed before the pass. *)
Definition lxdock_pass_grants (c : Container) (r : Remote) (S : gset string)
           (D : list Share) : list Event :=
  List.concat
    ((fun s => if default true (share_set_host_acl s) && bool_decide (share_path c s ∉ S)
               then lxdock_grants c r (share_path c s) else []) <$> D).

(** The same for [nomad], which has no switch for the grants. *)
Definition nomad_pass_grants (c : Container) (w : World) (r : Remote) (S : gset string)
           (D : list Share) : list Event :=
  List.concat
    ((fun s => if bool_decide (share_path c s ∉ S)
               then nomad_grants w r (share_path c s) else []) <$> D).

(** The path whose owner [nomad] reads for an unprivileged container. *)
Definition rootfs_path (c : Container) (w : World) : string :=
  Py.os_path_join
    (Py.os_path_join (Py.os_path_join (lxd_dir w) "containers") (lxd_name c (folderid w)))
    "rootfs".

(** Every installed share of the product carries a ['source']: what the
    inventory of [_setup_shares] reads from each of them. *)
Definition shares_well_formed (V : Variant) (devs : Devices) : Prop :=
  forall k d, devs !! k = Some d -> is_share V k -> is_Some (d !! "source").

(** After the pass: the namespace of the shares holds the entries of the
    desired list [D], numbered from 1 in the order of the list, and the
    other devices are those from before the pass. *)
Definition mirrors (V : Variant) (c : Container) (D : list Share)
           (before after : Devices) : Prop :=
  existing_shares V after = list_to_map (share_entries V c 1 D)
  /\ size (existing_shares V after) = List.length D
  /\ forall k, ~ is_share V k -> after !! k = before !! k.

(** The calls of [up] down to the acquisition of the address in [lxdock]:
    log records, creation, start, queries of the address and sleeps. *)
Definition is_start_call (e : Event) : bool :=
  match e with
  | Log _ _ | ContainersCreate _ | ContainerStart | GetIp | Sleep _ => true
  | _ => false
  end.

(** The grants to the current user for one source. *)
Definition grants_current_user (source : string) (e : Event) : bool :=
  match e with
  | HostGiveCurrentUserAccess s => String.eqb s source
  | _ => false
  end.

(** The configuration after [_setup_env]: the overrides of the descriptor
    written over [cfg], in the order of the dictionary. *)
Definition env_applied (c : Container) (cfg : gmap string string) : gmap string string :=
  foldl (fun cfg kv => <["environment." +:+ kv.1 := kv.2]> cfg) cfg
        (default [] (opt_environment (options c))).

(** The calls of the provisioning pipeline. *)
Definition is_provisioning_call (e : Event) : bool :=
  match e with
  | HostGetSshPubkey | GuestAddSshPubkey _ | ProvisionerSetup _ | ProvisionerProvision _
  | PrepareDebian | ProvisionWithAnsible _ => true
  | _ => false
  end.

(** The daemon refuses the graceful stop of [halt] and then the forced one. *)
Definition stop_refused_twice (w : World) : bool :=
  match stop_feed w with false :: false :: _ => true | _ => false end.

(** The last lines of [halt]: the graceful stop and, when the daemon
    refuses it, the forced stop. *)
Definition stop_attempts (V : Variant) (c : Container) : M unit :=
  try_except
    (_ <- _container V c ;; container_stop (Some 30) (Some false))
    (fun e =>
       match e with
       | LXDAPIException _ =>
           Some (logger WARNING "Can't stop the container. Forcing..." ;;
                 _ <- _container V c ;; container_stop None (Some true))
       | _ => None
       end).

(** The world that [_unsetup_hostnames] leaves. *)
Definition unsetup_world (c : Container) (w : World) : World :=
  if changed (unsetup_result c w) then set_etc_hosts (bindings (unsetup_result c w)) w else w.

(** The records and the request of [_get_container] when it creates the
    container. *)
Definition creation_trace (V : Variant) (c : Container) (w : World) : list Event :=
  [Log WARNING ("Unable to find container " +:+ dq +:+ name c +:+ dq +:+
                " for directory " +:+ dq +:+ homedir c +:+ dq);
   Log INFO ("Creating new container " +:+ dq +:+ lxd_name c (folderid w) +:+ dq +:+
             " from image " +:+ opt_image (options c));
   ContainersCreate (container_config V c (lxd_name c (folderid w)))].

(** The daemon accepts the next creation. *)
Definition creation_accepted (w : World) : bool :=
  match create_feed w with Some _ :: _ => false | _ => true end.

(** The object that the daemon holds after it accepted the creation. *)
Definition fresh_remote (V : Variant) (c : Container) (w : World) : Remote :=
  mkRemote CONTAINER_STOPPED (spec_config (container_config V c (lxd_name c (folderid w)))) ∅.

(** The world after an accepted creation. *)
Definition created_world (V : Variant) (c : Container) (w : World) : World :=
  set_remote (Some (fresh_remote V c w)) (set_create_feed (drop 1 (create_feed w)) w).

(** The provisioners that [provision] of [lxdock] instantiates: for each
    declared item whose type, in lower case, is registered, the name of the
    registered class, in the declared order. *)
Definition declared_provisioners (c : Container) (w : World) : list string :=
  omap (fun item => provisioners w !! Py.lower (prov_type item))
       (default [] (opt_provisioning (options c))).

(** The records and calls of [_perform_barebones_setup]. *)
Definition barebones_calls (w : World) : list Event :=
  Log INFO "Doing bare bones setup on the machine..."
  :: HostGetSshPubkey
  :: match ssh_pubkey w with
     | Some key => [GuestAddSshPubkey key]
     | None => [Log WARNING
                  "SSH pubkey was not found. Provisioning tools may not work correctly..."]
     end.

(** The records and calls of the body of [provision] of [lxdock] on a
    container whose flag of the provisioning reads [provisioned]. *)
Definition lxdock_provision_trace (c : Container) (w : World) (provisioned : bool)
  : list Event :=
  (match default [] (opt_environment (options c)) with [] => [] | _ => [ContainerSave] end)
    ++ (if provisioned then [] else barebones_calls w)
    ++ [Log INFO ("Provisioning container " +:+ dq +:+ name c +:+ dq +:+ "...")]
    ++ (if provisioned then []
        else List.concat
               ((fun p => [Log INFO ("Performing barebones setup for provisioner " +:+ p);
                           ProvisionerSetup p]) <$> declared_provisioners c w))
    ++ List.concat
         ((fun p => [Log INFO ("Provisioning with " +:+ p); ProvisionerProvision p])
            <$> declared_provisioners c w)
    ++ [ContainerSave].

(** The calls of the provisioning pipeline of [lxdock], without the log
    records, on a container whose flag reads [provisioned]. *)
Definition lxdock_provision_calls (c : Container) (w : World) (provisioned : bool)
  : list Event :=
  (if provisioned then []
   else HostGetSshPubkey
        :: match ssh_pubkey w with Some key => [GuestAddSshPubkey key] | None => [] end
        ++ (ProvisionerSetup <$> declared_provisioners c w))
    ++ (ProvisionerProvision <$> declared_provisioners c w).

(** The object after [provision] of [lxdock]: the overrides of the
    environment and the flag are in the configuration. *)
Definition lxdock_provisioned (c : Container) (r : Remote) : Remote :=
  mkRemote (status_code r)
           (<["user.lxdock.provisioned" := "true"]> (env_applied c (config r)))
           (devices r).

(** The calls to a provisioner. *)
Definition is_provisioner_call (e : Event) : bool :=
  match e with
  | ProvisionerSetup _ | ProvisionerProvision _ => true
  | _ => false
  end.

(** The world that [_setup_hostnames] leaves. *)
Definition setup_world (c : Container) (ip : string) (w : World) : World :=
  if changed (setup_result c ip w) then set_etc_hosts (bindings (setup_result c ip w)) w else w.

(** The object after the steps of [up] of [lxdock] that follow the
    acquisition of the address and precede the provisioning: the shares
    mirror the descriptor, the overrides of the environment are written. *)
Definition lxdock_configured (c : Container) (r : Remote) : Remote :=
  mkRemote (status_code r) (env_applied c (config r))
    (match opt_shares (options c) with
     | Some D => reconciled Lxdock.variant c D (devices r)
     | None => devices r
     end).

(** The last lines of [up] of [lxdock]: the provisioning, by its mode and
    by the flag that [is_provisioned] has read. *)
Definition provisioning_step (c : Container) (mode : option ProvisioningMode)
           (is_provisioned : bool) : M unit :=
  let provisioning_mode := default AUTO mode in
  if negb (bool_decide (provisioning_mode = DISABLED)) then
    if (negb is_provisioned && bool_decide (provisioning_mode = AUTO))
       || bool_decide (provisioning_mode = ENABLED)
    then Lxdock.provision c
    else when is_provisioned
           (logger INFO ("Container " +:+ dq +:+ name c +:+ dq +:+
                         " already provisioned, not provisioning."))
  else ret tt.

(** Whether [up] of [lxdock] provisions, by its mode and by the flag. *)
Definition lxdock_provisions (mode : option ProvisioningMode) (provisioned : bool) : bool :=
  match default AUTO mode with
  | DISABLED => false
  | ENABLED => true
  | AUTO => negb provisioned
  end.

(** The daemon leaves the container running after the next start. *)
Definition start_runs (w : World) : bool :=
  match start_feed w with
  | s :: _ => bool_decide (s = CONTAINER_RUNNING)
  | [] => true
  end.

(** The world after a start that leaves the object [r] running. *)
Definition started_world (w : World) (r : Remote) : World :=
  set_remote (Some (set_status CONTAINER_RUNNING r)) (set_start_feed (drop 1 (start_feed w)) w).

(** The records and calls of the body of [provision] of [nomad], when the
    set-up of the first time is [barebone]. *)
Definition nomad_provision_trace (c : Container) (barebone : bool) : list Event :=
  (if barebone then [Log INFO "Doing bare bone setup on the machine..."; PrepareDebian]
   else [])
    ++ [Log INFO ("Provisioning container " +:+ dq +:+ name c +:+ dq +:+ "...")]
    ++ List.concat
         ((fun item => [Log INFO ("Provisioning with " +:+ prov_type item);
                        ProvisionWithAnsible item])
            <$> default [] (opt_provisioning (options c)))
    ++ [ContainerSave].

(** The object when [up] of [nomad] reaches the start: the shares mirror the
    descriptor, if it has the key, and a container that had a static address
    has got a new one. *)
Definition nomad_prestarted (c : Container) (r : Remote) : Remote :=
  let r1 := mkRemote (status_code r) (config r)
              (match opt_shares (options c) with
               | Some D => reconciled Nomad.variant c D (devices r)
               | None => devices r
               end) in
  if bool_decide (config r !! "user.nomad.static_ip" = Some "true")
  then set_config "user.nomad.static_ip" "true" r1 else r1.

(** The records and calls of [up] of [nomad] between its first test and the
    start. *)
Definition nomad_prestart_trace (c : Container) (w : World) (r : Remote) : list Event :=
  (match opt_shares (options c) with
   | Some _ => Log INFO "Setting up shares..." :: events (Nomad._setup_shares c w)
   | None => []
   end)
    ++ (if bool_decide (config r !! "user.nomad.static_ip" = Some "true")
        then [FindFreeIp; SetStaticIpOnDebian (free_ip w).1 (free_ip w).2; ContainerSave]
        else []).

(** The object after [up] of [nomad]: the one that reached the start, now
    running and with the flag of the provisioning. *)
Definition nomad_converged (c : Container) (r : Remote) : Remote :=
  let r1 := set_status CONTAINER_RUNNING (nomad_prestarted c r) in
  if bool_decide (config r !! "user.nomad.provisioned" = Some "true")
  then r1 else set_config "user.nomad.provisioned" "true" r1.

(** The queries of the address and the sleeps between them. *)
Definition is_address_query (e : Event) : bool :=
  match e with GetIp | Sleep _ => true | _ => false end.

(** ** Sample descriptors and hosts *)

(** A project whose name is longer than a hostname allows. *)
Definition long_project : Container :=
  mkContainer "continuous-integration-of-the-customer-facing-storefront" "/home/dev/store"
    (mkOptions "web" "debian/jessie" None None None None None None None None None None None None).

(** A descriptor with nothing but a name and an image. *)
Definition plain_options : Options :=
  mkOptions "web" "debian/jessie" None None None None None None None None None None None None.

Definition plain_container : Container := mkContainer "shop" "/home/dev/shop" plain_options.

(** A host on which the daemon has no object yet. *)
Definition empty_world : World :=
  mkWorld None ∅ [] [] [] [] None ("10.0.3.2", "10.0.3.1") (fun _ => "a1b2c3d4") ∅
          1000 1065 "/var/lib/lxd".

(** A host on which the container runs. *)
Definition running_world : World :=
  mkWorld (Some (mkRemote CONTAINER_RUNNING ∅ ∅)) ∅ [] [] [] [false] None
          ("10.0.3.2", "10.0.3.1") (fun _ => "a1b2c3d4") ∅ 1000 1065 "/var/lib/lxd".

(** A started container that shows its address on the tenth round of the
    waiting loop: the first query and nine rounds see nothing. *)
Definition tenth_poll_world : World :=
  mkWorld (Some (mkRemote CONTAINER_RUNNING ∅ ∅)) ∅ (replicate 10 "" ++ ["10.0.3.5"])%list
          [] [] [] None ("10.0.3.2", "10.0.3.1") (fun _ => "a1b2c3d4") ∅ 1000 1065 "/var/lib/lxd".

(** Sample descriptors of one project: its shares [a] and [b], a hostname,
    an environment override. *)
Definition share_a : Share := mkShare "a" "/srv/a" None.
Definition share_b : Share := mkShare "b" "/srv/b" None.

Definition shop_options (shares : list Share) (foo : string) : Options :=
  mkOptions "web" "debian/jessie" None None None None None None
            (Some [("FOO", foo)]) (Some ["dev.local"]) (Some shares) None None None.

Definition shop_a : Container := mkContainer "shop" "/home/dev/shop" (shop_options [share_a] "bar").
Definition shop_b : Container := mkContainer "shop" "/home/dev/shop" (shop_options [share_b] "bar").
Definition shop_ab : Container :=
  mkContainer "shop" "/home/dev/shop" (shop_options [share_a; share_b] "bar").

(** [shop_a] after an edit of its environment override. *)
Definition shop_a_edited : Container :=
  mkContainer "shop" "/home/dev/shop" (shop_options [share_a] "baz").

(** A host without the container, on which the network answers at once. *)
Definition fresh_world : World :=
  mkWorld None ∅ ["10.0.3.5"; "10.0.3.9"; "10.0.3.9"] [] [] [] (Some "ssh-rsa AAAA dev")
          ("10.0.3.2", "10.0.3.1") (fun _ => "a1b2c3d4") ∅ 1000 1065 "/var/lib/lxd".

(** A host without the container, on which no address ever shows. *)
Definition no_ip_world : World :=
  mkWorld None ∅ [] [] [] [] (Some "ssh-rsa AAAA dev")
          ("10.0.3.2", "10.0.3.1") (fun _ => "a1b2c3d4") ∅ 1000 1065 "/var/lib/lxd".

(** A stopped container with shares left by earlier runs and a device of
    its own. *)
Definition stale_remote : Remote :=
  mkRemote CONTAINER_STOPPED ∅
    (<["lxdockshare1" := shareconf "/home/dev/shop/old" (mkShare "old" "/srv/old" None)]>
       (<["lxdockshare7" := shareconf "/home/dev/shop/a" share_a]>
          (<["nomadshare3" := shareconf "/home/dev/shop/a" share_a]>
             (<["eth0" := <["type" := "nic"]> ∅]> ∅)))).

Definition stale_world : World :=
  mkWorld (Some stale_remote) ∅ [] [] [] [] None
          ("10.0.3.2", "10.0.3.1") (fun _ => "a1b2c3d4") ∅ 1000 1065 "/var/lib/lxd".

(** A host with one registered provisioner, on which the container runs. *)
Definition ansible_host : World :=
  mkWorld (Some (mkRemote CONTAINER_RUNNING ∅ ∅)) ∅ [] [] [] [] (Some "ssh-rsa AAAA dev")
          ("10.0.3.2", "10.0.3.1") (fun _ => "a1b2c3d4") {[ "ansible" := "ansible" ]}
          1000 1065 "/var/lib/lxd".

(** A descriptor whose only provisioning item has a type that is not
    registered. *)
Definition puppet_container : Container :=
  mkContainer "shop" "/home/dev/shop"
    (mkOptions "web" "debian/jessie" None None None None None None None None None None
               (Some [mkProvisioningItem "Puppet" []]) None).

(** A descriptor with two provisioning items, the first of a registered
    type written with a capital. *)
Definition ansible_container : Container :=
  mkContainer "shop" "/home/dev/shop"
    (mkOptions "web" "debian/jessie" None None None None None None None None None None
               (Some [mkProvisioningItem "Ansible" [("playbook", "site.yml")];
                      mkProvisioningItem "Puppet" []]) None).

(** A stopped container with stale shares, on a host where an address shows
    after two queries. *)
Definition stale_world_restart : World :=
  mkWorld (Some stale_remote) ∅ [""; ""; "10.0.3.7"] [] [] [] None
          ("10.0.3.2", "10.0.3.1") (fun _ => "a1b2c3d4") ∅ 1000 1065 "/var/lib/lxd".

(** A descriptor with a shell user and a home for it. *)
Definition deploy_container : Container :=
  mkContainer "shop" "/home/dev/shop"
    (mkOptions "web" "debian/jessie" None None None None None None
               (Some [("FOO", "bar")]) None None None None
               (Some (mkShellConfig (Some "deploy") (Some "/srv/app")))).

(** A stopped container that got a static address in an earlier run, on a
    host where the address shows at once. *)
Definition static_world : World :=
  mkWorld (Some (mkRemote CONTAINER_STOPPED {[ "user.nomad.static_ip" := "true" ]} ∅)) ∅
          ["10.0.3.2"] [] [] [] None ("10.0.3.2", "10.0.3.1") (fun _ => "a1b2c3d4") ∅
          1000 1065 "/var/lib/lxd".

(** A stopped container with a share of [lxdock] that has lost its
    ['source']. *)
Definition broken_share_remote : Remote :=
  mkRemote CONTAINER_STOPPED ∅
    (<["lxdockshare1" := <["type" := "disk"]> (<["path" := "/srv/a"]> ∅)]>
       (<["eth0" := <["type" := "nic"]> ∅]> ∅)).

Definition broken_share_world : World :=
  mkWorld (Some broken_share_remote) ∅ [] [] [] [] None
          ("10.0.3.2", "10.0.3.1") (fun _ => "a1b2c3d4") ∅ 1000 1065 "/var/lib/lxd".

(** * Properties *)

(** ** Running the monad *)

Lemma after_nil {A} (o : Out A) : after [] o = o.
Proof. by destruct o. Qed.

Lemma after_after {A} e1 e2 (o : Out A) : after e1 (after e2 o) = after (e1 ++ e2) o.
Proof. destruct o. simpl. by rewrite app_assoc. Qed.

Lemma bind_ok {A B} (m : M A) (k : A -> M B) w a w' evs :
  m w = mkOut (Ok a) w' evs -> bind m k w = after evs (k a w').
Proof. intros H. unfold bind. rewrite H. reflexivity. Qed.

Lemma bind_raise {A B} (m : M A) (k : A -> M B) w e w' evs :
  m w = mkOut (Raise e) w' evs -> bind m k w = mkOut (Raise e) w' evs.
Proof. intros H. unfold bind. rewrite H. reflexivity. Qed.

Lemma bind_emit {B} (e : Event) (k : unit -> M B) w :
  bind (emit e) k w = after [e] (k tt w).
Proof. reflexivity. Qed.

Lemma bind_ret {A B} (a : A) (k : A -> M B) w : bind (ret a) k w = k a w.
Proof. unfold bind, ret. apply after_nil. Qed.

Lemma bind_get_world {B} (k : World -> M B) w : bind get_world k w = k w w.
Proof. unfold bind, get_world. apply after_nil. Qed.

Lemma bind_assoc {A B C} (m : M A) (f : A -> M B) (g : B -> M C) w :
  bind (bind m f) g w = bind m (fun x => bind (f x) g) w.
Proof.
  unfold bind. destruct (m w) as [[a|e] w1 ev1]; [|reflexivity].
  destruct (f a w1) as [[b|e] w2 ev2]; simpl; [|reflexivity].
  by rewrite after_after.
Qed.

(** The last step of a run: the events of the steps, put together. *)
Ltac finish :=
  unfold ret, when; cbn [after app negb]; rewrite ?app_nil_r, <- ?app_assoc;
  cbn [app]; try reflexivity.

(** Flattening of a run: nested sequences, emitted events, returns. *)
Ltac norm :=
  repeat (rewrite bind_assoc || rewrite bind_emit || rewrite bind_ret
          || rewrite bind_get_world || rewrite after_nil).

(** A loop whose body only logs and updates the loop-carried value leaves
    the world alone. *)
Lemma for_fold_log {A S} (l : list A) (s : S) lvl (msg : A -> string) (f : S -> A -> S) w :
  for_fold l s (fun s x => logger lvl (msg x) ;; ret (f s x)) w
  = mkOut (Ok (foldl f s l)) w ((fun x => Log lvl (msg x)) <$> l).
Proof.
  revert s. induction l as [|x l IH]; intros s; [reflexivity|].
  simpl. unfold bind. simpl. rewrite IH. reflexivity.
Qed.

(** A loop whose body only emits events. *)
Lemma for_each_emit {A} (l : list A) (f : A -> list Event) (body : A -> M unit) w :
  (forall x w, body x w = mkOut (Ok tt) w (f x)) ->
  for_each l body w = mkOut (Ok tt) w (List.concat (f <$> l)).
Proof.
  intros Hb. unfold for_each. induction l as [|x l IH]; [reflexivity|].
  simpl. unfold bind. rewrite Hb. rewrite IH. reflexivity.
Qed.

(** ** The handle of an existing object *)

Section Existing.

Context (V : Variant) (c : Container) (w : World) (r : Remote).
Hypothesis Hr : remote w = Some r.

Lemma get_container_existing create :
  _get_container V c create w = mkOut (Ok true) w [].
Proof using Hr. unfold _get_container, bind, containers_get. simpl. rewrite Hr. reflexivity. Qed.

Lemma handle_existing : handle w = mkOut (Ok r) w [].
Proof using Hr. unfold handle. rewrite Hr. reflexivity. Qed.

Lemma container_existing : _container V c w = mkOut (Ok r) w [].
Proof using Hr.
  unfold _container. rewrite (bind_ok _ _ _ _ _ _ (get_container_existing true)).
  rewrite handle_existing. reflexivity.
Qed.

Lemma is_running_existing :
  is_running V c w = mkOut (Ok (bool_decide (status_code r = CONTAINER_RUNNING))) w [].
Proof using Hr. unfold is_running. rewrite (bind_ok _ _ _ _ _ _ container_existing). reflexivity. Qed.

Lemma is_stopped_existing :
  is_stopped V c w = mkOut (Ok (bool_decide (status_code r = CONTAINER_STOPPED))) w [].
Proof using Hr. unfold is_stopped. rewrite (bind_ok _ _ _ _ _ _ container_existing). reflexivity. Qed.

Lemma is_provisioned_existing :
  is_provisioned V c w
  = mkOut (Ok (bool_decide (config r !! ("user." +:+ product V +:+ ".provisioned") = Some "true"))) w [].
Proof using Hr. unfold is_provisioned. rewrite (bind_ok _ _ _ _ _ _ container_existing). reflexivity. Qed.

Lemma is_privileged_existing :
  is_privileged V c w
  = mkOut (Ok (bool_decide (config r !! "security.privileged" = Some "true"))) w [].
Proof using Hr. unfold is_privileged. rewrite (bind_ok _ _ _ _ _ _ container_existing). reflexivity. Qed.

Lemma update_handle_existing f :
  update_handle f w = mkOut (Ok tt) (set_remote (Some (f r)) w) [].
Proof using Hr. unfold update_handle. rewrite (bind_ok _ _ _ _ _ _ handle_existing). reflexivity. Qed.

Lemma container_save_existing : container_save w = mkOut (Ok tt) w [ContainerSave].
Proof using Hr. unfold container_save. rewrite (bind_ok _ _ _ _ _ _ handle_existing). reflexivity. Qed.

End Existing.

(** ** The name of the container in the scope of the daemon *)

Lemma length_app_string (a b : string) :
  String.length (a +:+ b) = String.length a + String.length b.
Proof. induction a as [|x a IH]; simpl; [reflexivity|]. by rewrite IH. Qed.

Lemma length_take n s : String.length (Py.take n s) = n `min` String.length s.
Proof.
  revert s. induction n as [|n IH]; intros [|a s]; simpl; try reflexivity.
  by rewrite IH.
Qed.

Lemma length_slice_to s (k : Z) :
  (0 <= k)%Z -> String.length (Py.slice_to s k) = Z.to_nat k `min` String.length s.
Proof.
  intros Hk. unfold Py.slice_to.
  destruct (Z.ltb_spec k 0); [lia|]. apply length_take.
Qed.

(** The length of [lxd_name] when the identifier leaves room for a prefix:
    the truncated prefix, the hyphen and the identifier. *)
Lemma lxd_name_length c fid :
  String.length (fid (homedir c)) <= 63 ->
  String.length (lxd_name c fid)
  = ((63 - String.length (fid (homedir c)))
       `min` String.length (project_name c +:+ "-" +:+ name c))
    + 1 + String.length (fid (homedir c)).
Proof.
  intros Hid. unfold lxd_name.
  rewrite !length_app_string, length_slice_to by lia.
  rewrite !length_app_string.
  replace (Z.to_nat (63 - Z.of_nat (String.length (fid (homedir c)))))
    with (63 - String.length (fid (homedir c))) by lia.
  change (String.length "-") with 1. lia.
Qed.

(** The memoised property is a function of the descriptor and of the
    identifier of the directory: it never changes between two reads. *)
Lemma lxd_name_stable c c' fid :
  project_name c = project_name c' -> name c = name c' ->
  fid (homedir c) = fid (homedir c') -> lxd_name c fid = lxd_name c' fid.
Proof. intros H1 H2 H3. unfold lxd_name. by rewrite H1, H2, H3. Qed.

(** C4: the name is meant to be at most 63 characters long, but the
    truncation of the prefix leaves no room for the hyphen that joins it to
    the identifier: as soon as the prefix has to be cut, the name is 64
    characters long. *)
Theorem lxd_name_overlong c fid :
  String.length (fid (homedir c)) <= 63 ->
  63 - String.length (fid (homedir c))
    <= String.length (project_name c +:+ "-" +:+ name c) ->
  String.length (lxd_name c fid) = 64.
Proof. intros Hid Hlong. rewrite lxd_name_length by done. lia. Qed.

Lemma lxd_name_overlong_witness :
  String.length (lxd_name long_project (fun _ => "a1b2c3d4")) = 64.
Proof. apply lxd_name_overlong; simpl; lia. Defined.

(** ** [halt], [destroy] and the guards *)

Lemma unsetup_hostnames_run c w :
  _unsetup_hostnames c w
  = mkOut (Ok tt)
      (if changed (unsetup_result c w)
       then set_etc_hosts (bindings (unsetup_result c w)) w else w)
      (((fun h => Log INFO ("Unsetting " +:+ h +:+ ". sudo needed.")) <$> hostnames c)
         ++ if changed (unsetup_result c w) then [EtcHostsSave] else []).
Proof.
  unfold _unsetup_hostnames, unsetup_result.
  destruct (hostnames c) as [|h hs] eqn:Hh; [reflexivity|].
  generalize (h :: hs). intros l.
  rewrite (bind_ok EtcHosts_init _ w (mkEtcHosts (etc_hosts w) false) w []) by reflexivity.
  rewrite (bind_ok _ _ _ _ _ _ (for_fold_log _ _ _ _ _ _)).
  match goal with |- context [changed ?e] => destruct (changed e) end; reflexivity.
Qed.

Lemma setup_hostnames_run c ip w :
  _setup_hostnames c ip w
  = mkOut (Ok tt)
      (if changed (setup_result c ip w)
       then set_etc_hosts (bindings (setup_result c ip w)) w else w)
      (((fun h => Log INFO ("Setting " +:+ h +:+ " to point to " +:+ ip +:+ ".")) <$> hostnames c)
         ++ if changed (setup_result c ip w)
            then [Log INFO "Saving host bindings to /etc/hosts. sudo may be needed"; EtcHostsSave]
            else []).
Proof.
  unfold _setup_hostnames, setup_result.
  destruct (hostnames c) as [|h hs] eqn:Hh; [reflexivity|].
  generalize (h :: hs). intros l.
  rewrite (bind_ok EtcHosts_init _ w (mkEtcHosts (etc_hosts w) false) w []) by reflexivity.
  rewrite (bind_ok _ _ _ _ _ _ (for_fold_log _ _ _ _ _ _)).
  match goal with |- context [changed ?e] => destruct (changed e) end; reflexivity.
Qed.

Lemma filter_mutation_logs {A} (f : A -> string) lvl (l : list A) :
  List.filter is_daemon_mutation ((fun x => Log lvl (f x)) <$> l) = [].
Proof. induction l as [|x l IH]; simpl; done. Qed.

(** [_get_container] when the daemon has no such object. *)
Lemma get_container_absent_no_create V c w :
  remote w = None -> _get_container V c false w = mkOut (Ok false) w [].
Proof.
  intros Hw. unfold _get_container.
  rewrite (bind_ok containers_get _ w false w []) by (unfold containers_get; by rewrite Hw).
  reflexivity.
Qed.

Lemma get_container_absent_create V c w :
  remote w = None ->
  _get_container V c true w
  = after [Log WARNING ("Unable to find container " +:+ dq +:+ name c +:+ dq +:+
                        " for directory " +:+ dq +:+ homedir c +:+ dq);
           Log INFO ("Creating new container " +:+ dq +:+ lxd_name c (folderid w) +:+ dq +:+
                     " from image " +:+ opt_image (options c));
           ContainersCreate (container_config V c (lxd_name c (folderid w)))]
      (match create_feed w with
       | Some msg :: feed =>
           mkOut (Raise ContainerOperationFailed) (set_create_feed feed w)
                 [Log ERROR ("Can't create container: " +:+ msg)]
       | None :: feed =>
           mkOut (Ok true)
             (set_remote (Some (mkRemote CONTAINER_STOPPED
                                  (spec_config (container_config V c (lxd_name c (folderid w)))) ∅))
                         (set_create_feed feed w)) []
       | [] =>
           mkOut (Ok true)
             (set_remote (Some (mkRemote CONTAINER_STOPPED
                                  (spec_config (container_config V c (lxd_name c (folderid w)))) ∅))
                         w) []
       end).
Proof.
  intros Hw. unfold _get_container.
  rewrite (bind_ok containers_get _ w false w []) by (unfold containers_get; by rewrite Hw).
  rewrite after_nil. cbv beta iota delta [negb].
  rewrite bind_get_world. unfold logger. rewrite !bind_emit, after_after.
  unfold try_except, bind, containers_create.
  destruct (create_feed w) as [|[msg|] feed]; reflexivity.
Qed.

(** [destroy] on a container that the daemon does not have: one log record,
    no call. *)
Lemma destroy_absent_noop V c w :
  remote w = None ->
  destroy V c w
  = mkOut (Ok tt) w [Log INFO "Container doesn't exist, nothing to destroy."].
Proof.
  intros Hw. unfold destroy.
  rewrite (bind_ok _ _ _ _ _ _ (get_container_absent_no_create V c w Hw)).
  reflexivity.
Qed.

(** C5: [halt] on a container that the daemon does not have asks for its
    status through [_container], which creates the container: the daemon
    receives one [create] call, whether the creation succeeds or not. *)
Theorem halt_absent_creates V c w :
  remote w = None ->
  List.filter is_daemon_mutation (events (halt V c w))
  = [ContainersCreate (container_config V c (lxd_name c (folderid w)))].
Proof.
  intros Hw. unfold halt, is_stopped, _container.
  rewrite !bind_assoc. unfold bind at 1.
  rewrite (get_container_absent_create V c w Hw).
  destruct (create_feed w) as [|[msg|] feed]; [|reflexivity|].
  all: cbv beta iota delta [after app].
  all: erewrite (bind_ok handle) by (apply handle_existing; reflexivity).
  all: rewrite after_nil, bind_ret.
  all: reflexivity.
Qed.

Lemma halt_absent_creates_witness :
  List.filter is_daemon_mutation (events (halt Lxdock.variant plain_container empty_world))
  = [ContainersCreate (container_config Lxdock.variant plain_container
                         (lxd_name plain_container (folderid empty_world)))].
Proof. apply halt_absent_creates. reflexivity. Defined.

(** C9: on an existing container that is not stopped, [halt] issues the
    graceful stop with its timeout of 30 seconds and, exactly when that call
    raises the daemon's exception, one forced stop; these are all the calls
    the daemon receives. *)
Theorem halt_stop_fallback V c w r :
  remote w = Some r ->
  status_code r <> CONTAINER_STOPPED ->
  List.filter is_daemon_mutation (events (halt V c w))
  = ContainerStop (Some 30) (Some false)
      :: match stop_feed w with
         | false :: _ => [ContainerStop None (Some true)]
         | _ => []
         end.
Proof.
  intros Hr Hs. unfold halt.
  rewrite (bind_ok _ _ _ _ _ _ (is_stopped_existing V c w r Hr)), after_nil.
  rewrite bool_decide_eq_false_2 by done.
  rewrite (bind_ok _ _ _ _ _ _ (unsetup_hostnames_run c w)).
  set (w1 := if changed (unsetup_result c w) then _ else w).
  assert (Hr1 : remote w1 = Some r) by (subst w1; destruct (changed _); done).
  assert (Hf1 : stop_feed w1 = stop_feed w) by (subst w1; destruct (changed _); done).
  unfold logger. rewrite bind_emit, after_after.
  assert (Hrun : exists o,
    try_except
      (_ <- _container V c ;; container_stop (Some 30) (Some false))
      (fun e => match e with
                | LXDAPIException _ =>
                    Some (emit (Log WARNING "Can't stop the container. Forcing...") ;;
                          _ <- _container V c ;; container_stop None (Some true))
                | _ => None
                end) w1 = o
    /\ events o = ContainerStop (Some 30) (Some false)
                    :: match stop_feed w with
                       | false :: _ =>
                           [Log WARNING "Can't stop the container. Forcing...";
                            ContainerStop None (Some true)]
                       | _ => []
                       end).
  { eexists. split; [reflexivity|].
    unfold try_except.
    rewrite (bind_ok _ _ _ _ _ _ (container_existing V c w1 r Hr1)), after_nil.
    unfold container_stop at 1.
    rewrite (bind_ok _ _ _ _ _ _ (handle_existing w1 r Hr1)), after_nil.
    rewrite bind_emit. cbv beta.
    rewrite Hf1. destruct (stop_feed w) as [|[|] feed]; [reflexivity|reflexivity|].
    cbv beta iota delta [after app].
    rewrite bind_emit.
    rewrite (bind_ok _ _ _ _ _ _ (container_existing V c (set_stop_feed feed w1) r Hr1)), after_nil.
    unfold container_stop.
    rewrite (bind_ok _ _ _ _ _ _ (handle_existing (set_stop_feed feed w1) r Hr1)), after_nil.
    rewrite bind_emit. unfold bind.
    destruct feed as [|[|] feed]; reflexivity. }
  destruct Hrun as (o & -> & Ho). destruct o as [ro wo evo]. simpl in Ho. subst evo.
  cbv beta iota delta [after events].
  rewrite !List.filter_app, filter_mutation_logs.
  destruct (changed (unsetup_result c w)), (stop_feed w) as [|[|] ?]; reflexivity.
Qed.

Lemma halt_stop_fallback_witness :
  List.filter is_daemon_mutation (events (halt Lxdock.variant plain_container running_world))
  = [ContainerStop (Some 30) (Some false); ContainerStop None (Some true)].
Proof.
  apply (halt_stop_fallback Lxdock.variant plain_container running_world
           (mkRemote CONTAINER_RUNNING ∅ ∅)); [reflexivity | discriminate].
Defined.

(** The guard of [lxdock]: nothing but the log record of the precondition,
    whatever the guarded method is. *)
Lemma lxdock_guard_absent c (method : M unit) w :
  remote w = None ->
  Lxdock.must_be_created_and_running c method w
  = mkOut (Ok tt) w [Log ERROR "The container is not created."].
Proof.
  intros Hw. unfold Lxdock.must_be_created_and_running, exists_.
  rewrite (bind_ok containers_get _ w false w []) by (unfold containers_get; by rewrite Hw).
  reflexivity.
Qed.

Lemma lxdock_guard_not_running c (method : M unit) w r :
  remote w = Some r -> status_code r <> CONTAINER_RUNNING ->
  Lxdock.must_be_created_and_running c method w
  = mkOut (Ok tt) w [Log ERROR "The container is not running."].
Proof.
  intros Hw Hs. unfold Lxdock.must_be_created_and_running, exists_.
  rewrite (bind_ok containers_get _ w true w []) by (unfold containers_get; by rewrite Hw).
  rewrite after_nil. cbv beta iota delta [negb].
  rewrite (bind_ok _ _ _ _ _ _ (is_running_existing _ c w r Hw)).
  rewrite bool_decide_eq_false_2 by done. reflexivity.
Qed.

Lemma lxdock_guard_running c (method : M unit) w r :
  remote w = Some r -> status_code r = CONTAINER_RUNNING ->
  Lxdock.must_be_created_and_running c method w = method w.
Proof.
  intros Hw Hs. unfold Lxdock.must_be_created_and_running, exists_.
  rewrite (bind_ok containers_get _ w true w []) by (unfold containers_get; by rewrite Hw).
  rewrite after_nil. cbv beta iota delta [negb].
  rewrite (bind_ok _ _ _ _ _ _ (is_running_existing _ c w r Hw)).
  rewrite bool_decide_eq_true_2 by done. apply after_nil.
Qed.

(** In [lxdock], on a container that is not created or not running, a
    guarded method does nothing: it returns normally, the world is the one
    it found, no call reaches the daemon or the guest, and the only record
    is the error of the precondition. *)
Lemma lxdock_guard_no_effect c (method : M unit) w :
  (forall r, remote w = Some r -> status_code r <> CONTAINER_RUNNING) ->
  let o := Lxdock.must_be_created_and_running c method w in
  res o = Ok tt /\ world o = w
  /\ List.filter is_daemon_mutation (events o) = []
  /\ List.filter is_guest_command (events o) = []
  /\ List.length (List.filter is_error_log (events o)) = 1.
Proof.
  intros Hw. destruct (remote w) as [r|] eqn:Hr.
  - rewrite (lxdock_guard_not_running c method w r Hr (Hw r eq_refl)). by repeat split.
  - rewrite (lxdock_guard_absent c method w Hr). by repeat split.
Qed.

(** The guard of [nomad] on an existing container that does not run. *)
Lemma nomad_guard_not_running c (method : M unit) w r :
  remote w = Some r -> status_code r <> CONTAINER_RUNNING ->
  Nomad.must_be_running c method w
  = mkOut (Ok tt) w [Log ERROR "The container is not running."].
Proof.
  intros Hw Hs. unfold Nomad.must_be_running.
  rewrite (bind_ok _ _ _ _ _ _ (is_running_existing _ c w r Hw)).
  rewrite bool_decide_eq_false_2 by done. reflexivity.
Qed.

Lemma nomad_guard_running c (method : M unit) w r :
  remote w = Some r -> status_code r = CONTAINER_RUNNING ->
  Nomad.must_be_running c method w = method w.
Proof.
  intros Hw Hs. unfold Nomad.must_be_running.
  rewrite (bind_ok _ _ _ _ _ _ (is_running_existing _ c w r Hw)).
  rewrite bool_decide_eq_true_2 by done. apply after_nil.
Qed.

(** The guard of [nomad] on a container that the daemon does not have: the
    status is read through [_container], which creates the container. *)
Lemma nomad_guard_absent c (method : M unit) w :
  remote w = None ->
  List.filter is_daemon_mutation (events (Nomad.must_be_running c method w))
  = [ContainersCreate (Nomad.container_config c (lxd_name c (folderid w)))].
Proof.
  intros Hw. unfold Nomad.must_be_running, is_running, _container.
  rewrite !bind_assoc. unfold bind at 1.
  rewrite (get_container_absent_create Nomad.variant c w Hw).
  destruct (create_feed w) as [|[msg|] feed]; [|reflexivity|].
  all: cbv beta iota delta [after app].
  all: erewrite (bind_ok handle) by (apply handle_existing; reflexivity).
  all: rewrite after_nil, bind_ret.
  all: reflexivity.
Qed.

(** C6: in [lxdock] the guard returns with one error record for a container
    that is not created or not running (the three lemmas above); in [nomad]
    the guard has no test of existence, and [provision] and [shell] on a
    container that the daemon does not have send one [create] call. *)
Theorem nomad_provision_shell_absent_create c barebone w :
  remote w = None ->
  List.filter is_daemon_mutation (events (Nomad.provision c barebone w))
  = [ContainersCreate (Nomad.container_config c (lxd_name c (folderid w)))]
  /\ List.filter is_daemon_mutation (events (Nomad.shell c w))
     = [ContainersCreate (Nomad.container_config c (lxd_name c (folderid w)))].
Proof.
  intros Hw. split.
  - exact (nomad_guard_absent c (Nomad.provision_body c barebone) w Hw).
  - exact (nomad_guard_absent c (Nomad.shell_body c) w Hw).
Qed.

Lemma nomad_provision_shell_absent_create_witness :
  List.filter is_daemon_mutation (events (Nomad.provision plain_container None empty_world))
  = [ContainersCreate (Nomad.container_config plain_container
                         (lxd_name plain_container (folderid empty_world)))]
  /\ List.filter is_daemon_mutation (events (Nomad.shell plain_container empty_world))
     = [ContainersCreate (Nomad.container_config plain_container
                            (lxd_name plain_container (folderid empty_world)))].
Proof. exact (nomad_provision_shell_absent_create plain_container None empty_world eq_refl). Defined.

(** ** Acquisition of the address *)

Lemma set_ip_feed_id w : set_ip_feed (ip_feed w) w = w.
Proof. by destruct w. Qed.

Lemma get_ip_cons w x rest :
  ip_feed w = x :: rest -> get_ip w = mkOut (Ok x) (set_ip_feed rest w) [GetIp].
Proof. intros H. unfold get_ip. rewrite bind_emit. cbv beta. rewrite H. reflexivity. Qed.

Lemma get_ip_nil w :
  ip_feed w = [] -> get_ip w = mkOut (Ok "") w [GetIp].
Proof. intros H. unfold get_ip. rewrite bind_emit. cbv beta. rewrite H. reflexivity. Qed.

(** A query that sees no address: the world after it. *)
Lemma get_ip_empty w :
  Forall (eq "") (take 1 (ip_feed w)) ->
  get_ip w = mkOut (Ok "") (set_ip_feed (drop 1 (ip_feed w)) w) [GetIp].
Proof.
  intros H. destruct (ip_feed w) as [|x rest] eqn:Hf.
  - rewrite (get_ip_nil w Hf). simpl. by rewrite <- Hf, set_ip_feed_id.
  - rewrite (get_ip_cons w x rest Hf). simpl in H. inversion H; subst. reflexivity.
Qed.

(** The waiting loop returns the first address that a query sees. *)
Lemma wait_for_ip_found V c n k w r x rest :
  remote w = Some r ->
  ip_feed w = (replicate k "" ++ x :: rest)%list ->
  Py.truthy x = true ->
  k < n ->
  _wait_for_ip V c n w = mkOut (Ok x) (set_ip_feed rest w) (polls (S k)).
Proof.
  revert n w. induction k as [|k IH]; intros n w Hr Hf Hx Hk;
    (destruct n as [|n]; [lia|]); simpl _wait_for_ip; simpl in Hf.
  - rewrite bind_emit.
    rewrite (bind_ok _ _ _ _ _ _ (container_existing V c w r Hr)).
    rewrite (bind_ok _ _ _ _ _ _ (get_ip_cons w x rest Hf)).
    rewrite Hx. reflexivity.
  - rewrite bind_emit.
    rewrite (bind_ok _ _ _ _ _ _ (container_existing V c w r Hr)).
    rewrite (bind_ok _ _ _ _ _ _ (get_ip_cons w "" _ Hf)).
    change (Py.truthy "") with false. cbv iota.
    rewrite (IH n (set_ip_feed (replicate k "" ++ x :: rest)%list w)) by (done || lia).
    reflexivity.
Qed.

(** The waiting loop gives up after [n] queries without an address. *)
Lemma wait_for_ip_none V c n w r :
  remote w = Some r ->
  Forall (eq "") (take n (ip_feed w)) ->
  _wait_for_ip V c n w = mkOut (Ok "") (set_ip_feed (drop n (ip_feed w)) w) (polls n).
Proof.
  revert w. induction n as [|n IH]; intros w Hr Hf.
  - simpl. by rewrite drop_0, set_ip_feed_id.
  - simpl _wait_for_ip. rewrite bind_emit.
    rewrite (bind_ok _ _ _ _ _ _ (container_existing V c w r Hr)).
    assert (H1 : Forall (eq "") (take 1 (ip_feed w))).
    { destruct (ip_feed w); simpl in *; [constructor|].
      inversion Hf; subst. rewrite take_0. by repeat constructor. }
    rewrite (bind_ok _ _ _ _ _ _ (get_ip_empty w H1)).
    change (Py.truthy "") with false. cbv iota.
    rewrite (IH (set_ip_feed (drop 1 (ip_feed w)) w)).
    + cbn [ip_feed set_ip_feed]. rewrite drop_drop. reflexivity.
    + done.
    + cbn [ip_feed set_ip_feed]. destruct (ip_feed w); simpl in *; [by rewrite take_nil|].
      by inversion Hf.
Qed.

Lemma lxdock_setup_ip_found c w r k x rest :
  remote w = Some r ->
  ip_feed w = (replicate k "" ++ x :: rest)%list ->
  Py.truthy x = true ->
  k <= 10 ->
  Lxdock._setup_ip c w
  = mkOut (Ok x) (set_ip_feed rest w)
      (GetIp :: match k with
                | 0 => []
                | S _ => Log INFO "No IP yet, waiting for at most 10 seconds..." :: polls k
                end).
Proof.
  intros Hr Hf Hx Hk. unfold Lxdock._setup_ip.
  rewrite (bind_ok _ _ _ _ _ _ (container_existing _ c w r Hr)), after_nil.
  destruct k as [|k]; simpl in Hf.
  - rewrite (bind_ok _ _ _ _ _ _ (get_ip_cons w x rest Hf)).
    rewrite Hx. cbn [negb]. rewrite bind_ret. unfold when. rewrite Hx. cbn [negb].
    rewrite bind_ret. finish.
  - rewrite (bind_ok _ _ _ _ _ _ (get_ip_cons w "" _ Hf)).
    change (Py.truthy "") with false. cbn [negb].
    unfold logger at 1. rewrite bind_assoc, bind_emit.
    rewrite (bind_ok _ _ _ _ _ _
               (wait_for_ip_found _ c 10 k (set_ip_feed _ w) r x rest Hr eq_refl Hx ltac:(lia))).
    unfold when. rewrite Hx. cbn [negb]. rewrite bind_ret. finish.
Qed.

Lemma take_S_empty (l : list string) n :
  Forall (eq "") (take (S n) l) ->
  Forall (eq "") (take 1 l) /\ Forall (eq "") (take n (drop 1 l)).
Proof.
  destruct l as [|y l]; simpl.
  - rewrite take_nil. by split.
  - intros H. inversion H; subst. rewrite take_0. split; [by repeat constructor | done].
Qed.

Lemma lxdock_setup_ip_none c w r :
  remote w = Some r ->
  Forall (eq "") (take 11 (ip_feed w)) ->
  Lxdock._setup_ip c w
  = mkOut (Ok "") (set_ip_feed (drop 11 (ip_feed w)) w)
      (GetIp :: Log INFO "No IP yet, waiting for at most 10 seconds..." :: polls 10
         ++ [Log WARNING "STILL no IP! Container is up, but probably broken.";
             Log INFO "Maybe that restarting it will help? Not trying to provision."]).
Proof.
  intros Hr Hf. unfold Lxdock._setup_ip.
  rewrite (bind_ok _ _ _ _ _ _ (container_existing _ c w r Hr)), after_nil.
  destruct (take_S_empty _ _ Hf) as [H1 H10].
  rewrite (bind_ok _ _ _ _ _ _ (get_ip_empty w H1)).
  change (Py.truthy "") with false. cbn [negb].
  unfold logger at 1. rewrite bind_assoc, bind_emit.
  rewrite (bind_ok _ _ _ _ _ _
             (wait_for_ip_none _ c 10 (set_ip_feed _ w) r Hr H10)).
  cbn [ip_feed set_ip_feed]. rewrite drop_drop. finish.
Qed.

Lemma nomad_setup_ip_found c w r k x rest :
  remote w = Some r ->
  ip_feed w = (replicate k "" ++ x :: rest)%list ->
  Py.truthy x = true ->
  k <= 10 ->
  Nomad._setup_ip c w
  = mkOut (Ok x) (set_ip_feed rest w)
      (GetIp :: match k with
                | 0 => []
                | S _ => Log INFO "No IP yet, waiting 10 seconds..." :: polls k
                end).
Proof.
  intros Hr Hf Hx Hk. unfold Nomad._setup_ip.
  rewrite (bind_ok _ _ _ _ _ _ (container_existing _ c w r Hr)), after_nil.
  destruct k as [|k]; simpl in Hf.
  - rewrite (bind_ok _ _ _ _ _ _ (get_ip_cons w x rest Hf)).
    rewrite Hx. cbn [negb]. rewrite bind_ret. rewrite Hx. cbn [negb]. rewrite bind_ret.
    unfold when. rewrite Hx. cbn [negb]. rewrite bind_ret. finish.
  - rewrite (bind_ok _ _ _ _ _ _ (get_ip_cons w "" _ Hf)).
    change (Py.truthy "") with false. cbn [negb].
    unfold logger at 1. rewrite bind_assoc, bind_emit.
    rewrite (bind_ok _ _ _ _ _ _
               (wait_for_ip_found _ c 10 k (set_ip_feed _ w) r x rest Hr eq_refl Hx ltac:(lia))).
    rewrite Hx. cbn [negb]. rewrite bind_ret.
    unfold when. rewrite Hx. cbn [negb]. rewrite bind_ret. finish.
Qed.

(** Steps through calls on an object that exists. *)
Ltac run_existing V c :=
  repeat
    match goal with
    | |- context [bind (_container V c) ?k ?w2] =>
        erewrite (bind_ok (_container V c) k w2)
          by (apply container_existing; reflexivity); norm
    | |- context [bind (update_handle ?f) ?k ?w2] =>
        erewrite (bind_ok (update_handle f) k w2)
          by (apply update_handle_existing; reflexivity); norm
    | |- context [bind container_save ?k ?w2] =>
        erewrite (bind_ok container_save k w2)
          by (eapply container_save_existing; reflexivity); norm
    | |- context [bind handle ?k ?w2] =>
        erewrite (bind_ok handle k w2) by (apply handle_existing; reflexivity); norm
    end.

Ltac nomad_cycle c w :=
  norm; unfold Nomad._assign_free_static_ip; norm;
  run_existing Nomad.variant c;
  unfold container_start; norm; run_existing Nomad.variant c;
  unfold bind at 1; cbv beta;
  match goal with
  | |- context [start_feed ?x] => change (start_feed x) with (start_feed w)
  end;
  destruct (start_feed w) as [|? ?]; cbv beta iota;
  norm; rewrite !after_after; reflexivity.

Lemma nomad_setup_ip_fallback c w r :
  remote w = Some r ->
  Forall (eq "") (take 11 (ip_feed w)) ->
  head (stop_feed w) <> Some false ->
  Nomad._setup_ip c w
  = after (GetIp :: Log INFO "No IP yet, waiting 10 seconds..." :: polls 10
             ++ Log INFO "Still no IP! Forcing a static IP..." :: static_ip_cycle w)
      (bind (_wait_for_ip Nomad.variant c 10) report_ip (static_ip_world w r)).
Proof.
  intros Hr Hf Hstop. unfold Nomad._setup_ip.
  rewrite (bind_ok _ _ _ _ _ _ (container_existing _ c w r Hr)), after_nil.
  destruct (take_S_empty _ _ Hf) as [H1 H10].
  rewrite (bind_ok _ _ _ _ _ _ (get_ip_empty w H1)).
  change (Py.truthy "") with false. cbn [negb].
  unfold logger at 1. rewrite bind_assoc, bind_emit.
  rewrite (bind_ok _ _ _ _ _ _
             (wait_for_ip_none _ c 10 (set_ip_feed _ w) r Hr H10)).
  cbn [ip_feed set_ip_feed]. rewrite drop_drop.
  change (Py.truthy "") with false. cbn [negb].
  set (w1 := set_ip_feed (drop (1 + 10) (ip_feed w)) (set_ip_feed (drop 1 (ip_feed w)) w)).
  assert (Hr1 : remote w1 = Some r) by done.
  unfold logger at 1. norm.
  rewrite (bind_ok _ _ _ _ _ _ (container_existing _ c w1 r Hr1)).
  unfold container_stop. norm.
  rewrite (bind_ok _ _ _ _ _ _ (handle_existing w1 r Hr1)). norm.
  unfold bind at 1. cbv beta.
  change (stop_feed w1) with (stop_feed w).
  unfold static_ip_world. fold w1.
  destruct (stop_feed w) as [|[|] sfeed] eqn:Hsf; [| |done]; cbv beta iota zeta.
  - nomad_cycle c w.
  - nomad_cycle c w.
Qed.

Lemma take_add_empty (l : list string) n m :
  Forall (eq "") (take (n + m) l) ->
  Forall (eq "") (take n l) /\ Forall (eq "") (take m (drop n l)).
Proof.
  revert l. induction n as [|n IH]; intros l H.
  - rewrite take_0, drop_0. by split.
  - destruct l as [|y l]; simpl in *.
    + rewrite take_nil. by split.
    + inversion H; subst. destruct (IH l) as [H1 H2]; [done|]. by split; [constructor|].
Qed.

(** C3: the acquisition of the address.  On an existing container whose
    first answers are [k <= 10] times "no address" and then [x], both
    variants return [x] after one query and [k] rounds of sleep-and-query
    (no round at all when the first query sees [x]; [k = 10] is the address
    that the tenth round sees).  After eleven answers without an address
    [lxdock] returns the empty result; [nomad] runs the cycle of the static
    address once, then the waiting loop once more, and returns what that
    loop returns: after ten more answers without an address, the empty
    result. *)
Theorem ip_acquisition c w r :
  remote w = Some r ->
  (forall k x rest,
      ip_feed w = (replicate k "" ++ x :: rest)%list -> Py.truthy x = true -> k <= 10 ->
      Lxdock._setup_ip c w
      = mkOut (Ok x) (set_ip_feed rest w)
          (GetIp :: match k with
                    | 0 => []
                    | S _ => Log INFO "No IP yet, waiting for at most 10 seconds..." :: polls k
                    end)
      /\ Nomad._setup_ip c w
         = mkOut (Ok x) (set_ip_feed rest w)
             (GetIp :: match k with
                       | 0 => []
                       | S _ => Log INFO "No IP yet, waiting 10 seconds..." :: polls k
                       end))
  /\ (Forall (eq "") (take 11 (ip_feed w)) ->
      Lxdock._setup_ip c w
      = mkOut (Ok "") (set_ip_feed (drop 11 (ip_feed w)) w)
          (GetIp :: Log INFO "No IP yet, waiting for at most 10 seconds..." :: polls 10
             ++ still_no_ip))
  /\ (Forall (eq "") (take 11 (ip_feed w)) -> head (stop_feed w) <> Some false ->
      Nomad._setup_ip c w
      = after (GetIp :: Log INFO "No IP yet, waiting 10 seconds..." :: polls 10
                 ++ Log INFO "Still no IP! Forcing a static IP..." :: static_ip_cycle w)
          (bind (_wait_for_ip Nomad.variant c 10) report_ip (static_ip_world w r)))
  /\ (Forall (eq "") (take 21 (ip_feed w)) -> head (stop_feed w) <> Some false ->
      res (Nomad._setup_ip c w) = Ok ""
      /\ events (Nomad._setup_ip c w)
         = GetIp :: Log INFO "No IP yet, waiting 10 seconds..." :: polls 10
             ++ Log INFO "Still no IP! Forcing a static IP..." :: static_ip_cycle w
             ++ polls 10 ++ still_no_ip).
Proof.
  intros Hr. split; [|split; [|split]].
  - intros k x rest Hf Hx Hk. split.
    + by apply (lxdock_setup_ip_found c w r).
    + by apply (nomad_setup_ip_found c w r).
  - intros Hf. by apply (lxdock_setup_ip_none c w r).
  - intros Hf Hstop. by apply nomad_setup_ip_fallback.
  - intros Hf Hstop.
    destruct (take_add_empty _ 11 10 Hf) as [H11 H10].
    rewrite (nomad_setup_ip_fallback c w r Hr H11 Hstop).
    assert (Hr' : exists r', remote (static_ip_world w r) = Some r')
      by (unfold static_ip_world; destruct (start_feed w); eauto).
    destruct Hr' as [r' Hr'].
    assert (Hf' : ip_feed (static_ip_world w r) = drop 11 (ip_feed w))
      by (unfold static_ip_world; destruct (start_feed w), (stop_feed w); reflexivity).
    rewrite <- Hf' in H10.
    rewrite (bind_ok _ _ _ _ _ _
               (wait_for_ip_none Nomad.variant c 10 (static_ip_world w r) r' Hr' H10)).
    unfold report_ip. change (Py.truthy "") with false. cbn [negb when].
    unfold logger. norm. unfold ret. cbn [after res events].
    split; [reflexivity|].
    cbn [app]. rewrite <- !app_assoc. reflexivity.
Qed.

Lemma ip_acquisition_witness :
  Lxdock._setup_ip plain_container tenth_poll_world
  = mkOut (Ok "10.0.3.5") (set_ip_feed [] tenth_poll_world)
      (GetIp :: Log INFO "No IP yet, waiting for at most 10 seconds..." :: polls 10).
Proof.
  exact (proj1 (proj1 (ip_acquisition plain_container tenth_poll_world
                         (mkRemote CONTAINER_RUNNING ∅ ∅) eq_refl)
                 10 "10.0.3.5" [] eq_refl eq_refl ltac:(lia))).
Defined.

(** ** Frame rules

    What a method leaves alone, and which calls it can issue, follow the
    structure of its text. *)

Section Frame.

Context {F : Type} (f : World -> F).

Lemma keeps_ret {A} (a : A) : keeps f (ret a).
Proof. by intros w. Qed.

Lemma keeps_raise {A} e : keeps f (@raise A e).
Proof. by intros w. Qed.

Lemma keeps_emit e : keeps f (emit e).
Proof. by intros w. Qed.

Lemma keeps_logger lvl msg : keeps f (logger lvl msg).
Proof. by intros w. Qed.

Lemma keeps_get_world : keeps f get_world.
Proof. by intros w. Qed.

Lemma world_after {A} evs (o : Out A) : world (after evs o) = world o.
Proof. by destruct o. Qed.

Lemma keeps_bind {A B} (m : M A) (k : A -> M B) :
  keeps f m -> (forall a, keeps f (k a)) -> keeps f (bind m k).
Proof.
  intros Hm Hk w. unfold bind. specialize (Hm w).
  destruct (m w) as [[a|e] w1 ev1]; simpl in *; [|done].
  rewrite world_after, Hk. done.
Qed.

Lemma keeps_try_except {A} (m : M A) h :
  keeps f m -> (forall e k, h e = Some k -> keeps f k) -> keeps f (try_except m h).
Proof.
  intros Hm Hh w. unfold try_except. specialize (Hm w).
  destruct (m w) as [[a|e] w1 ev1]; simpl in *; [done|].
  destruct (h e) as [k|] eqn:He; simpl; [|done].
  rewrite world_after, (Hh e k He). done.
Qed.

Lemma keeps_for_fold {A S} (l : list A) (s : S) body :
  (forall s x, keeps f (body s x)) -> keeps f (for_fold l s body).
Proof.
  intros Hb. revert s. induction l as [|x l IH]; intros s; simpl.
  - apply keeps_ret.
  - apply keeps_bind; [apply Hb | intros s'; apply IH].
Qed.

Lemma keeps_for_each {A} (l : list A) body :
  (forall x, keeps f (body x)) -> keeps f (for_each l body).
Proof. intros Hb. apply keeps_for_fold. intros _ x. apply Hb. Qed.

Lemma keeps_when b m : keeps f m -> keeps f (when b m).
Proof. intros Hm. destruct b; [done | apply keeps_ret]. Qed.

Lemma keeps_containers_get : keeps f containers_get.
Proof. by intros w. Qed.

Lemma keeps_handle : keeps f handle.
Proof. intros w. unfold handle. by destruct (remote w). Qed.

Lemma keeps_EtcHosts_init : keeps f EtcHosts_init.
Proof. by intros w. Qed.

(** The rules below hold for a part of the world that the named setter
    does not touch. *)
Hypothesis f_remote : forall x w, f (set_remote x w) = f w.
Hypothesis f_ip_feed : forall x w, f (set_ip_feed x w) = f w.
Hypothesis f_create_feed : forall x w, f (set_create_feed x w) = f w.
Hypothesis f_start_feed : forall x w, f (set_start_feed x w) = f w.
Hypothesis f_stop_feed : forall x w, f (set_stop_feed x w) = f w.

Lemma keeps_containers_create spec : keeps f (containers_create spec).
Proof using f_remote f_create_feed.
  intros w. unfold containers_create.
  destruct (create_feed w) as [|[?|] ?]; simpl; by rewrite ?f_remote, ?f_create_feed.
Qed.

Lemma keeps_update_handle g : keeps f (update_handle g).
Proof using f_remote.
  apply keeps_bind; [apply keeps_handle|]. intros r w. simpl. apply f_remote.
Qed.

Lemma keeps_container_start : keeps f container_start.
Proof using f_remote f_start_feed.
  apply keeps_bind; [apply keeps_handle|]. intros r.
  apply keeps_bind; [apply keeps_emit|]. intros _ w.
  destruct (start_feed w); simpl; by rewrite ?f_remote, ?f_start_feed.
Qed.

Lemma keeps_container_stop t b : keeps f (container_stop t b).
Proof using f_remote f_stop_feed.
  apply keeps_bind; [apply keeps_handle|]. intros r.
  apply keeps_bind; [apply keeps_emit|]. intros _ w.
  destruct (stop_feed w) as [|[|] ?]; simpl; by rewrite ?f_remote, ?f_stop_feed.
Qed.

Lemma keeps_container_delete : keeps f container_delete.
Proof using f_remote.
  apply keeps_bind; [apply keeps_handle|]. intros r.
  apply keeps_bind; [apply keeps_emit|]. intros _ w. simpl. apply f_remote.
Qed.

Lemma keeps_container_save : keeps f container_save.
Proof. apply keeps_bind; [apply keeps_handle|]. intros r. apply keeps_emit. Qed.

Lemma keeps_get_ip : keeps f get_ip.
Proof using f_ip_feed.
  apply keeps_bind; [apply keeps_emit|]. intros _ w.
  destruct (ip_feed w); simpl; by rewrite ?f_ip_feed.
Qed.

Lemma keeps_get_container V c create : keeps f (_get_container V c create).
Proof using f_remote f_create_feed.
  unfold _get_container.
  apply keeps_bind; [apply keeps_containers_get|]. intros [|]; [apply keeps_ret|].
  destruct create; [|apply keeps_ret]. simpl.
  apply keeps_bind; [apply keeps_get_world|]. intros w0.
  apply keeps_bind; [apply keeps_logger|]. intros _.
  apply keeps_bind; [apply keeps_logger|]. intros _.
  apply keeps_try_except.
  - apply keeps_bind; [apply keeps_containers_create|]. intros _. apply keeps_ret.
  - intros [] k Hk; try discriminate. injection Hk as <-.
    apply keeps_bind; [apply keeps_logger|]. intros _. apply keeps_raise.
Qed.

Lemma keeps_container V c : keeps f (_container V c).
Proof using f_remote f_create_feed.
  apply keeps_bind; [apply keeps_get_container|]. intros _. apply keeps_handle.
Qed.

Lemma keeps_wait_for_ip V c n : keeps f (_wait_for_ip V c n).
Proof using f_remote f_create_feed f_ip_feed.
  induction n as [|n IH]; simpl; [apply keeps_ret|].
  apply keeps_bind; [apply keeps_emit|]. intros _.
  apply keeps_bind; [apply keeps_container|]. intros _.
  apply keeps_bind; [apply keeps_get_ip|]. intros ip.
  destruct (Py.truthy ip); [apply keeps_ret | apply IH].
Qed.

End Frame.

(** Steps of a frame proof, by the shape of the method. *)
Ltac frame_step :=
  match goal with
  | |- keeps _ (bind _ _) => apply keeps_bind; [|intros ?]
  | |- keeps _ (ret _) => apply keeps_ret
  | |- keeps _ (raise _) => apply keeps_raise
  | |- keeps _ (emit _) => apply keeps_emit
  | |- keeps _ (logger _ _) => apply keeps_logger
  | |- keeps _ get_world => apply keeps_get_world
  | |- keeps _ (when _ _) => apply keeps_when
  | |- keeps _ (for_each _ _) => apply keeps_for_each; intros ?
  | |- keeps _ (for_fold _ _ _) => apply keeps_for_fold; intros ? ?
  | |- keeps _ containers_get => apply keeps_containers_get
  | |- keeps _ exists_ => apply keeps_containers_get
  | |- keeps _ handle => apply keeps_handle
  | |- keeps _ EtcHosts_init => apply keeps_EtcHosts_init
  | |- keeps _ (update_handle _) => apply keeps_update_handle; intros; reflexivity
  | |- keeps _ container_save => apply keeps_container_save
  | |- keeps _ container_start => apply keeps_container_start; intros; reflexivity
  | |- keeps _ (container_stop _ _) => apply keeps_container_stop; intros; reflexivity
  | |- keeps _ container_delete => apply keeps_container_delete; intros; reflexivity
  | |- keeps _ get_ip => apply keeps_get_ip; intros; reflexivity
  | |- keeps _ (_get_container _ _ _) => apply keeps_get_container; intros; reflexivity
  | |- keeps _ (_container _ _) => apply keeps_container; intros; reflexivity
  | |- keeps _ (_wait_for_ip _ _ _) => apply keeps_wait_for_ip; intros; reflexivity
  | |- keeps _ (try_except _ _) =>
      apply keeps_try_except;
      [|let H := fresh in intros [] ? H; try discriminate H; injection H as <-]
  | |- keeps _ (if ?b then _ else _) => destruct b
  | |- keeps _ (match ?x with _ => _ end) => destruct x
  end.

Ltac frame :=
  repeat first
    [ frame_step
    | progress cbv zeta
    | progress unfold is_running, is_stopped, is_provisioned, is_privileged,
        _setup_shares_inventory,
        Lxdock.must_be_created_and_running, Lxdock.provision, Lxdock.provision_body,
        Lxdock._setup_env, Lxdock._perform_barebones_setup, Lxdock.instantiate_provisioners,
        Lxdock.shell, Lxdock.shell_body, Lxdock._setup_ip, Lxdock.give_access,
        Lxdock._setup_shares, Lxdock._setup_users,
        Nomad.must_be_running, Nomad.provision, Nomad.provision_body, Nomad.shell,
        Nomad.shell_body, Nomad._has_static_ip, Nomad._assign_free_static_ip,
        Nomad._setup_ip, Nomad.give_access, Nomad._setup_shares ].

(** ** Bindings of the hostnames *)

(** Everything but [_setup_hostnames] and [_unsetup_hostnames] leaves the
    resolution file alone. *)
Lemma lxdock_after_hostnames_keeps c mode :
  keeps etc_hosts
    (Lxdock._setup_users c ;;
     Lxdock._setup_shares c ;;
     Lxdock._setup_env c ;;
     is_provisioned <- is_provisioned Lxdock.variant c ;;
     let provisioning_mode := default AUTO mode in
     if negb (bool_decide (provisioning_mode = DISABLED)) then
       if (negb is_provisioned && bool_decide (provisioning_mode = AUTO))
          || bool_decide (provisioning_mode = ENABLED)
       then Lxdock.provision c
       else when is_provisioned
              (logger INFO ("Container " +:+ dq +:+ name c +:+ dq +:+
                            " already provisioned, not provisioning."))
     else ret tt).
Proof. frame. Qed.

Lemma nomad_after_hostnames_keeps c :
  keeps etc_hosts
    (provisioned <- is_provisioned Nomad.variant c ;;
     if negb provisioned then Nomad.provision c (Some true)
     else logger INFO ("Container " +:+ dq +:+ name c +:+ dq +:+
                       " already provisioned, not provisioning.")).
Proof. frame. Qed.

(** What the loop of [_setup_hostnames] has done after the hostnames [hs]:
    they point to [ip], the other bindings are those of the file, and the
    flag is raised exactly when the copy differs from the file. *)
Lemma setup_fold_spec ip (init : gmap string string) (hs : list string) :
  let e := foldl (fun e h => ensure_binding_present h ip e) (mkEtcHosts init false) hs in
  (forall h, h ∈ hs -> bindings e !! h = Some ip)
  /\ (forall k, k ∉ hs -> bindings e !! k = init !! k)
  /\ (changed e = false -> bindings e = init)
  /\ (changed e = true -> exists k, bindings e !! k = Some ip /\ init !! k <> Some ip).
Proof.
  induction hs as [|h hs IH] using rev_ind; simpl.
  - split; [intros h Hh; by apply elem_of_nil in Hh|]. by repeat split.
  - rewrite foldl_app. simpl.
    set (e := foldl _ _ hs) in *. destruct IH as (Ha & Hb & Hc & Hd).
    unfold ensure_binding_present. destruct (decide (bindings e !! h = Some ip)) as [Hh|Hh].
    + split; [|split; [|by split]].
      * intros h' [Hin| ->%list_elem_of_singleton]%elem_of_app; [by apply Ha|done].
      * intros k Hk. apply Hb. intros Hin. apply Hk, elem_of_app. by left.
    + simpl. split; [|split; [|split; [done|]]].
      * intros h' Hin. destruct (decide (h = h')) as [->|Hne]; [by rewrite lookup_insert_eq|].
        rewrite lookup_insert_ne by done. apply Ha.
        apply elem_of_app in Hin as [Hin| ->%list_elem_of_singleton]; done.
      * intros k Hk. rewrite lookup_insert_ne.
        -- apply Hb. intros Hin. apply Hk, elem_of_app. by left.
        -- intros ->. apply Hk, elem_of_app. right. by apply list_elem_of_singleton.
      * intros _. exists h. split; [by rewrite lookup_insert_eq|].
        destruct (decide (h ∈ hs)) as [Hin|Hin].
        -- by rewrite (Ha h Hin) in Hh.
        -- by rewrite <- (Hb h Hin).
Qed.

(** The same for the loop of [_unsetup_hostnames]. *)
Lemma unsetup_fold_spec (init : gmap string string) (hs : list string) :
  let e := foldl (fun e h => ensure_binding_absent h e) (mkEtcHosts init false) hs in
  (forall h, h ∈ hs -> bindings e !! h = None)
  /\ (forall k, k ∉ hs -> bindings e !! k = init !! k)
  /\ (changed e = false -> bindings e = init)
  /\ (changed e = true -> exists k, bindings e !! k = None /\ init !! k <> None).
Proof.
  induction hs as [|h hs IH] using rev_ind; simpl.
  - split; [intros h Hh; by apply elem_of_nil in Hh|]. by repeat split.
  - rewrite foldl_app. simpl.
    set (e := foldl _ _ hs) in *. destruct IH as (Ha & Hb & Hc & Hd).
    unfold ensure_binding_absent. destruct (bindings e !! h) as [v|] eqn:Hh.
    + simpl. split; [|split; [|split; [done|]]].
      * intros h' Hin. destruct (decide (h = h')) as [->|Hne]; [by rewrite lookup_delete_eq|].
        rewrite lookup_delete_ne by done. apply Ha.
        apply elem_of_app in Hin as [Hin| ->%list_elem_of_singleton]; done.
      * intros k Hk. rewrite lookup_delete_ne.
        -- apply Hb. intros Hin. apply Hk, elem_of_app. by left.
        -- intros ->. apply Hk, elem_of_app. right. by apply list_elem_of_singleton.
      * intros _. exists h. split; [by rewrite lookup_delete_eq|].
        destruct (decide (h ∈ hs)) as [Hin|Hin].
        -- by rewrite (Ha h Hin) in Hh.
        -- rewrite <- (Hb h Hin), Hh. done.
    + split; [|split; [|by split]].
      * intros h' [Hin| ->%list_elem_of_singleton]%elem_of_app; [by apply Ha|done].
      * intros k Hk. apply Hb. intros Hin. apply Hk, elem_of_app. by left.
Qed.

Lemma setup_hostnames_file c ip w :
  etc_hosts (world (_setup_hostnames c ip w)) = bindings (setup_result c ip w).
Proof.
  rewrite setup_hostnames_run. cbn [world].
  destruct (setup_fold_spec ip (etc_hosts w) (hostnames c)) as (_ & _ & Hc & _).
  fold (setup_result c ip w) in Hc.
  destruct (changed (setup_result c ip w)); [reflexivity|]. by rewrite Hc.
Qed.

Lemma unsetup_hostnames_file c w :
  etc_hosts (world (_unsetup_hostnames c w)) = bindings (unsetup_result c w).
Proof.
  rewrite unsetup_hostnames_run. cbn [world].
  destruct (unsetup_fold_spec (etc_hosts w) (hostnames c)) as (_ & _ & Hc & _).
  fold (unsetup_result c w) in Hc.
  destruct (changed (unsetup_result c w)); [reflexivity|]. by rewrite Hc.
Qed.

(** The file is written exactly when the loop changed a binding. *)
Lemma setup_hostnames_saves c ip w :
  In EtcHostsSave (events (_setup_hostnames c ip w))
  <-> etc_hosts (world (_setup_hostnames c ip w)) <> etc_hosts w.
Proof.
  rewrite setup_hostnames_file. rewrite setup_hostnames_run. cbn [events].
  destruct (setup_fold_spec ip (etc_hosts w) (hostnames c)) as (_ & _ & Hc & Hd).
  fold (setup_result c ip w) in Hc, Hd.
  rewrite in_app_iff.
  destruct (changed (setup_result c ip w)).
  - split; [|intros _; right; simpl; auto].
    intros _ Heq. destruct Hd as (k & Hk & Hne); [done|]. by rewrite Heq in Hk.
  - rewrite Hc by done. split; [|done].
    intros [Hin|[]]. apply in_map_iff in Hin as (? & ? & ?). discriminate.
Qed.

Lemma unsetup_hostnames_saves c w :
  In EtcHostsSave (events (_unsetup_hostnames c w))
  <-> etc_hosts (world (_unsetup_hostnames c w)) <> etc_hosts w.
Proof.
  rewrite unsetup_hostnames_file. rewrite unsetup_hostnames_run. cbn [events].
  destruct (unsetup_fold_spec (etc_hosts w) (hostnames c)) as (_ & _ & Hc & Hd).
  fold (unsetup_result c w) in Hc, Hd.
  rewrite in_app_iff.
  destruct (changed (unsetup_result c w)).
  - split; [|intros _; right; simpl; auto].
    intros _ Heq. destruct Hd as (k & Hk & Hne); [done|]. by rewrite Heq in Hk.
  - rewrite Hc by done. split; [|done].
    intros [Hin|[]]. apply in_map_iff in Hin as (? & ? & ?). discriminate.
Qed.

(** ** The two halves of [up] *)

Lemma bind_ext {A B} (m : M A) (k1 k2 : A -> M B) w :
  (forall a w', k1 a w' = k2 a w') -> bind m k1 w = bind m k2 w.
Proof.
  intros H. unfold bind. destruct (m w) as [[a|e] w1 ev1]; [|reflexivity]. by rewrite H.
Qed.

(** [up] is [up_start] followed, when an address came back, by
    [up_configure]. *)
Lemma lxdock_up_split c mode w :
  Lxdock.up c mode w
  = bind (Lxdock.up_start c)
      (fun o => match o with
                | Some ip => Lxdock.up_configure c mode ip
                | None => ret tt
                end) w.
Proof.
  unfold Lxdock.up, Lxdock.up_start.
  rewrite bind_assoc. apply bind_ext. intros [|] w1.
  { norm. reflexivity. }
  rewrite bind_assoc. apply bind_ext. intros _ w2.
  rewrite bind_assoc. apply bind_ext. intros _ w3.
  rewrite bind_assoc. apply bind_ext. intros _ w4.
  rewrite bind_assoc. apply bind_ext. intros [|] w5; cbn [negb].
  - rewrite bind_assoc. apply bind_ext. intros ip w6. norm. reflexivity.
  - rewrite bind_assoc. apply bind_ext. intros _ w6. reflexivity.
Qed.

Lemma nomad_up_split c w :
  Nomad.up c w
  = bind (Nomad.up_start c)
      (fun o => match o with
                | Some ip => Nomad.up_configure c ip
                | None => ret tt
                end) w.
Proof.
  unfold Nomad.up, Nomad.up_start.
  rewrite bind_assoc. apply bind_ext. intros [|] w1.
  { norm. reflexivity. }
  rewrite bind_assoc. apply bind_ext. intros _ w2.
  rewrite bind_assoc. apply bind_ext. intros static w3.
  rewrite bind_assoc. apply bind_ext. intros _ w4.
  rewrite bind_assoc. apply bind_ext. intros _ w5.
  rewrite bind_assoc. apply bind_ext. intros _ w6.
  rewrite bind_assoc. apply bind_ext. intros _ w7.
  rewrite bind_assoc. apply bind_ext. intros [|] w8; cbn [negb].
  - rewrite bind_assoc. apply bind_ext. intros ip w9. norm. reflexivity.
  - rewrite bind_assoc. apply bind_ext. intros _ w9. reflexivity.
Qed.

Lemma keeps_after_bind {A B F} (f : World -> F) (m : M A) (k : A -> M B) w :
  (forall a, keeps f (k a)) -> f (world (bind m k w)) = f (world (m w)).
Proof.
  intros Hk. unfold bind. destruct (m w) as [[a|e] w1 ev1]; [|reflexivity].
  rewrite world_after. apply Hk.
Qed.

Lemma halt_keeps_after_unsetup V c :
  keeps etc_hosts
    (logger INFO "Stopping..." ;;
     try_except
       (_ <- _container V c ;; container_stop (Some 30) (Some false))
       (fun e =>
          match e with
          | LXDAPIException _ =>
              Some (logger WARNING "Can't stop the container. Forcing..." ;;
                    _ <- _container V c ;; container_stop None (Some true))
          | _ => None
          end)).
Proof. frame. Qed.

(** C8: for a declared hostname [h].  When [up] acquires the address [x]
    and goes on, the resolution file binds [h] to [x] when [up] ends,
    whatever the file held before; [halt] on a container that is not stopped
    leaves [h] without a binding; and in the installation as in the removal,
    the file is written exactly when a binding has changed.  A later [up]
    with another address [y] is the first statement again, on the file that
    [halt] left. *)
Theorem hostname_bindings_lifecycle c h :
  In h (hostnames c) ->
  (forall mode x w,
     res (Lxdock.up_start c w) = Ok (Some x) -> Py.truthy x = true ->
     etc_hosts (world (Lxdock.up c mode w)) !! h = Some x)
  /\ (forall x w,
        res (Nomad.up_start c w) = Ok (Some x) -> Py.truthy x = true ->
        etc_hosts (world (Nomad.up c w)) !! h = Some x)
  /\ (forall V w r, remote w = Some r -> status_code r <> CONTAINER_STOPPED ->
        etc_hosts (world (halt V c w)) !! h = None)
  /\ (forall x w,
        In EtcHostsSave (events (_setup_hostnames c x w))
        <-> etc_hosts (world (_setup_hostnames c x w)) <> etc_hosts w)
  /\ (forall w,
        In EtcHostsSave (events (_unsetup_hostnames c w))
        <-> etc_hosts (world (_unsetup_hostnames c w)) <> etc_hosts w).
Proof.
  intros Hh%list_elem_of_In.
  assert (Hset : forall x w, etc_hosts (world (_setup_hostnames c x w)) !! h = Some x).
  { intros x w. rewrite setup_hostnames_file.
    by apply (setup_fold_spec x (etc_hosts w) (hostnames c)). }
  assert (Hunset : forall w, etc_hosts (world (_unsetup_hostnames c w)) !! h = None).
  { intros w. rewrite unsetup_hostnames_file.
    by apply (unsetup_fold_spec (etc_hosts w) (hostnames c)). }
  split; [|split; [|split; [|split]]].
  - intros mode x w Hres Hx. rewrite lxdock_up_split. unfold bind.
    destruct (Lxdock.up_start c w) as [ro wo evo]. simpl in Hres. subst ro.
    rewrite world_after.
    unfold Lxdock.up_configure. rewrite Hx. cbn [negb].
    unfold logger at 1. rewrite bind_emit, world_after.
    rewrite (keeps_after_bind etc_hosts) by (intros _; apply lxdock_after_hostnames_keeps).
    apply Hset.
  - intros x w Hres Hx. rewrite nomad_up_split. unfold bind.
    destruct (Nomad.up_start c w) as [ro wo evo]. simpl in Hres. subst ro.
    rewrite world_after.
    unfold Nomad.up_configure. rewrite Hx. cbn [negb].
    unfold logger at 1. rewrite bind_emit, world_after.
    rewrite (keeps_after_bind etc_hosts) by (intros _; apply nomad_after_hostnames_keeps).
    apply Hset.
  - intros V w r Hr Hs. unfold halt.
    rewrite (bind_ok _ _ _ _ _ _ (is_stopped_existing V c w r Hr)), after_nil.
    rewrite bool_decide_eq_false_2 by done.
    rewrite (keeps_after_bind etc_hosts) by (intros _; apply halt_keeps_after_unsetup).
    apply Hunset.
  - intros x w. apply setup_hostnames_saves.
  - intros w. apply unsetup_hostnames_saves.
Qed.

(** ** Reconciliation of the shares *)

Lemma set_remote_same w r :
  remote w = Some r ->
  set_remote (Some (mkRemote (status_code r) (config r) (devices r))) w = w.
Proof. destruct w, r. simpl. intros ->. reflexivity. Qed.

Lemma for_each_cons {A} (x : A) l body w :
  for_each (x :: l) body w = bind (body x) (fun _ => for_each l body) w.
Proof. unfold for_each. simpl. apply bind_ext. by intros []. Qed.

(** The loop that deletes the installed shares. *)
Lemma delete_loop_run (keys : list string) w r :
  remote w = Some r ->
  for_each keys (fun k => update_handle (del_device k)) w
  = mkOut (Ok tt)
      (set_remote (Some (mkRemote (status_code r) (config r)
                           (foldl (fun d k => delete k d) (devices r) keys))) w) [].
Proof.
  revert w r. induction keys as [|k keys IH]; intros w r Hr.
  - simpl. by rewrite set_remote_same.
  - rewrite for_each_cons.
    rewrite (bind_ok _ _ _ _ _ _ (update_handle_existing w r Hr _)), after_nil.
    rewrite (IH _ (del_device k r)) by reflexivity. reflexivity.
Qed.

(** The loop that installs the desired shares, with the grants [acl] that
    the condition [cond] lets through. *)
Lemma share_loop_run {A} (key : A -> string) (conf : A -> Device) (cond : A -> bool)
      (acl : A -> M unit) (evs : World -> Remote -> A -> list Event) :
  (forall x w r, remote w = Some r -> acl x w = mkOut (Ok tt) w (evs w r x)) ->
  (forall w r r' k d x, evs (set_remote r' w) (set_device k d r) x = evs w r x) ->
  forall l w r, remote w = Some r ->
  for_each l (fun x => when (cond x) (acl x) ;; update_handle (set_device (key x) (conf x))) w
  = mkOut (Ok tt)
      (set_remote (Some (mkRemote (status_code r) (config r)
                           (foldl (fun d x => <[key x := conf x]> d) (devices r) l))) w)
      (List.concat ((fun x => if cond x then evs w r x else []) <$> l)).
Proof.
  intros Hacl Hinv l. induction l as [|x l IH]; intros w r Hr.
  - simpl. by rewrite set_remote_same.
  - rewrite for_each_cons, bind_assoc.
    assert (Hwhen : when (cond x) (acl x) w
                    = mkOut (Ok tt) w (if cond x then evs w r x else [])).
    { unfold when. destruct (cond x); [by apply Hacl | reflexivity]. }
    rewrite (bind_ok _ _ _ _ _ _ Hwhen).
    rewrite (bind_ok _ _ _ _ _ _ (update_handle_existing w r Hr _)), after_nil.
    rewrite (IH _ (set_device (key x) (conf x) r)) by reflexivity.
    cbn [after]. f_equal. rewrite fmap_cons. cbn [List.concat]. f_equal. f_equal.
    apply list_fmap_ext. intros i y _. by rewrite Hinv.
Qed.

Lemma concat_singletons {A B} (f : A -> B) (l : list A) :
  List.concat ((fun x => [f x]) <$> l) = f <$> l.
Proof. induction l as [|x l IH]; [reflexivity|]. cbn. f_equal. exact IH. Qed.

Lemma lxdock_give_access_run c source w r :
  remote w = Some r ->
  Lxdock.give_access c source w = mkOut (Ok tt) w (lxdock_grants c r source).
Proof.
  intros Hr. unfold Lxdock.give_access, logger. norm.
  rewrite (bind_ok _ _ _ _ _ _ (is_privileged_existing _ c w r Hr)), after_nil.
  unfold lxdock_grants, when.
  destruct (bool_decide (config r !! "security.privileged" = Some "true")); cbn [negb].
  - reflexivity.
  - norm.
    rewrite (for_each_emit _
               (fun uconfig =>
                  [HostGiveMappedUserAccess source
                     (Some (default ("/home/" +:+ user_name uconfig) (user_home uconfig)))]))
      by reflexivity.
    rewrite concat_singletons. reflexivity.
Qed.

Lemma nomad_give_access_run uid source w :
  Nomad.give_access uid source w
  = mkOut (Ok tt) w (nomad_grants_for (os_getuid w) uid source).
Proof.
  unfold Nomad.give_access, nomad_grants_for, logger. norm.
  destruct uid; reflexivity.
Qed.

Lemma startswith_app (p x : string) : Py.startswith (p +:+ x) p = true.
Proof.
  unfold Py.startswith. induction p as [|a p IH]; simpl.
  - by destruct x.
  - destruct (ascii_dec a a); [exact IH | done].
Qed.

Lemma app_assoc_string (a b c : string) : (a +:+ b) +:+ c = a +:+ b +:+ c.
Proof.
  induction a as [|x a IH]; [reflexivity|].
  change (String x ((a +:+ b) +:+ c) = String x (a +:+ b +:+ c)). by rewrite IH.
Qed.

Lemma share_key_is_share V i : is_share V (share_key V i).
Proof.
  unfold is_share, share_key. by rewrite <- app_assoc_string, startswith_app.
Qed.

Lemma share_key_inj V i j : share_key V i = share_key V j -> i = j.
Proof.
  unfold share_key, Py.str_of_nat. intros H.
  apply (inj (String.app (product V))) in H.
  apply (inj (String.app "share")) in H.
  by apply (inj pretty) in H.
Qed.

Lemma delete_keys_lookup (keys : list string) (d : Devices) j :
  foldl (fun d k => delete k d) d keys !! j = if decide (j ∈ keys) then None else d !! j.
Proof.
  revert d. induction keys as [|k keys IH]; intros d; cbn [foldl].
  - destruct (decide (j ∈ [])) as [H%elem_of_nil|]; done.
  - rewrite IH.
    destruct (decide (j ∈ keys)) as [Hin|Hin], (decide (j ∈ k :: keys)) as [Hin'|Hin'].
    + done.
    + destruct Hin'. by right.
    + apply elem_of_cons in Hin' as [->|]; [apply lookup_delete_eq | done].
    + apply lookup_delete_ne. intros ->. apply Hin'. left.
Qed.

(** Deleting the keys of the installed shares leaves the devices outside
    the namespace, nothing else. *)
Lemma delete_existing_shares V (devs : Devices) :
  foldl (fun d k => delete k d) devs (map_to_list (existing_shares V devs)).*1 = purge V devs.
Proof.
  apply map_eq. intros j. rewrite delete_keys_lookup.
  unfold purge, existing_shares.
  destruct (decide (j ∈ (map_to_list (filter _ devs)).*1)) as [Hin|Hin].
  - apply list_elem_of_fmap in Hin as ([j' d] & -> & Hin). simpl.
    apply elem_of_map_to_list, map_lookup_filter_Some in Hin as [Hd Hs]. simpl in Hs.
    symmetry. apply map_lookup_filter_None. right. intros d' Hd' Hn. by apply Hn.
  - destruct (devs !! j) as [d|] eqn:Hd.
    + symmetry. apply map_lookup_filter_Some. split; [done|]. simpl. intros Hs.
      apply Hin. apply list_elem_of_fmap. exists (j, d). split; [done|].
      apply elem_of_map_to_list, map_lookup_filter_Some. by split.
    + symmetry. apply map_lookup_filter_None. by left.
Qed.

Lemma share_entries_keys V c start D k :
  k ∈ (share_entries V c start D).*1 -> exists i, start <= i < start + List.length D /\ k = share_key V i.
Proof.
  revert start. induction D as [|s D IH]; intros start; simpl.
  - by intros ?%elem_of_nil.
  - intros [->|Hin]%elem_of_cons.
    + exists start. split; [lia | done].
    + destruct (IH _ Hin) as (i & Hi & ->). exists i. split; [lia | done].
Qed.

Lemma share_entries_NoDup V c start D : NoDup (share_entries V c start D).*1.
Proof.
  revert start. induction D as [|s D IH]; intros start; simpl; constructor.
  - intros (i & Hi & Heq%share_key_inj)%share_entries_keys. lia.
  - apply IH.
Qed.

(** The devices after the loop that installs the desired shares. *)
Lemma install_loop_lookup V c (D : list Share) start (d : Devices) k :
  foldl (fun d ishare => <[share_key V ishare.1 := shareconf (share_path c ishare.2) ishare.2]> d)
        d (Py.enumerate start D) !! k
  = match (list_to_map (share_entries V c start D) : Devices) !! k with
    | Some v => Some v
    | None => d !! k
    end.
Proof.
  revert start d. induction D as [|s D IH]; intros start d; simpl.
  - by rewrite lookup_empty.
  - rewrite IH. fold (share_entries V c (S start) D).
    destruct (decide (k = share_key V start)) as [->|Hne].
    + rewrite lookup_insert_eq.
      rewrite (not_elem_of_list_to_map_1 (share_entries V c (S start) D)).
      * by rewrite lookup_insert_eq.
      * intros (i & Hi & Heq%share_key_inj)%share_entries_keys. lia.
    + by rewrite !lookup_insert_ne.
Qed.

(** After the two loops, the namespace of the shares holds the entries of
    the desired list and nothing else. *)
Lemma reconciled_shares V c (D : list Share) (devs : Devices) :
  existing_shares V
    (foldl (fun d ishare =>
              <[share_key V ishare.1 := shareconf (share_path c ishare.2) ishare.2]> d)
           (purge V devs) (Py.enumerate 1 D))
  = list_to_map (share_entries V c 1 D).
Proof.
  apply map_eq. intros k. apply option_eq. intros v.
  unfold existing_shares. rewrite map_lookup_filter_Some, install_loop_lookup. simpl.
  fold (is_share V k). split.
  - intros [Hk Hs]. destruct (list_to_map _ !! k) as [v'|] eqn:Hl; [done|].
    unfold purge in Hk. apply map_lookup_filter_Some in Hk as [_ Hn]. by destruct Hn.
  - intros Hl. rewrite Hl. split; [done|].
    apply elem_of_list_to_map_2, (list_elem_of_fmap_2 fst) in Hl. cbn [fst] in Hl.
    apply share_entries_keys in Hl as (i & _ & ->). apply share_key_is_share.
Qed.

(** The devices outside the namespace are not touched. *)
Lemma reconciled_others V c (D : list Share) (devs : Devices) k :
  ~ is_share V k ->
  foldl (fun d ishare =>
           <[share_key V ishare.1 := shareconf (share_path c ishare.2) ishare.2]> d)
        (purge V devs) (Py.enumerate 1 D) !! k
  = devs !! k.
Proof.
  intros Hk. rewrite install_loop_lookup.
  destruct (list_to_map _ !! k) as [v|] eqn:Hl.
  - apply elem_of_list_to_map_2, (list_elem_of_fmap_2 fst) in Hl. cbn [fst] in Hl.
    apply share_entries_keys in Hl as (i & _ & ->). destruct Hk. apply share_key_is_share.
  - unfold purge. destruct (devs !! k) as [d|] eqn:Hd.
    + by apply map_lookup_filter_Some.
    + apply map_lookup_filter_None. by left.
Qed.

Lemma fmap_enumerate_snd {A B} (g : A -> B) start (l : list A) :
  (fun ix => g ix.2) <$> Py.enumerate start l = g <$> l.
Proof.
  revert start. induction l as [|x l IH]; intros start; [reflexivity|].
  simpl. by rewrite IH.
Qed.

(** The inventory and the removal at the head of [_setup_shares]. *)
Lemma inventory_run V c w r S :
  remote w = Some r ->
  existing_sources (existing_shares V (devices r)) = Some S ->
  _setup_shares_inventory V c w
  = mkOut (Ok S)
      (set_remote (Some (mkRemote (status_code r) (config r) (purge V (devices r)))) w) [].
Proof.
  intros Hr HS. unfold _setup_shares_inventory.
  rewrite (bind_ok _ _ _ _ _ _ (container_existing V c w r Hr)), after_nil.
  cbv zeta. rewrite HS.
  rewrite (bind_ok _ _ _ _ _ _ (delete_loop_run _ w r Hr)), after_nil.
  by rewrite delete_existing_shares.
Qed.

(** A namespaced device without a ['source'] stops the pass before any
    change. *)
Lemma inventory_keyerror V c w r :
  remote w = Some r ->
  existing_sources (existing_shares V (devices r)) = None ->
  _setup_shares_inventory V c w = mkOut (Raise (KeyError "source")) w [].
Proof.
  intros Hr HS. unfold _setup_shares_inventory.
  rewrite (bind_ok _ _ _ _ _ _ (container_existing V c w r Hr)), after_nil.
  cbv zeta. rewrite HS. reflexivity.
Qed.

Lemma lxdock_setup_shares_run c w r S D :
  remote w = Some r ->
  existing_sources (existing_shares Lxdock.variant (devices r)) = Some S ->
  opt_shares (options c) = Some D ->
  Lxdock._setup_shares c w
  = mkOut (Ok tt)
      (set_remote (Some (mkRemote (status_code r) (config r)
                           (reconciled Lxdock.variant c D (devices r)))) w)
      (Log INFO "Setting up shares..." :: lxdock_pass_grants c r S D ++ [ContainerSave]).
Proof.
  intros Hr HS HD. unfold Lxdock._setup_shares. rewrite HD.
  unfold logger. norm.
  rewrite (bind_ok _ _ _ _ _ _ (inventory_run Lxdock.variant c w r S Hr HS)), after_nil.
  set (w1 := set_remote _ w).
  set (r1 := mkRemote (status_code r) (config r) (purge Lxdock.variant (devices r))).
  assert (Hr1 : remote w1 = Some r1) by reflexivity.
  assert (Hloop := share_loop_run
    (fun ishare : nat * Share => share_key Lxdock.variant ishare.1)
    (fun ishare => shareconf (share_path c ishare.2) ishare.2)
    (fun ishare => default true (share_set_host_acl ishare.2)
                   && bool_decide (share_path c ishare.2 ∉ S))
    (fun ishare => Lxdock.give_access c (share_path c ishare.2))
    (fun _ r ishare => lxdock_grants c r (share_path c ishare.2))
    (fun x w r Hr => lxdock_give_access_run c _ w r Hr)
    (fun w r r' k d x => eq_refl)
    (Py.enumerate 1 D) w1 r1 Hr1).
  match goal with
  | |- context [bind (for_each ?l ?body) ?k w1] =>
      change (for_each l body w1 = mkOut (Ok tt)
                (set_remote (Some (mkRemote (status_code r1) (config r1)
                                     (reconciled Lxdock.variant c D (devices r)))) w1)
                (List.concat ((fun ishare : nat * Share =>
                                 if default true (share_set_host_acl ishare.2)
                                    && bool_decide (share_path c ishare.2 ∉ S)
                                 then lxdock_grants c r1 (share_path c ishare.2) else [])
                                <$> Py.enumerate 1 D))) in Hloop;
      rewrite (bind_ok _ _ _ _ _ _ Hloop)
  end.
  erewrite container_save_existing by reflexivity.
  unfold lxdock_pass_grants.
  rewrite <- (fmap_enumerate_snd
                (fun s => if default true (share_set_host_acl s)
                             && bool_decide (share_path c s ∉ S)
                          then lxdock_grants c r (share_path c s) else []) 1 D).
  reflexivity.
Qed.

Lemma nomad_setup_shares_run c w r S :
  remote w = Some r ->
  existing_sources (existing_shares Nomad.variant (devices r)) = Some S ->
  Nomad._setup_shares c w
  = mkOut (Ok tt)
      (set_remote (Some (mkRemote (status_code r) (config r)
                           (reconciled Nomad.variant c (default [] (opt_shares (options c)))
                                       (devices r)))) w)
      ((if bool_decide (config r !! "security.privileged" = Some "true") then []
        else [OsStat (rootfs_path c w)])
         ++ nomad_pass_grants c w r S (default [] (opt_shares (options c)))
         ++ [ContainerSave]).
Proof.
  intros Hr HS. unfold Nomad._setup_shares.
  rewrite (bind_ok _ _ _ _ _ _ (inventory_run Nomad.variant c w r S Hr HS)), after_nil.
  set (w1 := set_remote _ w).
  set (r1 := mkRemote (status_code r) (config r) (purge Nomad.variant (devices r))).
  assert (Hr1 : remote w1 = Some r1) by reflexivity.
  rewrite (bind_ok _ _ _ _ _ _ (is_privileged_existing _ c w1 r1 Hr1)), after_nil.
  set (D := default [] (opt_shares (options c))).
  set (uid := if bool_decide (config r !! "security.privileged" = Some "true")
              then None else Some (rootfs_uid w)).
  assert (Huid :
    (if negb (bool_decide (config r1 !! "security.privileged" = Some "true"))
     then w <- get_world ;; emit (OsStat (rootfs_path c w)) ;; ret (Some (rootfs_uid w))
     else ret None) w1
    = mkOut (Ok uid) w1
        (if bool_decide (config r !! "security.privileged" = Some "true") then []
         else [OsStat (rootfs_path c w)])).
  { subst uid r1. cbn [config].
    destruct (bool_decide (config r !! "security.privileged" = Some "true")); cbn [negb].
    - reflexivity.
    - norm. reflexivity. }
  rewrite (bind_ok _ _ _ _ _ _ Huid).
  assert (Hloop := share_loop_run
    (fun ishare : nat * Share => share_key Nomad.variant ishare.1)
    (fun ishare => shareconf (share_path c ishare.2) ishare.2)
    (fun ishare => bool_decide (share_path c ishare.2 ∉ S))
    (fun ishare => Nomad.give_access uid (share_path c ishare.2))
    (fun w' (_ : Remote) ishare =>
       nomad_grants_for (os_getuid w') uid (share_path c ishare.2))
    (fun x w' r' Hr' => nomad_give_access_run uid _ w')
    (fun w' r r' k d x => eq_refl)
    (Py.enumerate 1 D) w1 r1 Hr1).
  match goal with
  | |- context [bind (for_each ?l ?body) ?k w1] =>
      change (for_each l body w1 = mkOut (Ok tt)
                (set_remote (Some (mkRemote (status_code r1) (config r1)
                                     (reconciled Nomad.variant c D (devices r)))) w1)
                (List.concat ((fun ishare : nat * Share =>
                                 if bool_decide (share_path c ishare.2 ∉ S)
                                 then nomad_grants w r (share_path c ishare.2) else [])
                                <$> Py.enumerate 1 D))) in Hloop;
      rewrite (bind_ok _ _ _ _ _ _ Hloop)
  end.
  erewrite container_save_existing by reflexivity.
  unfold nomad_pass_grants.
  rewrite <- (fmap_enumerate_snd
                (fun s => if bool_decide (share_path c s ∉ S)
                          then nomad_grants w r (share_path c s) else []) 1 D).
  reflexivity.
Qed.

Lemma Forall2_Some_elem {A B} (f : A -> option B) (l : list A) (l' : list B) y :
  Forall2 (fun x y => f x = Some y) l l' -> y ∈ l' <-> exists x, x ∈ l /\ f x = Some y.
Proof.
  induction 1 as [|x y' l l' Hxy _ IH].
  - split; [by intros ?%elem_of_nil | by intros (? & ?%elem_of_nil & _)].
  - rewrite elem_of_cons, IH. split.
    + intros [->|(x' & Hin & Hx')]; [exists x; split; [left|done] |].
      exists x'. split; [by right | done].
    + intros (x' & [->|Hin]%elem_of_cons & Hx'); [left; congruence|].
      right. by exists x'.
Qed.

(** The snapshot of the inventory holds exactly the sources of the
    installed shares. *)
Lemma existing_sources_elem (shares : Devices) (S : gset string) s :
  existing_sources shares = Some S ->
  s ∈ S <-> exists k d, shares !! k = Some d /\ d !! "source" = Some s.
Proof.
  unfold existing_sources. intros HS.
  destruct (mapM _ _) as [l'|] eqn:Hm; [|done]. injection HS as <-.
  apply mapM_Some_1 in Hm. rewrite elem_of_list_to_set, (Forall2_Some_elem _ _ _ _ Hm).
  split.
  - intros (d & ([k d'] & -> & Hin%elem_of_map_to_list)%list_elem_of_fmap & Hd). by exists k, d'.
  - intros (k & d & Hk & Hd). exists d. split; [|done].
    apply list_elem_of_fmap. exists (k, d). split; [done | by apply elem_of_map_to_list].
Qed.

Lemma existing_sources_defined V (devs : Devices) :
  shares_well_formed V devs -> exists S, existing_sources (existing_shares V devs) = Some S.
Proof.
  intros Hwf. unfold existing_sources.
  destruct (mapM_is_Some_2 (fun d : Device => d !! "source")
              (map_to_list (existing_shares V devs)).*2) as [l' Hl'].
  - apply Forall_forall. intros d ([k d'] & -> & Hin%elem_of_map_to_list)%list_elem_of_fmap.
    apply map_lookup_filter_Some in Hin as [Hd Hs]. by apply (Hwf k).
  - rewrite Hl'. by eexists.
Qed.

Lemma shareconf_source source s : shareconf source s !! "source" = Some source.
Proof. unfold shareconf. rewrite lookup_insert_ne by done. by rewrite lookup_insert_eq. Qed.

Lemma share_entries_length V c start D :
  List.length (share_entries V c start D) = List.length D.
Proof.
  unfold share_entries. rewrite length_fmap. revert start.
  induction D as [|s D IH]; intros start; simpl; [done | by rewrite IH].
Qed.

Lemma reconciled_mirrors V c D devs : mirrors V c D devs (reconciled V c D devs).
Proof.
  unfold mirrors, reconciled. rewrite reconciled_shares. split; [done|]. split.
  - rewrite map_size_list_to_map by apply share_entries_NoDup. apply share_entries_length.
  - intros k Hk. by apply reconciled_others.
Qed.

Lemma share_entries_elem V c start D k d :
  (k, d) ∈ share_entries V c start D -> exists s, s ∈ D /\ d = shareconf (share_path c s) s.
Proof.
  revert start. induction D as [|s D IH]; intros start; simpl.
  - by intros ?%elem_of_nil.
  - intros [Heq|Hin]%elem_of_cons.
    + injection Heq as -> ->. exists s. split; [left | done].
    + destruct (IH _ Hin) as (s' & Hs' & ->). exists s'. split; [by right | done].
Qed.

(** The shares that a pass installs are well formed: the next pass can read
    them. *)
Lemma reconciled_well_formed V c D devs : shares_well_formed V (reconciled V c D devs).
Proof.
  intros k d Hk Hs.
  assert (Hin : existing_shares V (reconciled V c D devs) !! k = Some d)
    by (by apply map_lookup_filter_Some).
  destruct (reconciled_mirrors V c D devs) as (Heq & _). rewrite Heq in Hin.
  apply elem_of_list_to_map_2, share_entries_elem in Hin as (s & _ & ->).
  rewrite shareconf_source. by eexists.
Qed.

(** A pass of each variant, for a desired list and devices that are well
    formed. *)
Lemma lxdock_pass c w r D :
  remote w = Some r ->
  opt_shares (options c) = Some D ->
  shares_well_formed Lxdock.variant (devices r) ->
  res (Lxdock._setup_shares c w) = Ok tt
  /\ remote (world (Lxdock._setup_shares c w))
     = Some (mkRemote (status_code r) (config r) (reconciled Lxdock.variant c D (devices r))).
Proof.
  intros Hr HD Hwf. destruct (existing_sources_defined _ _ Hwf) as [S HS].
  by rewrite (lxdock_setup_shares_run c w r S D Hr HS HD).
Qed.

Lemma nomad_pass c w r :
  remote w = Some r ->
  shares_well_formed Nomad.variant (devices r) ->
  res (Nomad._setup_shares c w) = Ok tt
  /\ remote (world (Nomad._setup_shares c w))
     = Some (mkRemote (status_code r) (config r)
               (reconciled Nomad.variant c (default [] (opt_shares (options c))) (devices r))).
Proof.
  intros Hr Hwf. destruct (existing_sources_defined _ _ Hwf) as [S HS].
  by rewrite (nomad_setup_shares_run c w r S Hr HS).
Qed.

(** C1: a pass over the desired list [D] leaves, in the namespace of the
    shares, the entries of [D] keyed 1..N in the order of the list and no
    other, whatever shares were installed before; the devices outside the
    namespace are kept.  In particular a pass for [A; B] followed by a pass
    for [B] leaves one share, the one of [B], under the key of number 1. *)
Theorem share_reconciliation c w r :
  remote w = Some r ->
  shares_well_formed Lxdock.variant (devices r) ->
  shares_well_formed Nomad.variant (devices r) ->
  (forall D, opt_shares (options c) = Some D ->
     exists r', res (Lxdock._setup_shares c w) = Ok tt
                /\ remote (world (Lxdock._setup_shares c w)) = Some r'
                /\ mirrors Lxdock.variant c D (devices r) (devices r'))
  /\ (exists r', res (Nomad._setup_shares c w) = Ok tt
                 /\ remote (world (Nomad._setup_shares c w)) = Some r'
                 /\ mirrors Nomad.variant c (default [] (opt_shares (options c)))
                            (devices r) (devices r'))
  /\ (forall c' A B,
        opt_shares (options c) = Some [A; B] -> opt_shares (options c') = Some [B] ->
        (exists r', remote (world ((Lxdock._setup_shares c ;; Lxdock._setup_shares c') w))
                    = Some r'
                    /\ existing_shares Lxdock.variant (devices r')
                       = {[ share_key Lxdock.variant 1 := shareconf (share_path c' B) B ]})
        /\ (exists r', remote (world ((Nomad._setup_shares c ;; Nomad._setup_shares c') w))
                       = Some r'
                       /\ existing_shares Nomad.variant (devices r')
                          = {[ share_key Nomad.variant 1 := shareconf (share_path c' B) B ]})).
Proof.
  intros Hr Hwl Hwn. split; [|split].
  - intros D HD. destruct (lxdock_pass c w r D Hr HD Hwl) as [Hres Hrem].
    eexists. split; [done|]. split; [done|]. apply reconciled_mirrors.
  - destruct (nomad_pass c w r Hr Hwn) as [Hres Hrem].
    eexists. split; [done|]. split; [done|]. apply reconciled_mirrors.
  - intros c' A B HAB HB. split.
    + destruct (lxdock_pass c w r _ Hr HAB Hwl) as [Hres Hrem].
      destruct (Lxdock._setup_shares c w) as [[[]|] w1 ev1] eqn:Hrun; [|done].
      cbn [world] in Hrem.
      destruct (lxdock_pass c' w1 _ [B] Hrem HB (reconciled_well_formed _ _ _ _))
        as [Hres' Hrem'].
      rewrite (bind_ok _ _ _ _ _ _ Hrun), world_after.
      eexists. split; [exact Hrem'|]. cbn [devices].
      etransitivity; [apply reconciled_mirrors | reflexivity].
    + destruct (nomad_pass c w r Hr Hwn) as [Hres Hrem].
      destruct (Nomad._setup_shares c w) as [[[]|] w1 ev1] eqn:Hrun; [|done].
      cbn [world] in Hrem.
      destruct (nomad_pass c' w1 _ Hrem (reconciled_well_formed _ _ _ _)) as [Hres' Hrem'].
      rewrite (bind_ok _ _ _ _ _ _ Hrun), world_after.
      rewrite HB in Hrem'. cbn [default] in Hrem'.
      eexists. split; [exact Hrem'|]. cbn [devices].
      etransitivity; [apply reconciled_mirrors | reflexivity].
Qed.

Lemma share_entries_of V c start D s :
  s ∈ D -> exists i, (share_key V i, shareconf (share_path c s) s) ∈ share_entries V c start D.
Proof.
  revert start. induction D as [|s' D IH]; intros start; simpl.
  - by intros ?%elem_of_nil.
  - intros [->|Hin]%elem_of_cons.
    + exists start. left.
    + destruct (IH (S start) Hin) as [i Hi]. exists i. by right.
Qed.

(** After a pass, the sources of the desired list are installed. *)
Lemma reconciled_sources V c D devs S1 s :
  existing_sources (existing_shares V (reconciled V c D devs)) = Some S1 ->
  s ∈ D -> share_path c s ∈ S1.
Proof.
  intros HS Hs. apply (existing_sources_elem _ _ _ HS).
  destruct (share_entries_of V c 1 D s Hs) as [i Hi].
  exists (share_key V i), (shareconf (share_path c s) s). split.
  - destruct (reconciled_mirrors V c D devs) as [-> _].
    apply elem_of_list_to_map_1; [apply share_entries_NoDup | done].
  - apply shareconf_source.
Qed.

Lemma concat_all_nil {A B} (g : A -> list B) (l : list A) :
  (forall x, x ∈ l -> g x = []) -> List.concat (g <$> l) = [].
Proof.
  induction l as [|x l IH]; intros H; [reflexivity|].
  rewrite fmap_cons. cbn [List.concat]. rewrite (H x) by left.
  apply IH. intros y Hy. apply H. by right.
Qed.

Lemma lxdock_second_pass c w r Sl D :
  remote w = Some r ->
  existing_sources (existing_shares Lxdock.variant (devices r)) = Some Sl ->
  opt_shares (options c) = Some D ->
  List.filter is_grant (events (Lxdock._setup_shares c (world (Lxdock._setup_shares c w)))) = [].
Proof.
  intros Hr HS HD. rewrite (lxdock_setup_shares_run c w r Sl D Hr HS HD). cbn [world].
  set (r1 := mkRemote _ _ _). set (w1 := set_remote _ w).
  destruct (existing_sources_defined Lxdock.variant (devices r1)) as [S1 HS1];
    [apply reconciled_well_formed|].
  rewrite (lxdock_setup_shares_run c w1 r1 S1 D eq_refl HS1 HD). cbn [events].
  unfold lxdock_pass_grants. rewrite concat_all_nil; [reflexivity|].
  intros s Hs. rewrite (bool_decide_eq_false_2 (share_path c s ∉ S1)).
  - by rewrite andb_false_r.
  - intros Hn. apply Hn. by apply (reconciled_sources _ _ _ _ _ _ HS1).
Qed.

Lemma nomad_second_pass c w r Sn :
  remote w = Some r ->
  existing_sources (existing_shares Nomad.variant (devices r)) = Some Sn ->
  List.filter is_grant (events (Nomad._setup_shares c (world (Nomad._setup_shares c w)))) = [].
Proof.
  intros Hr HS. rewrite (nomad_setup_shares_run c w r Sn Hr HS). cbn [world].
  set (r1 := mkRemote _ _ _). set (w1 := set_remote _ w).
  destruct (existing_sources_defined Nomad.variant (devices r1)) as [S1 HS1];
    [apply reconciled_well_formed|].
  rewrite (nomad_setup_shares_run c w1 r1 S1 eq_refl HS1). cbn [events].
  unfold nomad_pass_grants. rewrite concat_all_nil.
  - by destruct (bool_decide _).
  - intros s Hs. rewrite (bool_decide_eq_false_2 (share_path c s ∉ S1)); [done|].
    intros Hn. apply Hn. by apply (reconciled_sources _ _ _ _ _ _ HS1).
Qed.

Lemma snapshot_elem V (devs : Devices) (S : gset string) s :
  existing_sources (existing_shares V devs) = Some S ->
  s ∈ S <-> exists k d, devs !! k = Some d /\ is_share V k /\ d !! "source" = Some s.
Proof.
  intros HS. rewrite (existing_sources_elem _ _ _ HS). unfold existing_shares.
  split.
  - intros (k & d & [Hd Hk]%map_lookup_filter_Some & Hs). by exists k, d.
  - intros (k & d & Hd & Hk & Hs). exists k, d. split; [|done].
    by apply map_lookup_filter_Some.
Qed.

(** C7, amended: in a pass, the grants are those of the desired shares whose
    source is not in the snapshot taken before the removal (in [lxdock],
    unless the share switches the grants off); the snapshot holds the
    sources of the shares of the product that were installed; and a pass
    that follows a pass of the same descriptor grants nothing. *)
Theorem acl_grants_by_snapshot c w r Sl Sn :
  remote w = Some r ->
  existing_sources (existing_shares Lxdock.variant (devices r)) = Some Sl ->
  existing_sources (existing_shares Nomad.variant (devices r)) = Some Sn ->
  (forall D, opt_shares (options c) = Some D ->
     events (Lxdock._setup_shares c w)
     = Log INFO "Setting up shares..." :: lxdock_pass_grants c r Sl D ++ [ContainerSave]
     /\ List.filter is_grant
          (events (Lxdock._setup_shares c (world (Lxdock._setup_shares c w)))) = [])
  /\ (events (Nomad._setup_shares c w)
      = ((if bool_decide (config r !! "security.privileged" = Some "true") then []
          else [OsStat (rootfs_path c w)])
           ++ nomad_pass_grants c w r Sn (default [] (opt_shares (options c)))
           ++ [ContainerSave])%list
      /\ List.filter is_grant
           (events (Nomad._setup_shares c (world (Nomad._setup_shares c w)))) = [])
  /\ (forall s, s ∈ Sl <-> exists k d, devices r !! k = Some d /\ is_share Lxdock.variant k
                                       /\ d !! "source" = Some s)
  /\ (forall s, s ∈ Sn <-> exists k d, devices r !! k = Some d /\ is_share Nomad.variant k
                                       /\ d !! "source" = Some s).
Proof.
  intros Hr HSl HSn. split; [|split; [|split]].
  - intros D HD. split.
    + by rewrite (lxdock_setup_shares_run c w r Sl D Hr HSl HD).
    + by apply (lxdock_second_pass c w r Sl D).
  - split.
    + by rewrite (nomad_setup_shares_run c w r Sn Hr HSn).
    + by apply (nomad_second_pass c w r Sn).
  - intros s. by apply snapshot_elem.
  - intros s. by apply snapshot_elem.
Qed.

(** ** Rules for the calls that a method can issue *)

Section Emits.

Context (P : Event -> Prop).

Lemma events_after {A} evs (o : Out A) : events (after evs o) = evs ++ events o.
Proof. by destruct o. Qed.

Lemma emits_ret {A} (a : A) : emits P (ret a).
Proof. intros w. constructor. Qed.

Lemma emits_raise {A} e : emits P (@raise A e).
Proof. intros w. constructor. Qed.

Lemma emits_get_world : emits P get_world.
Proof. intros w. constructor. Qed.

Lemma emits_emit e : P e -> emits P (emit e).
Proof. intros He w. by repeat constructor. Qed.

Lemma emits_logger lvl msg : P (Log lvl msg) -> emits P (logger lvl msg).
Proof. apply emits_emit. Qed.

Lemma emits_bind {A B} (m : M A) (k : A -> M B) :
  emits P m -> (forall a, emits P (k a)) -> emits P (bind m k).
Proof.
  intros Hm Hk w. unfold bind. specialize (Hm w).
  destruct (m w) as [[a|e] w1 ev1]; simpl in *; [|done].
  rewrite events_after. apply Forall_app. split; [done | apply Hk].
Qed.

Lemma emits_try_except {A} (m : M A) h :
  emits P m -> (forall e k, h e = Some k -> emits P k) -> emits P (try_except m h).
Proof.
  intros Hm Hh w. unfold try_except. specialize (Hm w).
  destruct (m w) as [[a|e] w1 ev1]; simpl in *; [done|].
  destruct (h e) as [k|] eqn:He; simpl; [|done].
  rewrite events_after. apply Forall_app. split; [done | by apply (Hh e k He)].
Qed.

Lemma emits_for_fold {A S} (l : list A) (s : S) body :
  (forall s x, emits P (body s x)) -> emits P (for_fold l s body).
Proof.
  intros Hb. revert s. induction l as [|x l IH]; intros s; simpl.
  - apply emits_ret.
  - apply emits_bind; [apply Hb | intros s'; apply IH].
Qed.

Lemma emits_for_each {A} (l : list A) body :
  (forall x, emits P (body x)) -> emits P (for_each l body).
Proof. intros Hb. apply emits_for_fold. intros _ x. apply Hb. Qed.

Lemma emits_when b m : emits P m -> emits P (when b m).
Proof. intros Hm. destruct b; [done | apply emits_ret]. Qed.

Lemma emits_containers_get : emits P containers_get.
Proof. intros w. constructor. Qed.

Lemma emits_handle : emits P handle.
Proof. intros w. unfold handle. destruct (remote w); constructor. Qed.

Lemma emits_update_handle g : emits P (update_handle g).
Proof.
  apply emits_bind; [apply emits_handle|]. intros r w. constructor.
Qed.

Lemma emits_EtcHosts_init : emits P EtcHosts_init.
Proof. intros w. constructor. Qed.

Lemma emits_containers_create spec :
  P (ContainersCreate spec) -> emits P (containers_create spec).
Proof.
  intros Hp w. unfold containers_create.
  destruct (create_feed w) as [|[?|] ?]; simpl; by repeat constructor.
Qed.

Lemma emits_container_start : P ContainerStart -> emits P container_start.
Proof.
  intros Hp. apply emits_bind; [apply emits_handle|]. intros r.
  apply emits_bind; [by apply emits_emit|]. intros _ w.
  destruct (start_feed w); constructor.
Qed.

Lemma emits_container_stop t b : P (ContainerStop t b) -> emits P (container_stop t b).
Proof.
  intros Hp. apply emits_bind; [apply emits_handle|]. intros r.
  apply emits_bind; [by apply emits_emit|]. intros _ w.
  destruct (stop_feed w) as [|[|] ?]; constructor.
Qed.

Lemma emits_container_save : P ContainerSave -> emits P container_save.
Proof.
  intros Hp. apply emits_bind; [apply emits_handle|]. intros r. by apply emits_emit.
Qed.

Lemma emits_get_ip : P GetIp -> emits P get_ip.
Proof.
  intros Hp. apply emits_bind; [by apply emits_emit|]. intros _ w.
  destruct (ip_feed w); constructor.
Qed.

Hypothesis P_log : forall lvl msg, P (Log lvl msg).
Hypothesis P_create : forall spec, P (ContainersCreate spec).

Lemma emits_get_container V c create : emits P (_get_container V c create).
Proof using P_log P_create.
  unfold _get_container.
  apply emits_bind; [apply emits_containers_get|]. intros [|]; [apply emits_ret|].
  destruct create; [|apply emits_ret]. simpl.
  apply emits_bind; [apply emits_get_world|]. intros w0.
  apply emits_bind; [by apply emits_logger|]. intros _.
  apply emits_bind; [by apply emits_logger|]. intros _.
  apply emits_try_except.
  - apply emits_bind; [by apply emits_containers_create|]. intros _. apply emits_ret.
  - intros [] k Hk; try discriminate. injection Hk as <-.
    apply emits_bind; [by apply emits_logger|]. intros _. apply emits_raise.
Qed.

Lemma emits_container V c : emits P (_container V c).
Proof using P_log P_create.
  apply emits_bind; [apply emits_get_container|]. intros _. apply emits_handle.
Qed.

Lemma emits_is_running V c : emits P (is_running V c).
Proof using P_log P_create.
  apply emits_bind; [apply emits_container|]. intros r. apply emits_ret.
Qed.

Lemma emits_wait_for_ip V c n :
  P (Sleep 1) -> P GetIp -> emits P (_wait_for_ip V c n).
Proof using P_log P_create.
  intros Hs Hg. induction n as [|n IH]; simpl; [apply emits_ret|].
  apply emits_bind; [by apply emits_emit|]. intros _.
  apply emits_bind; [apply emits_container|]. intros _.
  apply emits_bind; [by apply emits_get_ip|]. intros ip.
  destruct (Py.truthy ip); [apply emits_ret | apply IH].
Qed.

End Emits.

(** In [lxdock], [up] issues nothing but log records, the creation, the
    start, queries of the address and sleeps before the acquisition of the
    address returns. *)
Lemma lxdock_up_start_calls c :
  emits (fun e => is_start_call e = true) (Lxdock.up_start c).
Proof.
  set (P := fun e => is_start_call e = true).
  assert (Hlog : forall lvl msg, P (Log lvl msg)) by done.
  assert (Hcreate : forall spec, P (ContainersCreate spec)) by done.
  unfold Lxdock.up_start.
  apply emits_bind; [by apply emits_is_running|]. intros [|].
  { apply emits_bind; [by apply emits_logger|]. intros _. apply emits_ret. }
  apply emits_bind; [by apply emits_logger|]. intros _.
  apply emits_bind; [by apply emits_container|]. intros _.
  apply emits_bind; [by apply emits_container_start|]. intros _.
  apply emits_bind; [by apply emits_is_running|]. intros [|]; cbn [negb].
  - apply emits_bind; [|intros ip; apply emits_ret].
    unfold Lxdock._setup_ip.
    apply emits_bind; [by apply emits_container|]. intros _.
    apply emits_bind; [by apply emits_get_ip|]. intros ip.
    apply emits_bind.
    + destruct (negb (Py.truthy ip)); [|apply emits_ret].
      apply emits_bind; [by apply emits_logger|]. intros _. by apply emits_wait_for_ip.
    + intros ip'. apply emits_bind; [|intros _; apply emits_ret].
      apply emits_when.
      apply emits_bind; [by apply emits_logger|]. intros _. by apply emits_logger.
  - apply emits_bind; [by apply emits_logger|]. intros _. apply emits_raise.
Qed.

(** C10, amended: when the acquisition of the address returns nothing, [up]
    ends there, without an exception: what follows the acquisition does
    nothing at all.  In [lxdock] the whole run has then issued nothing but
    log records, the creation, the start, queries of the address and sleeps;
    in [nomad], where the shares are reconciled before the start, the run is
    the run of the steps down to the acquisition. *)
Theorem up_without_ip c ip :
  Py.truthy ip = false ->
  (forall mode w, Lxdock.up_configure c mode ip w = mkOut (Ok tt) w [])
  /\ (forall w, Nomad.up_configure c ip w = mkOut (Ok tt) w [])
  /\ (forall mode w,
        res (Lxdock.up_start c w) = Ok (Some ip) ->
        Lxdock.up c mode w
        = mkOut (Ok tt) (world (Lxdock.up_start c w)) (events (Lxdock.up_start c w))
        /\ Forall (fun e => is_start_call e = true) (events (Lxdock.up c mode w)))
  /\ (forall w,
        res (Nomad.up_start c w) = Ok (Some ip) ->
        Nomad.up c w
        = mkOut (Ok tt) (world (Nomad.up_start c w)) (events (Nomad.up_start c w))).
Proof.
  intros Hip.
  assert (Hl : forall mode w, Lxdock.up_configure c mode ip w = mkOut (Ok tt) w [])
    by (intros mode w; unfold Lxdock.up_configure; by rewrite Hip).
  assert (Hn : forall w, Nomad.up_configure c ip w = mkOut (Ok tt) w [])
    by (intros w; unfold Nomad.up_configure; by rewrite Hip).
  split; [done|]. split; [done|]. split.
  - intros mode w Hres.
    assert (Hup : Lxdock.up c mode w
                  = mkOut (Ok tt) (world (Lxdock.up_start c w)) (events (Lxdock.up_start c w))).
    { rewrite lxdock_up_split. unfold bind.
      destruct (Lxdock.up_start c w) as [ro wo evo]. simpl in Hres. subst ro.
      rewrite Hl. simpl. by rewrite app_nil_r. }
    split; [done|]. rewrite Hup. apply lxdock_up_start_calls.
  - intros w Hres. rewrite nomad_up_split. unfold bind.
    destruct (Nomad.up_start c w) as [ro wo evo]. simpl in Hres. subst ro.
    rewrite Hn. simpl. by rewrite app_nil_r.
Qed.

(** ** [up] on a container that is provisioned *)

Lemma lxdock_setup_users_run c w :
  Lxdock._setup_users c w
  = mkOut (Ok tt) w
      (match default [] (opt_users (options c)) with
       | [] => []
       | users =>
           Log INFO "Ensuring users are created..."
           :: ((fun u => GuestCreateUser (user_name u) (user_home u) (user_password u))
                 <$> users)
       end).
Proof.
  unfold Lxdock._setup_users. destruct (default [] (opt_users (options c))) as [|u us].
  - reflexivity.
  - unfold logger. norm.
    rewrite (for_each_emit _
               (fun u => [GuestCreateUser (user_name u) (user_home u) (user_password u)]))
      by reflexivity.
    by rewrite concat_singletons.
Qed.

(** The loop of [_setup_env]. *)
Lemma env_loop_run V c (env : list (string * string)) w r :
  remote w = Some r ->
  for_each env (fun kv => _ <- _container V c ;;
                          update_handle (set_config ("environment." +:+ kv.1) kv.2)) w
  = mkOut (Ok tt)
      (set_remote
         (Some (mkRemote (status_code r)
                  (foldl (fun cfg kv => <["environment." +:+ kv.1 := kv.2]> cfg) (config r) env)
                  (devices r))) w) [].
Proof.
  revert w r. induction env as [|kv env IH]; intros w r Hr.
  - simpl. by rewrite set_remote_same.
  - rewrite for_each_cons, bind_assoc.
    rewrite (bind_ok _ _ _ _ _ _ (container_existing V c w r Hr)), after_nil.
    rewrite (bind_ok _ _ _ _ _ _ (update_handle_existing w r Hr _)), after_nil.
    rewrite (IH _ (set_config ("environment." +:+ kv.1) kv.2 r)) by reflexivity.
    reflexivity.
Qed.

Lemma lxdock_setup_env_run c w r :
  remote w = Some r ->
  Lxdock._setup_env c w
  = mkOut (Ok tt)
      (set_remote (Some (mkRemote (status_code r) (env_applied c (config r)) (devices r))) w)
      (match default [] (opt_environment (options c)) with
       | [] => []
       | _ => [ContainerSave]
       end).
Proof.
  intros Hr. unfold Lxdock._setup_env, env_applied.
  destruct (opt_environment (options c)) as [[|[k0 v0] env]|]; cbn [default foldl].
  1, 3: by rewrite set_remote_same.
  rewrite (bind_ok _ _ _ _ _ _ (env_loop_run _ c ((k0, v0) :: env) w r Hr)), after_nil.
  erewrite (bind_ok (_container _ c)) by (apply container_existing; reflexivity).
  rewrite after_nil. erewrite container_save_existing by reflexivity. reflexivity.
Qed.

(** The overrides are written under keys of their own: the other keys of
    the configuration keep their values. *)
Lemma env_applied_other c cfg k :
  Py.startswith k "environment." = false -> env_applied c cfg !! k = cfg !! k.
Proof.
  intros Hk. unfold env_applied. revert cfg.
  induction (default [] (opt_environment (options c))) as [|kv env IH]; intros cfg; [done|].
  cbn [foldl]. rewrite IH. apply lookup_insert_ne. intros <-.
  by rewrite startswith_app in Hk.
Qed.

Lemma filter_none {A} (f : A -> bool) (l : list A) :
  Forall (fun x => f x = false) l -> List.filter f l = [].
Proof. induction 1 as [|x l Hx _ IH]; simpl; [done|]. by rewrite Hx. Qed.

Lemma lxdock_pass_grants_calls c r S D :
  Forall (fun e => is_provisioning_call e = false) (lxdock_pass_grants c r S D).
Proof.
  unfold lxdock_pass_grants. apply Forall_concat, Forall_fmap, Forall_forall.
  intros s _. cbn [compose]. destruct (_ && _); [|constructor].
  unfold lxdock_grants. repeat constructor.
  destruct (bool_decide _); repeat constructor.
  apply Forall_fmap, Forall_forall. by intros u _.
Qed.

(** The steps of [up] of [lxdock] that follow the acquisition of an
    address, on a container that carries the flag of the provisioning and
    unless the provisioning is forced: the overrides of the environment are
    written into the configuration, the flag keeps the provisioning from
    running. *)
Lemma lxdock_configure_provisioned c mode ip w r :
  Py.truthy ip = true ->
  remote w = Some r ->
  shares_well_formed Lxdock.variant (devices r) ->
  config r !! "user.lxdock.provisioned" = Some "true" ->
  mode <> Some ENABLED ->
  let o := Lxdock.up_configure c mode ip w in
  res o = Ok tt
  /\ (config <$> remote (world o)) = Some (env_applied c (config r))
  /\ List.filter is_provisioning_call (events o) = [].
Proof.
  intros Hip Hr Hwf Hflag Hmode o.
  destruct (existing_sources_defined _ _ Hwf) as [S HS].
  set (w1 := if changed (setup_result c ip w)
             then set_etc_hosts (bindings (setup_result c ip w)) w else w).
  assert (Hr1 : remote w1 = Some r) by (subst w1; by destruct (changed _)).
  assert (Hsh : exists r2 evs,
             Lxdock._setup_shares c w1 = mkOut (Ok tt) (set_remote (Some r2) w1) evs
             /\ config r2 = config r
             /\ Forall (fun e => is_provisioning_call e = false) evs).
  { destruct (opt_shares (options c)) as [D|] eqn:HD.
    - eexists _, _. split; [exact (lxdock_setup_shares_run c w1 r S D Hr1 HS HD)|].
      split; [reflexivity|]. constructor; [done|].
      apply Forall_app. split; [apply lxdock_pass_grants_calls | by repeat constructor].
    - exists (mkRemote (status_code r) (config r) (devices r)), [].
      unfold Lxdock._setup_shares. rewrite HD.
      by rewrite (set_remote_same w1 r Hr1). }
  destruct Hsh as (r2 & evs & Hsh & Hcfg & Hevs).
  assert (Hm : default AUTO mode = AUTO \/ default AUTO mode = DISABLED).
  { destruct mode as [[]|]; cbn [default]; auto; congruence. }
  assert (Ho : exists r3 evs3,
             o = mkOut (Ok tt) (set_remote (Some r3) (set_remote (Some r2) w1)) evs3
             /\ config r3 = env_applied c (config r)
             /\ Forall (fun e => is_provisioning_call e = false) evs3).
  { subst o. unfold Lxdock.up_configure. rewrite Hip. cbn [negb]. unfold logger at 1. norm.
    rewrite (bind_ok _ _ _ _ _ _ (setup_hostnames_run c ip w)). fold w1.
    rewrite (bind_ok _ _ _ _ _ _ (lxdock_setup_users_run c w1)).
    rewrite (bind_ok _ _ _ _ _ _ Hsh).
    rewrite (bind_ok _ _ _ _ _ _
               (lxdock_setup_env_run c (set_remote (Some r2) w1) r2 eq_refl)).
    erewrite (bind_ok (is_provisioned _ c)) by (apply is_provisioned_existing; reflexivity).
    cbn [config]. change ("user." +:+ product Lxdock.variant +:+ ".provisioned")
      with "user.lxdock.provisioned".
    rewrite env_applied_other by reflexivity. rewrite Hcfg, Hflag.
    rewrite (bool_decide_eq_true_2 (Some "true" = Some "true")) by reflexivity.
    cbv zeta.
    destruct Hm as [-> | ->]; cbn [negb andb orb bool_decide decide_rel];
      unfold when, logger, emit, ret; cbn [after].
    all: eexists _, _; split; [reflexivity|]; split; [reflexivity|].
    all: constructor; [done|]; rewrite ?app_nil_r; repeat (apply Forall_app; split).
    all: try exact Hevs.
    all: try (by repeat constructor).
    all: try (destruct (changed _); by repeat constructor).
    all: try (apply Forall_fmap, Forall_forall; by intros ? _).
    all: try (destruct (default [] (opt_users (options c))); [constructor|];
              constructor; [done|]; apply Forall_fmap, Forall_forall; by intros ? _).
    all: try (destruct (default [] (opt_environment (options c))); by repeat constructor). }
  destruct Ho as (r3 & evs3 & -> & Hcfg3 & Hevs3). cbn [res world events].
  split; [reflexivity|]. split; [|by apply filter_none].
  cbn. by rewrite Hcfg3.
Qed.

(** ** Sample runs *)

Lemma stale_well_formed_lxdock : shares_well_formed Lxdock.variant (devices stale_remote).
Proof.
  intros k d Hk Hs. unfold stale_remote in Hk. cbn [devices] in Hk.
  do 3 (apply lookup_insert_Some in Hk as [[_ <-]|[_ Hk]];
        [rewrite shareconf_source; by eexists|]).
  apply lookup_insert_Some in Hk as [[<- _]|[_ Hk]]; [by vm_compute in Hs | done].
Qed.

Lemma stale_well_formed_nomad : shares_well_formed Nomad.variant (devices stale_remote).
Proof.
  intros k d Hk Hs. unfold stale_remote in Hk. cbn [devices] in Hk.
  do 3 (apply lookup_insert_Some in Hk as [[_ <-]|[_ Hk]];
        [rewrite shareconf_source; by eexists|]).
  apply lookup_insert_Some in Hk as [[<- _]|[_ Hk]]; [by vm_compute in Hs | done].
Qed.

Lemma share_reconciliation_witness :
  exists r',
    remote (world ((Lxdock._setup_shares shop_ab ;; Lxdock._setup_shares shop_b) stale_world))
    = Some r'
    /\ existing_shares Lxdock.variant (devices r')
       = {[ share_key Lxdock.variant 1 := shareconf (share_path shop_b share_b) share_b ]}.
Proof.
  exact (proj1 (proj2 (proj2 (share_reconciliation shop_ab stale_world stale_remote eq_refl
                                stale_well_formed_lxdock stale_well_formed_nomad))
                 shop_b share_a share_b eq_refl eq_refl)).
Defined.

(** The sources installed on [stale_world], per namespace. *)
Lemma stale_sources_lxdock :
  existing_sources (existing_shares Lxdock.variant (devices stale_remote))
  = Some ({[ "/home/dev/shop/old"; "/home/dev/shop/a" ]} : gset string).
Proof. vm_compute. reflexivity. Qed.

Lemma stale_sources_nomad :
  existing_sources (existing_shares Nomad.variant (devices stale_remote))
  = Some ({[ "/home/dev/shop/a" ]} : gset string).
Proof. vm_compute. reflexivity. Qed.

(** On [stale_world] the source of [a] is installed and the source of [b]
    is not: the pass for [a; b] grants access to [b] only. *)
Lemma acl_grants_by_snapshot_witness :
  events (Lxdock._setup_shares shop_ab stale_world)
  = Log INFO "Setting up shares..."
      :: lxdock_pass_grants shop_ab stale_remote
           {[ "/home/dev/shop/old"; "/home/dev/shop/a" ]} [share_a; share_b]
      ++ [ContainerSave].
Proof.
  exact (proj1 (proj1 (acl_grants_by_snapshot shop_ab stale_world stale_remote _ _ eq_refl
                         stale_sources_lxdock stale_sources_nomad)
                 [share_a; share_b] eq_refl)).
Defined.

(** C7, as stated, fails: [up] for the share [a], [halt], [up] for the share
    [b], [halt], [up] for the share [a] again grants the current user access
    to the source of [a] twice, because the second [up] removed the device
    that recorded the first grant. *)
Lemma acl_granted_twice :
  List.length
    (List.filter (grants_current_user "/home/dev/shop/a")
       (events ((Lxdock.up shop_a None ;; halt Lxdock.variant shop_a ;;
                 Lxdock.up shop_b None ;; halt Lxdock.variant shop_b ;;
                 Lxdock.up shop_a None) fresh_world)))
  = 2.
Proof. vm_compute. reflexivity. Qed.

(** C2, amended: [up] on a container that is running returns at its first
    test: one log record, no call, the world as it was; neither the
    provisioning nor the environment overrides are applied again, in either
    variant. *)
Theorem up_running_is_noop c w r :
  remote w = Some r ->
  status_code r = CONTAINER_RUNNING ->
  (forall mode,
     Lxdock.up c mode w
     = mkOut (Ok tt) w [Log INFO ("Container " +:+ dq +:+ name c +:+ dq +:+ " is already running")])
  /\ Nomad.up c w
     = mkOut (Ok tt) w [Log INFO ("Container " +:+ dq +:+ name c +:+ dq +:+ " is already running")].
Proof.
  intros Hr Hs. split; [intros mode; unfold Lxdock.up | unfold Nomad.up].
  all: rewrite (bind_ok _ _ _ _ _ _ (is_running_existing _ c w r Hr)), after_nil.
  all: by rewrite bool_decide_eq_true_2.
Qed.

Lemma up_running_is_noop_witness :
  Lxdock.up shop_a None running_world
  = mkOut (Ok tt) running_world
      [Log INFO ("Container " +:+ dq +:+ name shop_a +:+ dq +:+ " is already running")].
Proof.
  exact (proj1 (up_running_is_noop shop_a running_world (mkRemote CONTAINER_RUNNING ∅ ∅)
                  eq_refl eq_refl) None).
Defined.

(** C2, as stated, fails: after a first [up] that left the container running
    and provisioned, with [FOO=bar] in its configuration, a second [up] with
    the override edited to [FOO=baz] issues no call and leaves [FOO=bar]. *)
Lemma second_up_keeps_old_environment :
  let w1 := world (Lxdock.up shop_a None fresh_world) in
  (status_code <$> remote w1) = Some CONTAINER_RUNNING
  /\ (remote w1 ≫= fun r => config r !! "user.lxdock.provisioned") = Some "true"
  /\ (remote w1 ≫= fun r => config r !! "environment.FOO") = Some "bar"
  /\ List.filter is_daemon_mutation (events (Lxdock.up shop_a_edited None w1)) = []
  /\ (remote (world (Lxdock.up shop_a_edited None w1))
        ≫= fun r => config r !! "environment.FOO") = Some "bar".
Proof. cbv zeta. repeat apply conj; vm_compute; reflexivity. Qed.

(** After a [halt] in between, the same second [up] starts the container
    again, writes [FOO=baz] and runs no provisioning. *)
Lemma up_after_halt_applies_environment :
  let w1 := world ((Lxdock.up shop_a None ;; halt Lxdock.variant shop_a) fresh_world) in
  (status_code <$> remote w1) = Some CONTAINER_STOPPED
  /\ (remote w1 ≫= fun r => config r !! "user.lxdock.provisioned") = Some "true"
  /\ List.filter is_provisioning_call (events (Lxdock.up shop_a_edited None w1)) = []
  /\ (remote (world (Lxdock.up shop_a_edited None w1))
        ≫= fun r => config r !! "environment.FOO") = Some "baz".
Proof. cbv zeta. repeat apply conj; vm_compute; reflexivity. Qed.

Lemma fresh_up_acquires : res (Lxdock.up_start shop_a fresh_world) = Ok (Some "10.0.3.5").
Proof. vm_compute. reflexivity. Qed.

Lemma hostname_bindings_lifecycle_witness :
  etc_hosts (world (Lxdock.up shop_a None fresh_world)) !! "dev.local" = Some "10.0.3.5".
Proof.
  exact (proj1 (hostname_bindings_lifecycle shop_a "dev.local" (or_introl eq_refl))
           None "10.0.3.5" fresh_world fresh_up_acquires eq_refl).
Defined.

(** The scenario of the hostnames: [up] with the address 10.0.3.5 binds
    [dev.local] to it, [halt] removes the binding, the next [up], with the
    address 10.0.3.9, binds [dev.local] to the new address. *)
Lemma dev_local_scenario :
  let w1 := world (Lxdock.up shop_a None fresh_world) in
  let w2 := world (halt Lxdock.variant shop_a w1) in
  let w3 := world (Lxdock.up shop_a None w2) in
  etc_hosts w1 = {[ "dev.local" := "10.0.3.5" ]}
  /\ etc_hosts w2 = ∅
  /\ etc_hosts w3 = {[ "dev.local" := "10.0.3.9" ]}.
Proof. cbv zeta. repeat apply conj; vm_compute; reflexivity. Qed.

Lemma up_without_ip_witness :
  Lxdock.up_configure shop_a None "" fresh_world = mkOut (Ok tt) fresh_world [].
Proof. exact (proj1 (up_without_ip shop_a "" eq_refl) None fresh_world). Defined.

(** C10, as stated, fails in [nomad]: on a host where no address ever shows,
    [up] returns normally and the acquisition returned nothing, yet the
    run has reconciled the shares: the grants were issued and the device of
    the share is installed. *)
Lemma nomad_up_without_ip_reconciles_shares :
  res (Nomad.up_start shop_a no_ip_world) = Ok (Some "")
  /\ res (Nomad.up shop_a no_ip_world) = Ok tt
  /\ List.filter is_grant (events (Nomad.up shop_a no_ip_world))
     = [SubprocessPopen "setfacl -Rdm u:1000:rwX /home/dev/shop/a";
        SubprocessPopen
          ("setfacl -Rm user:lxd:rwx,default:user:lxd:rwx,user:1065:rwx," +:+
           "default:user:1065:rwx /home/dev/shop/a")]
  /\ (remote (world (Nomad.up shop_a no_ip_world)) ≫= fun r => devices r !! "nomadshare1")
     = Some (shareconf "/home/dev/shop/a" share_a).
Proof. cbv zeta. repeat apply conj; vm_compute; reflexivity. Qed.

(** * Further properties of the actions *)

(** ** [halt] and [destroy] on a container that exists *)

Lemma stop_attempts_run V c w r :
  remote w = Some r ->
  stop_attempts V c w
  = match stop_feed w with
    | [] =>
        mkOut (Ok tt) (set_remote (Some (set_status CONTAINER_STOPPED r)) w)
              [ContainerStop (Some 30) (Some false)]
    | true :: feed =>
        mkOut (Ok tt)
              (set_remote (Some (set_status CONTAINER_STOPPED r)) (set_stop_feed feed w))
              [ContainerStop (Some 30) (Some false)]
    | false :: feed =>
        after [ContainerStop (Some 30) (Some false);
               Log WARNING "Can't stop the container. Forcing...";
               ContainerStop None (Some true)]
          (match feed with
           | [] =>
               mkOut (Ok tt)
                     (set_remote (Some (set_status CONTAINER_STOPPED r)) (set_stop_feed [] w)) []
           | true :: feed' =>
               mkOut (Ok tt)
                     (set_remote (Some (set_status CONTAINER_STOPPED r))
                                 (set_stop_feed feed' (set_stop_feed feed w))) []
           | false :: feed' =>
               mkOut (Raise (LXDAPIException "")) (set_stop_feed feed' (set_stop_feed feed w)) []
           end)
    end.
Proof.
  intros Hr. unfold stop_attempts, try_except.
  rewrite (bind_ok _ _ _ _ _ _ (container_existing V c w r Hr)), after_nil.
  unfold container_stop at 1.
  rewrite (bind_ok _ _ _ _ _ _ (handle_existing w r Hr)), after_nil.
  rewrite bind_emit. cbv beta.
  destruct (stop_feed w) as [|[|] feed] eqn:Hf; [reflexivity|reflexivity|].
  cbv beta iota delta [after app]. unfold logger.
  rewrite bind_emit.
  rewrite (bind_ok _ _ _ _ _ _ (container_existing V c (set_stop_feed feed w) r Hr)), after_nil.
  unfold container_stop.
  rewrite (bind_ok _ _ _ _ _ _ (handle_existing (set_stop_feed feed w) r Hr)), after_nil.
  rewrite bind_emit. cbv beta. cbn [stop_feed set_stop_feed].
  destruct feed as [|[|] feed']; reflexivity.
Qed.

Lemma unsetup_world_remote c w : remote (unsetup_world c w) = remote w.
Proof. unfold unsetup_world. by destruct (changed _). Qed.

Lemma unsetup_world_stop_feed c w : stop_feed (unsetup_world c w) = stop_feed w.
Proof. unfold unsetup_world. by destruct (changed _). Qed.

Lemma halt_existing_run V c w r :
  remote w = Some r -> status_code r <> CONTAINER_STOPPED ->
  halt V c w
  = after (events (_unsetup_hostnames c w) ++ [Log INFO "Stopping..."])
      (stop_attempts V c (unsetup_world c w)).
Proof.
  intros Hr Hs. unfold halt.
  rewrite (bind_ok _ _ _ _ _ _ (is_stopped_existing V c w r Hr)), after_nil.
  rewrite bool_decide_eq_false_2 by done.
  rewrite (unsetup_hostnames_run c w). cbn [events].
  rewrite (bind_ok _ _ _ _ _ _ (unsetup_hostnames_run c w)).
  unfold logger at 1. rewrite bind_emit, after_after. reflexivity.
Qed.

Lemma halt_stopped_run V c w r :
  remote w = Some r -> status_code r = CONTAINER_STOPPED ->
  halt V c w = mkOut (Ok tt) w [Log INFO "The container is already stopped."].
Proof.
  intros Hr Hs. unfold halt.
  rewrite (bind_ok _ _ _ _ _ _ (is_stopped_existing V c w r Hr)), after_nil.
  by rewrite bool_decide_eq_true_2.
Qed.

Lemma set_status_same r s : status_code r = s -> set_status s r = r.
Proof. destruct r. simpl. by intros ->. Qed.

(** [halt] on a container that exists, unless the daemon refuses both
    stops. *)
Lemma halt_leaves_stopped V c w r :
  remote w = Some r ->
  status_code r = CONTAINER_STOPPED \/ stop_refused_twice w = false ->
  res (halt V c w) = Ok tt
  /\ remote (world (halt V c w)) = Some (set_status CONTAINER_STOPPED r).
Proof.
  intros Hr Hc. destruct (decide (status_code r = CONTAINER_STOPPED)) as [Hs|Hs].
  { rewrite (halt_stopped_run V c w r Hr Hs). by rewrite set_status_same. }
  destruct Hc as [Hc|Hc]; [done|].
  assert (Hr1 : remote (unsetup_world c w) = Some r) by (by rewrite unsetup_world_remote).
  rewrite (halt_existing_run V c w r Hr Hs), (stop_attempts_run V c _ r Hr1).
  rewrite unsetup_world_stop_feed. unfold stop_refused_twice in Hc.
  destruct (stop_feed w) as [|[|] [|[|] feed]]; try done.
Qed.

(** [status] on a host where the daemon has no such object. *)
Lemma status_absent V c w :
  remote w = None -> status V c w = mkOut (Ok "not-created") w [].
Proof.
  intros Hw. unfold status.
  rewrite (bind_ok _ _ _ _ _ _ (get_container_absent_no_create V c w Hw)). reflexivity.
Qed.

(** X1: [halt] stops the container and is idempotent: on a container that
    exists and is not stopped, as soon as the daemon accepts the graceful stop
    or the forced one, [halt] returns normally and leaves the object stopped,
    with the configuration and the devices it had; a second [halt] then issues
    one log record and nothing else. *)
Theorem halt_stops_container V c w r :
  remote w = Some r ->
  status_code r <> CONTAINER_STOPPED ->
  stop_refused_twice w = false ->
  res (halt V c w) = Ok tt
  /\ remote (world (halt V c w)) = Some (set_status CONTAINER_STOPPED r)
  /\ halt V c (world (halt V c w))
     = mkOut (Ok tt) (world (halt V c w)) [Log INFO "The container is already stopped."].
Proof.
  intros Hr Hs Hc.
  destruct (halt_leaves_stopped V c w r Hr (or_intror Hc)) as [Hres Hrem].
  split; [done|]. split; [done|].
  by apply (halt_stopped_run V c _ _ Hrem).
Qed.

Lemma halt_stops_container_witness :
  res (halt Lxdock.variant plain_container running_world) = Ok tt
  /\ remote (world (halt Lxdock.variant plain_container running_world))
     = Some (mkRemote CONTAINER_STOPPED ∅ ∅)
  /\ halt Lxdock.variant plain_container
       (world (halt Lxdock.variant plain_container running_world))
     = mkOut (Ok tt) (world (halt Lxdock.variant plain_container running_world))
         [Log INFO "The container is already stopped."].
Proof.
  apply (halt_stops_container Lxdock.variant plain_container running_world
           (mkRemote CONTAINER_RUNNING ∅ ∅)); [reflexivity | discriminate | reflexivity].
Defined.

(** X2: when the daemon refuses the graceful stop and the forced stop, the
    exception of the forced stop leaves [halt]: the object is as it was, but
    the removal of the hostnames has been done, the resolution file is the one
    that [_unsetup_hostnames] leaves. [destroy] raises the same exception and
    sends no [delete]. *)
Theorem stop_refused_twice_raises V c w r :
  remote w = Some r ->
  status_code r <> CONTAINER_STOPPED ->
  stop_refused_twice w = true ->
  (exists msg, res (halt V c w) = Raise (LXDAPIException msg))
  /\ remote (world (halt V c w)) = Some r
  /\ etc_hosts (world (halt V c w)) = etc_hosts (world (_unsetup_hostnames c w))
  /\ (exists msg, res (destroy V c w) = Raise (LXDAPIException msg))
  /\ remote (world (destroy V c w)) = Some r
  /\ List.filter is_daemon_mutation (events (destroy V c w))
     = [ContainerStop (Some 30) (Some false); ContainerStop None (Some true)].
Proof.
  intros Hr Hs Hc.
  assert (Hr1 : remote (unsetup_world c w) = Some r) by (by rewrite unsetup_world_remote).
  assert (Hhalt : exists feed,
    halt V c w
    = mkOut (Raise (LXDAPIException ""))
        (set_stop_feed feed (set_stop_feed (drop 1 (stop_feed w)) (unsetup_world c w)))
        ((events (_unsetup_hostnames c w) ++ [Log INFO "Stopping..."])
           ++ [ContainerStop (Some 30) (Some false);
               Log WARNING "Can't stop the container. Forcing...";
               ContainerStop None (Some true)])).
  { rewrite (halt_existing_run V c w r Hr Hs), (stop_attempts_run V c _ r Hr1).
    rewrite unsetup_world_stop_feed. unfold stop_refused_twice in Hc.
    destruct (stop_feed w) as [|[|] [|[|] feed]]; try done.
    exists feed. cbn [after drop]. by rewrite app_nil_r. }
  destruct Hhalt as [feed Hhalt].
  assert (Hhosts : etc_hosts (unsetup_world c w) = etc_hosts (world (_unsetup_hostnames c w)))
    by (by rewrite unsetup_hostnames_run).
  assert (Hdestroy : destroy V c w = halt V c w :> Out unit).
  { unfold destroy.
    rewrite (bind_ok _ _ _ _ _ _ (get_container_existing V c w r Hr false)), after_nil.
    cbn [negb]. rewrite (bind_raise _ _ _ _ _ _ Hhalt). by rewrite Hhalt. }
  rewrite Hdestroy, Hhalt. cbn [res world events].
  split; [by eexists|]. split; [done|]. split; [done|].
  split; [by eexists|]. split; [done|].
  rewrite unsetup_hostnames_run. cbn [events].
  rewrite !List.filter_app, filter_mutation_logs.
  by destruct (changed _).
Qed.

Lemma stop_refused_twice_raises_witness :
  List.filter is_daemon_mutation
    (events (destroy Lxdock.variant plain_container
               (set_stop_feed [false; false] running_world)))
  = [ContainerStop (Some 30) (Some false); ContainerStop None (Some true)].
Proof.
  apply (stop_refused_twice_raises Lxdock.variant plain_container
           (set_stop_feed [false; false] running_world) (mkRemote CONTAINER_RUNNING ∅ ∅));
    [reflexivity | discriminate | reflexivity].
Defined.

(** X3: [destroy] on a container that exists, when it is stopped or can be
    stopped: the daemon receives the calls of [halt] and then one [delete];
    afterwards the daemon has no such object, [status] answers ['not-created']
    and a second [destroy] issues no call. *)
Theorem destroy_removes_container V c w r :
  remote w = Some r ->
  status_code r = CONTAINER_STOPPED \/ stop_refused_twice w = false ->
  res (destroy V c w) = Ok tt
  /\ remote (world (destroy V c w)) = None
  /\ List.filter is_daemon_mutation (events (destroy V c w))
     = (List.filter is_daemon_mutation (events (halt V c w)) ++ [ContainerDelete])%list
  /\ status V c (world (destroy V c w)) = mkOut (Ok "not-created") (world (destroy V c w)) []
  /\ destroy V c (world (destroy V c w))
     = mkOut (Ok tt) (world (destroy V c w))
         [Log INFO "Container doesn't exist, nothing to destroy."].
Proof.
  intros Hr Hc. destruct (halt_leaves_stopped V c w r Hr Hc) as [Hres Hrem].
  destruct (halt V c w) as [ro wo evo] eqn:Hhalt. cbn [res world events] in *. subst ro.
  assert (Hrun : destroy V c w
                 = mkOut (Ok tt) (set_remote None wo)
                     (evo ++ [Log INFO ("Destroying container " +:+ dq +:+ name c +:+ dq +:+ "...");
                              ContainerDelete;
                              Log INFO ("Container " +:+ dq +:+ name c +:+ dq +:+ " destroyed!")])).
  { unfold destroy.
    rewrite (bind_ok _ _ _ _ _ _ (get_container_existing V c w r Hr false)), after_nil.
    cbn [negb]. rewrite (bind_ok _ _ _ _ _ _ Hhalt).
    unfold logger, container_delete. norm.
    rewrite (bind_ok _ _ _ _ _ _ (handle_existing wo _ Hrem)). norm. reflexivity. }
  rewrite Hrun. cbn [res world events].
  split; [done|]. split; [done|].
  split; [by rewrite List.filter_app|].
  split; [by apply status_absent | by apply destroy_absent_noop].
Qed.

Lemma destroy_removes_container_witness :
  res (destroy Lxdock.variant plain_container running_world) = Ok tt
  /\ remote (world (destroy Lxdock.variant plain_container running_world)) = None.
Proof.
  pose proof (destroy_removes_container Lxdock.variant plain_container running_world
                (mkRemote CONTAINER_RUNNING ∅ ∅) eq_refl (or_intror eq_refl)) as H.
  exact (conj (proj1 H) (proj1 (proj2 H))).
Defined.

(** X4: [status] and [exists] only read: whatever the host, they return
    normally, issue no call and no log record, and leave the world as it is;
    in particular they never create the container. [status] answers
    ['not-created'] when the daemon has no such object, ['running'] and
    ['stopped'] for the two status codes it knows, ['undefined'] for any
    other. *)
Theorem status_reads_only V c w :
  status V c w
  = mkOut (Ok (match remote w with
               | None => "not-created"
               | Some r => match status_code r with
                           | CONTAINER_RUNNING => "running"
                           | CONTAINER_STOPPED => "stopped"
                           | CONTAINER_OTHER => "undefined"
                           end
               end)) w []
  /\ exists_ w = mkOut (Ok (bool_decide (is_Some (remote w)))) w [].
Proof.
  split.
  - destruct (remote w) as [r|] eqn:Hr; [|by apply status_absent].
    unfold status.
    rewrite (bind_ok _ _ _ _ _ _ (get_container_existing V c w r Hr false)), after_nil.
    cbn [negb]. by rewrite (bind_ok _ _ _ _ _ _ (handle_existing w r Hr)).
  - unfold exists_, containers_get. by destruct (remote w).
Qed.

(** ** The creation of the container *)

Lemma set_create_feed_same w : set_create_feed (create_feed w) w = w.
Proof. by destruct w. Qed.

Lemma container_absent_created V c w :
  remote w = None -> creation_accepted w = true ->
  _container V c w
  = mkOut (Ok (fresh_remote V c w)) (created_world V c w) (creation_trace V c w).
Proof.
  intros Hw Ha. unfold _container.
  unfold bind. rewrite (get_container_absent_create V c w Hw).
  unfold creation_accepted in Ha. unfold created_world, fresh_remote.
  destruct (create_feed w) as [|[msg|] feed] eqn:Hf; [|done|]; cbn [after app drop].
  - rewrite <- Hf, set_create_feed_same. unfold handle. reflexivity.
  - reflexivity.
Qed.

Lemma container_absent_refused V c w msg feed :
  remote w = None -> create_feed w = Some msg :: feed ->
  _container V c w
  = mkOut (Raise ContainerOperationFailed) (set_create_feed feed w)
      (creation_trace V c w ++ [Log ERROR ("Can't create container: " +:+ msg)]).
Proof.
  intros Hw Hf. unfold _container.
  unfold bind. rewrite (get_container_absent_create V c w Hw), Hf. reflexivity.
Qed.

(** X5: when the daemon refuses the creation, every action that reads the
    status through [_container] ends with [ContainerOperationFailed] after the
    records of the creation and one error record: nothing is started, stopped
    or configured, and the daemon still has no such object. *)
Theorem creation_refused_raises c w msg feed :
  remote w = None ->
  create_feed w = Some msg :: feed ->
  let refused V : Out unit :=
    mkOut (Raise ContainerOperationFailed) (set_create_feed feed w)
      (creation_trace V c w ++ [Log ERROR ("Can't create container: " +:+ msg)]) in
  (forall mode, Lxdock.up c mode w = refused Lxdock.variant)
  /\ Nomad.up c w = refused Nomad.variant
  /\ (forall V, halt V c w = refused V)
  /\ (forall barebone, Nomad.provision c barebone w = refused Nomad.variant)
  /\ Nomad.shell c w = refused Nomad.variant.
Proof.
  intros Hw Hf refused. subst refused. cbv beta.
  repeat apply conj; intros.
  - unfold Lxdock.up, is_running. rewrite bind_assoc.
    by rewrite (bind_raise _ _ _ _ _ _ (container_absent_refused _ c w msg feed Hw Hf)).
  - unfold Nomad.up, is_running. rewrite bind_assoc.
    by rewrite (bind_raise _ _ _ _ _ _ (container_absent_refused _ c w msg feed Hw Hf)).
  - unfold halt, is_stopped. rewrite bind_assoc.
    by rewrite (bind_raise _ _ _ _ _ _ (container_absent_refused _ c w msg feed Hw Hf)).
  - unfold Nomad.provision, Nomad.must_be_running, is_running. rewrite bind_assoc.
    by rewrite (bind_raise _ _ _ _ _ _ (container_absent_refused _ c w msg feed Hw Hf)).
  - unfold Nomad.shell, Nomad.must_be_running, is_running. rewrite bind_assoc.
    by rewrite (bind_raise _ _ _ _ _ _ (container_absent_refused _ c w msg feed Hw Hf)).
Qed.

Lemma creation_refused_raises_witness :
  Lxdock.up plain_container None (set_create_feed [Some "quota"] empty_world)
  = mkOut (Raise ContainerOperationFailed) (set_create_feed [] empty_world)
      (creation_trace Lxdock.variant plain_container empty_world
         ++ [Log ERROR "Can't create container: quota"]).
Proof.
  exact (proj1 (creation_refused_raises plain_container
                  (set_create_feed [Some "quota"] empty_world) "quota" [] eq_refl eq_refl)
           None).
Defined.

(** X6: what the first read through [_container] finds when the daemon has no
    such object and accepts the creation: a container that is privileged
    exactly when the option [privileged] says so, whatever the option
    [lxc_config] holds for that key. In [nomad] the new container carries
    neither the flag of the provisioning nor the flag of the static address;
    in [lxdock] the flag of the provisioning is the one that [lxc_config]
    gives, if any. *)
Theorem created_container_configuration c w :
  remote w = None ->
  creation_accepted w = true ->
  res (is_privileged Lxdock.variant c w) = Ok (default false (opt_privileged (options c)))
  /\ res (is_privileged Nomad.variant c w) = Ok (default false (opt_privileged (options c)))
  /\ res (is_provisioned Nomad.variant c w) = Ok false
  /\ res (Nomad._has_static_ip c w) = Ok false
  /\ res (is_provisioned Lxdock.variant c w)
     = Ok (bool_decide (default ∅ (opt_lxc_config (options c)) !! "user.lxdock.provisioned"
                        = Some "true")).
Proof.
  intros Hw Ha.
  assert (Hp : forall p : bool,
             bool_decide (Some (if p then "true" else "false") = Some "true") = p)
    by (by intros []).
  repeat apply conj.
  all: unfold is_privileged, is_provisioned, Nomad._has_static_ip.
  all: rewrite (bind_ok _ _ _ _ _ _ (container_absent_created _ c w Hw Ha)).
  all: unfold ret; cbn [after res world remote created_world set_remote fresh_remote
                        status_code config devices spec_config container_config
                        Lxdock.variant Nomad.variant Lxdock.container_config
                        Nomad.container_config product].
  all: try done.
  - rewrite lookup_insert_eq. by rewrite Hp.
  - rewrite lookup_insert_eq. by rewrite Hp.
  - by rewrite !lookup_insert_ne.
Qed.

Lemma created_container_configuration_witness :
  res (is_privileged Lxdock.variant plain_container empty_world) = Ok false.
Proof.
  exact (proj1 (created_container_configuration plain_container empty_world
                  eq_refl eq_refl)).
Defined.

(** ** [provision] of [lxdock] *)

Lemma barebones_run w :
  Lxdock._perform_barebones_setup w = mkOut (Ok tt) w (barebones_calls w).
Proof.
  unfold Lxdock._perform_barebones_setup, barebones_calls, logger. norm.
  by destruct (ssh_pubkey w).
Qed.

Lemma lxdock_provision_body_run c w r :
  remote w = Some r ->
  Lxdock.provision_body c w
  = mkOut (Ok tt) (set_remote (Some (lxdock_provisioned c r)) w)
      (lxdock_provision_trace c w
         (bool_decide (config r !! "user.lxdock.provisioned" = Some "true"))).
Proof.
  intros Hr. unfold Lxdock.provision_body.
  rewrite (bind_ok _ _ _ _ _ _ (lxdock_setup_env_run c w r Hr)).
  set (r1 := mkRemote (status_code r) (env_applied c (config r)) (devices r)).
  set (w1 := set_remote (Some r1) w).
  rewrite (bind_ok _ _ _ _ _ _ (is_provisioned_existing Lxdock.variant c w1 r1 eq_refl)).
  rewrite after_nil. cbn [config r1].
  change ("user." +:+ product Lxdock.variant +:+ ".provisioned")
    with "user.lxdock.provisioned".
  rewrite env_applied_other by reflexivity.
  cbv zeta. unfold Lxdock.instantiate_provisioners.
  fold (declared_provisioners c w1).
  change (declared_provisioners c w1) with (declared_provisioners c w).
  assert (Hsetup : forall w',
    for_each (declared_provisioners c w)
      (fun p => logger INFO ("Performing barebones setup for provisioner " +:+ p) ;;
                emit (ProvisionerSetup p)) w'
    = mkOut (Ok tt) w'
        (List.concat
           ((fun p => [Log INFO ("Performing barebones setup for provisioner " +:+ p);
                       ProvisionerSetup p]) <$> declared_provisioners c w)))
    by (intros w'; by apply for_each_emit).
  assert (Hprov : forall w',
    for_each (declared_provisioners c w)
      (fun p => logger INFO ("Provisioning with " +:+ p) ;; emit (ProvisionerProvision p)) w'
    = mkOut (Ok tt) w'
        (List.concat
           ((fun p => [Log INFO ("Provisioning with " +:+ p); ProvisionerProvision p])
              <$> declared_provisioners c w)))
    by (intros w'; by apply for_each_emit).
  unfold lxdock_provision_trace.
  destruct (bool_decide (config r !! "user.lxdock.provisioned" = Some "true"));
    cbn [negb when].
  - norm. unfold logger at 1. norm.
    rewrite (bind_ok _ _ _ _ _ _ (Hprov w1)).
    run_existing Lxdock.variant c.
    erewrite container_save_existing by reflexivity.
    cbn [after app]. reflexivity.
  - rewrite (bind_ok _ _ _ _ _ _ (barebones_run w1)). norm.
    unfold logger at 1. norm.
    rewrite (bind_ok _ _ _ _ _ _ (Hsetup w1)).
    rewrite (bind_ok _ _ _ _ _ _ (Hprov w1)).
    run_existing Lxdock.variant c.
    erewrite container_save_existing by reflexivity.
    cbn [after]. reflexivity.
Qed.

Lemma lxdock_provision_run c w r :
  remote w = Some r -> status_code r = CONTAINER_RUNNING ->
  Lxdock.provision c w
  = mkOut (Ok tt) (set_remote (Some (lxdock_provisioned c r)) w)
      (lxdock_provision_trace c w
         (bool_decide (config r !! "user.lxdock.provisioned" = Some "true"))).
Proof.
  intros Hr Hs. unfold Lxdock.provision.
  rewrite (lxdock_guard_running c _ w r Hr Hs). by apply lxdock_provision_body_run.
Qed.

Lemma filter_concat_logged {A} (P : Event -> bool) (msg : A -> string) (call : A -> Event)
      (l : list A) :
  (forall x, P (call x) = true) -> (forall lvl m, P (Log lvl m) = false) ->
  List.filter P (List.concat ((fun x => [Log INFO (msg x); call x]) <$> l)) = call <$> l.
Proof.
  intros Hc Hl. induction l as [|x l IH]; [reflexivity|].
  rewrite !fmap_cons. cbn [List.concat app List.filter]. by rewrite Hl, Hc, IH.
Qed.

Lemma filter_app_none {A} (f : A -> bool) (l1 l2 : list A) :
  Forall (fun x => f x = false) l1 -> List.filter f (l1 ++ l2) = List.filter f l2.
Proof. intros H. by rewrite List.filter_app, (filter_none _ _ H). Qed.

Lemma lxdock_provision_trace_calls c w b :
  List.filter is_provisioning_call (lxdock_provision_trace c w b)
  = lxdock_provision_calls c w b.
Proof.
  unfold lxdock_provision_trace, lxdock_provision_calls.
  rewrite !List.filter_app.
  rewrite !(filter_concat_logged is_provisioning_call) by done.
  assert (Henv : List.filter is_provisioning_call
                   (match default [] (opt_environment (options c)) with
                    | [] => []
                    | _ => [ContainerSave]
                    end) = []) by (by destruct (default _ _)).
  rewrite Henv. cbn [app List.filter is_provisioning_call].
  rewrite app_nil_r.
  destruct b; [reflexivity|].
  rewrite (filter_concat_logged is_provisioning_call _ ProvisionerSetup) by done.
  rewrite app_assoc. f_equal.
  unfold barebones_calls. by destruct (ssh_pubkey w).
Qed.

(** X7: [provision] of [lxdock] on a container that runs: it returns normally
    and saves a configuration that holds the overrides of the environment and
    the flag of the provisioning; the status and the devices stay, and
    [is_provisioned] answers true from then on. *)
Theorem lxdock_provision_marks_provisioned c w r :
  remote w = Some r ->
  status_code r = CONTAINER_RUNNING ->
  res (Lxdock.provision c w) = Ok tt
  /\ remote (world (Lxdock.provision c w))
     = Some (mkRemote CONTAINER_RUNNING
               (<["user.lxdock.provisioned" := "true"]> (env_applied c (config r)))
               (devices r))
  /\ is_provisioned Lxdock.variant c (world (Lxdock.provision c w))
     = mkOut (Ok true) (world (Lxdock.provision c w)) []
  /\ last (events (Lxdock.provision c w)) = Some ContainerSave.
Proof.
  intros Hr Hs. rewrite (lxdock_provision_run c w r Hr Hs). cbn [res world events].
  split; [done|]. split; [by rewrite <- Hs|]. split.
  - erewrite is_provisioned_existing by reflexivity.
    cbn [config lxdock_provisioned].
    change ("user." +:+ product Lxdock.variant +:+ ".provisioned")
      with "user.lxdock.provisioned".
    by rewrite lookup_insert_eq.
  - unfold lxdock_provision_trace. rewrite !app_assoc. apply last_snoc.
Qed.

Lemma lxdock_provision_marks_provisioned_witness :
  res (Lxdock.provision plain_container running_world) = Ok tt.
Proof.
  exact (proj1 (lxdock_provision_marks_provisioned plain_container running_world
                  (mkRemote CONTAINER_RUNNING ∅ ∅) eq_refl eq_refl)).
Defined.

(** X8: the pipeline of [provision] of [lxdock] on a container that runs. On a
    container that is not provisioned yet: the public key of the host is read
    and, if there is one, added to the guest; then every instantiated
    provisioner is set up, and only then every provisioner provisions, both in
    the declared order. On a container that is provisioned, and so in a second
    [provision], only the provisioners provision. *)
Theorem lxdock_provision_pipeline c w r :
  remote w = Some r ->
  status_code r = CONTAINER_RUNNING ->
  List.filter is_provisioning_call (events (Lxdock.provision c w))
  = ((if bool_decide (config r !! "user.lxdock.provisioned" = Some "true") then []
      else HostGetSshPubkey
           :: match ssh_pubkey w with Some key => [GuestAddSshPubkey key] | None => [] end
           ++ (ProvisionerSetup <$> declared_provisioners c w))
       ++ (ProvisionerProvision <$> declared_provisioners c w))%list
  /\ List.filter is_provisioning_call
       (events (Lxdock.provision c (world (Lxdock.provision c w))))
     = ProvisionerProvision <$> declared_provisioners c w.
Proof.
  intros Hr Hs. rewrite (lxdock_provision_run c w r Hr Hs). cbn [world events].
  split; [apply lxdock_provision_trace_calls|].
  rewrite (lxdock_provision_run c (set_remote (Some (lxdock_provisioned c r)) w)
             (lxdock_provisioned c r) eq_refl Hs). cbn [events].
  change (declared_provisioners c (set_remote _ w)) with (declared_provisioners c w).
  rewrite lxdock_provision_trace_calls. unfold lxdock_provision_calls.
  cbn [config lxdock_provisioned]. rewrite lookup_insert_eq.
  by rewrite bool_decide_eq_true_2.
Qed.

Lemma lxdock_provision_pipeline_witness :
  List.filter is_provisioning_call (events (Lxdock.provision ansible_container ansible_host))
  = [HostGetSshPubkey; GuestAddSshPubkey "ssh-rsa AAAA dev";
     ProvisionerSetup "ansible"; ProvisionerProvision "ansible"]
  /\ List.filter is_provisioning_call
       (events (Lxdock.provision ansible_container
                  (world (Lxdock.provision ansible_container ansible_host))))
     = [ProvisionerProvision "ansible"].
Proof.
  exact (lxdock_provision_pipeline ansible_container ansible_host
           (mkRemote CONTAINER_RUNNING ∅ ∅) eq_refl eq_refl).
Defined.

Lemma omap_all_None {A B} (f : A -> option B) (l : list A) :
  Forall (fun x => f x = None) l -> omap f l = [].
Proof. induction 1 as [|x l Hx _ IH]; simpl; [done|]. by rewrite Hx. Qed.

(** X9: a provisioning item whose type is not registered is skipped without a
    record: when no declared type is registered, [provision] of [lxdock] calls
    no provisioner, and still marks the container as provisioned. *)
Theorem lxdock_provision_unregistered c w r :
  remote w = Some r ->
  status_code r = CONTAINER_RUNNING ->
  Forall (fun item => provisioners w !! Py.lower (prov_type item) = None)
         (default [] (opt_provisioning (options c))) ->
  res (Lxdock.provision c w) = Ok tt
  /\ List.filter is_provisioner_call (events (Lxdock.provision c w)) = []
  /\ (remote (world (Lxdock.provision c w))
        ≫= fun r' => config r' !! "user.lxdock.provisioned") = Some "true".
Proof.
  intros Hr Hs Hnone. rewrite (lxdock_provision_run c w r Hr Hs). cbn [res world events].
  split; [done|]. split.
  - unfold lxdock_provision_trace, declared_provisioners.
    rewrite (omap_all_None _ _ Hnone). cbn [fmap list_fmap List.concat].
    rewrite !List.filter_app. unfold barebones_calls.
    by destruct (default [] (opt_environment (options c))), (bool_decide _), (ssh_pubkey w).
  - cbn. by rewrite lookup_insert_eq.
Qed.

Lemma lxdock_provision_unregistered_witness :
  List.filter is_provisioner_call (events (Lxdock.provision puppet_container ansible_host)) = [].
Proof.
  apply (lxdock_provision_unregistered puppet_container ansible_host
           (mkRemote CONTAINER_RUNNING ∅ ∅)); [reflexivity | reflexivity |].
  repeat constructor.
Defined.

(** ** The overrides of the environment *)

Lemma env_fold_other (env : list (string * string)) (cfg : gmap string string) k' :
  (forall k, k ∈ env.*1 -> k' <> "environment." +:+ k) ->
  foldl (fun cfg kv => <["environment." +:+ kv.1 := kv.2]> cfg) cfg env !! k' = cfg !! k'.
Proof.
  revert cfg. induction env as [|kv env IH]; intros cfg Hk; [done|].
  cbn [foldl]. rewrite IH.
  - apply lookup_insert_ne. intros Heq. apply (Hk kv.1); [left | done].
  - intros k Hin. apply Hk. by right.
Qed.

Lemma env_fold_lookup (env : list (string * string)) (cfg : gmap string string) k v :
  NoDup env.*1 -> (k, v) ∈ env ->
  foldl (fun cfg kv => <["environment." +:+ kv.1 := kv.2]> cfg) cfg env
    !! ("environment." +:+ k) = Some v.
Proof.
  revert cfg. induction env as [|kv env IH]; intros cfg Hnd Hin.
  - by apply elem_of_nil in Hin.
  - rewrite fmap_cons in Hnd. apply NoDup_cons in Hnd as [Hkv Hnd].
    cbn [foldl]. apply elem_of_cons in Hin as [<-|Hin]; [|by apply IH].
    rewrite env_fold_other; [by rewrite lookup_insert_eq|].
    intros k' Hk' Heq. apply (inj (String.app "environment.")) in Heq. by subst k'.
Qed.

Lemma env_fold_idempotent (env : list (string * string)) (cfg : gmap string string) :
  NoDup env.*1 ->
  let f := fun cfg kv => <["environment." +:+ kv.1 := kv.2]> (cfg : gmap string string) in
  foldl f (foldl f cfg env) env = foldl f cfg env.
Proof.
  intros Hnd f. apply map_eq. intros k'.
  destruct (decide (k' ∈ String.app "environment." <$> env.*1)) as [Hin|Hn].
  - apply list_elem_of_fmap in Hin as (k & -> & Hk).
    apply list_elem_of_fmap in Hk as ([k0 v] & -> & Hin). cbn [fst].
    by rewrite !(env_fold_lookup env _ k0 v).
  - rewrite !env_fold_other; [done|..]; intros k Hk ->; apply Hn;
      apply list_elem_of_fmap; by exists k.
Qed.

(** X10: [_setup_env] on a container that exists: every override [K=V] of the
    descriptor is written under the key [environment.K], the keys outside that
    namespace keep their values, the status and the devices stay; the
    configuration is saved once, and only when there is an override. A second
    run leaves the configuration as the first left it. *)
Theorem setup_env_applies_overrides c w r :
  remote w = Some r ->
  NoDup (default [] (opt_environment (options c))).*1 ->
  exists cfg,
    Lxdock._setup_env c w
    = mkOut (Ok tt) (set_remote (Some (mkRemote (status_code r) cfg (devices r))) w)
        (match default [] (opt_environment (options c)) with
         | [] => []
         | _ => [ContainerSave]
         end)
    /\ (forall k v, (k, v) ∈ default [] (opt_environment (options c)) ->
                    cfg !! ("environment." +:+ k) = Some v)
    /\ (forall k, Py.startswith k "environment." = false -> cfg !! k = config r !! k)
    /\ (config <$> remote (world (Lxdock._setup_env c (world (Lxdock._setup_env c w)))))
       = Some cfg.
Proof.
  intros Hr Hnd. exists (env_applied c (config r)).
  rewrite (lxdock_setup_env_run c w r Hr). split; [done|]. split; [|split].
  - intros k v Hin. by apply env_fold_lookup.
  - intros k Hk. by apply env_applied_other.
  - cbn [world]. erewrite lxdock_setup_env_run by reflexivity.
    cbn. f_equal. by apply env_fold_idempotent.
Qed.

Lemma setup_env_applies_overrides_witness :
  exists cfg,
    Lxdock._setup_env shop_a stale_world
    = mkOut (Ok tt)
        (set_remote (Some (mkRemote (status_code stale_remote) cfg (devices stale_remote)))
                    stale_world)
        [ContainerSave]
    /\ cfg !! "environment.FOO" = Some "bar".
Proof.
  destruct (setup_env_applies_overrides shop_a stale_world stale_remote eq_refl)
    as (cfg & Hrun & Hset & _).
  { repeat constructor. by intros ?%elem_of_nil. }
  exists cfg. split; [exact Hrun|]. apply (Hset "FOO" "bar"). left.
Defined.

(** ** The steps of [up] of [lxdock] after the acquisition of the address *)

Lemma setup_world_remote c ip w : remote (setup_world c ip w) = remote w.
Proof. unfold setup_world. by destruct (changed _). Qed.

Lemma setup_world_etc_hosts c ip w :
  etc_hosts (setup_world c ip w) = bindings (setup_result c ip w).
Proof.
  rewrite <- setup_hostnames_file. by rewrite setup_hostnames_run.
Qed.

Lemma set_remote_set_remote a b w : set_remote a (set_remote b w) = set_remote a w.
Proof. reflexivity. Qed.

Lemma set_remote_id w r : remote w = Some r -> set_remote (Some r) w = w.
Proof. destruct w. simpl. by intros ->. Qed.

Lemma lxdock_configure_steps c mode ip w r :
  Py.truthy ip = true ->
  remote w = Some r ->
  shares_well_formed Lxdock.variant (devices r) ->
  exists evs,
    Lxdock.up_configure c mode ip w
    = after evs
        (provisioning_step c mode
           (bool_decide (config r !! "user.lxdock.provisioned" = Some "true"))
           (set_remote (Some (lxdock_configured c r)) (setup_world c ip w)))
    /\ Forall (fun e => is_provisioning_call e = false) evs.
Proof.
  intros Hip Hr Hwf.
  destruct (existing_sources_defined _ _ Hwf) as [S HS].
  assert (Hr1 : remote (setup_world c ip w) = Some r) by (by rewrite setup_world_remote).
  assert (Hsh : exists evs,
             Lxdock._setup_shares c (setup_world c ip w)
             = mkOut (Ok tt)
                 (set_remote
                    (Some (mkRemote (status_code r) (config r)
                             (match opt_shares (options c) with
                              | Some D => reconciled Lxdock.variant c D (devices r)
                              | None => devices r
                              end))) (setup_world c ip w)) evs
             /\ Forall (fun e => is_provisioning_call e = false) evs).
  { destruct (opt_shares (options c)) as [D|] eqn:HD.
    - eexists. split; [exact (lxdock_setup_shares_run c _ r S D Hr1 HS HD)|].
      constructor; [done|].
      apply Forall_app. split; [apply lxdock_pass_grants_calls | by repeat constructor].
    - exists []. unfold Lxdock._setup_shares. rewrite HD.
      by rewrite (set_remote_same _ r Hr1). }
  destruct Hsh as (evs & Hsh & Hevs).
  pose (o := Lxdock.up_configure c mode ip w).
  assert (Ho : o = Lxdock.up_configure c mode ip w) by reflexivity.
  clearbody o. rewrite <- Ho.
  unfold Lxdock.up_configure in Ho. rewrite Hip in Ho. cbn [negb] in Ho.
  unfold logger at 1 in Ho. rewrite bind_emit in Ho.
  rewrite (bind_ok _ _ _ _ _ _ (setup_hostnames_run c ip w)) in Ho.
  fold (setup_world c ip w) in Ho.
  rewrite (bind_ok _ _ _ _ _ _ (lxdock_setup_users_run c (setup_world c ip w))) in Ho.
  rewrite (bind_ok _ _ _ _ _ _ Hsh) in Ho.
  erewrite (bind_ok (Lxdock._setup_env c)) in Ho by (apply lxdock_setup_env_run; reflexivity).
  erewrite (bind_ok (is_provisioned _ c)) in Ho
    by (apply is_provisioned_existing; reflexivity).
  cbn [config status_code devices] in Ho. rewrite set_remote_set_remote in Ho.
  change ("user." +:+ product Lxdock.variant +:+ ".provisioned")
    with "user.lxdock.provisioned" in Ho.
  rewrite env_applied_other in Ho by reflexivity.
  rewrite !after_after in Ho. subst o.
  eexists. split; [reflexivity|].
  repeat (apply Forall_app; split); try done.
  all: try (by repeat constructor).
  - apply Forall_fmap, Forall_forall. by intros ? _.
  - destruct (changed _); by repeat constructor.
  - destruct (default [] (opt_users (options c))); [constructor|].
    constructor; [done|]. apply Forall_fmap, Forall_forall. by intros ? _.
  - destruct (default [] (opt_environment (options c))); by repeat constructor.
Qed.

Lemma provisioning_step_run c mode w r :
  remote w = Some r ->
  status_code r = CONTAINER_RUNNING ->
  let provisioned := bool_decide (config r !! "user.lxdock.provisioned" = Some "true") in
  res (provisioning_step c mode provisioned w) = Ok tt
  /\ world (provisioning_step c mode provisioned w)
     = set_remote
         (Some (if lxdock_provisions mode provisioned then lxdock_provisioned c r else r)) w
  /\ List.filter is_provisioning_call (events (provisioning_step c mode provisioned w))
     = if lxdock_provisions mode provisioned
       then lxdock_provision_calls c w provisioned else [].
Proof.
  intros Hr Hs provisioned. unfold provisioning_step, lxdock_provisions.
  assert (Hsame : w = set_remote (Some r) w) by (destruct w; simpl in *; by subst).
  destruct (default AUTO mode); cbv zeta.
  - rewrite (bool_decide_eq_false_2 (AUTO = DISABLED)), (bool_decide_eq_true_2 (AUTO = AUTO)),
      (bool_decide_eq_false_2 (AUTO = ENABLED)) by done.
    cbn [negb]. rewrite andb_true_r, orb_false_r.
    destruct provisioned eqn:Hp; cbn [negb when].
    + by repeat split.
    + rewrite (lxdock_provision_run c w r Hr Hs). cbn [res world events].
      fold provisioned. rewrite Hp, lxdock_provision_trace_calls. by repeat split.
  - rewrite (bool_decide_eq_false_2 (ENABLED = DISABLED)),
      (bool_decide_eq_true_2 (ENABLED = ENABLED)) by done.
    cbn [negb]. rewrite orb_true_r. rewrite (lxdock_provision_run c w r Hr Hs).
    cbn [res world events].
    fold provisioned. rewrite lxdock_provision_trace_calls. by repeat split.
  - rewrite (bool_decide_eq_true_2 (DISABLED = DISABLED)) by done. by repeat split.
Qed.

Lemma res_after {A} evs (o : Out A) : res (after evs o) = res o.
Proof. by destruct o. Qed.

Lemma lxdock_provision_calls_frame c ip a w b :
  lxdock_provision_calls c (set_remote a (setup_world c ip w)) b = lxdock_provision_calls c w b.
Proof. unfold setup_world. by destruct (changed _). Qed.

(** X11: the provisioning at the end of [up] of [lxdock], once the container
    runs and shows an address. In the mode [DISABLED] no provisioning call is
    issued and the flag stays as it was; in the mode [ENABLED] the container
    is provisioned whatever the flag says; in the mode [AUTO], and without a
    mode, it is provisioned exactly when the flag is not set. When the
    container is provisioned, the calls are those of [provision], with the
    set-up of the first time only if the flag was not set, and the flag is set
    afterwards. *)
Theorem lxdock_up_provisioning_mode c mode ip w r :
  Py.truthy ip = true ->
  remote w = Some r ->
  status_code r = CONTAINER_RUNNING ->
  shares_well_formed Lxdock.variant (devices r) ->
  let provisioned := bool_decide (config r !! "user.lxdock.provisioned" = Some "true") in
  let provisions := match default AUTO mode with
                    | DISABLED => false
                    | ENABLED => true
                    | AUTO => negb provisioned
                    end in
  res (Lxdock.up_configure c mode ip w) = Ok tt
  /\ List.filter is_provisioning_call (events (Lxdock.up_configure c mode ip w))
     = (if provisions
        then (if provisioned then []
              else HostGetSshPubkey
                   :: match ssh_pubkey w with
                      | Some key => [GuestAddSshPubkey key]
                      | None => []
                      end
                   ++ (ProvisionerSetup <$> declared_provisioners c w))
               ++ (ProvisionerProvision <$> declared_provisioners c w)
        else [])%list
  /\ (remote (world (Lxdock.up_configure c mode ip w))
        ≫= fun r' => config r' !! "user.lxdock.provisioned")
     = if provisions then Some "true" else config r !! "user.lxdock.provisioned".
Proof.
  intros Hip Hr Hs Hwf provisioned provisions.
  destruct (lxdock_configure_steps c mode ip w r Hip Hr Hwf) as (evs & Hrun & Hevs).
  rewrite Hrun, res_after, world_after, events_after, List.filter_app.
  rewrite (filter_none _ _ Hevs). cbn [app].
  set (w3 := set_remote (Some (lxdock_configured c r)) (setup_world c ip w)).
  fold provisioned.
  destruct (provisioning_step_run c mode w3 (lxdock_configured c r) eq_refl Hs)
    as (Hres & Hrem & Hcalls).
  cbn [config lxdock_configured] in Hres, Hrem, Hcalls.
  rewrite env_applied_other in Hres, Hrem, Hcalls by reflexivity.
  fold provisioned in Hres, Hrem, Hcalls.
  change (lxdock_provisions mode provisioned) with provisions in Hrem, Hcalls.
  rewrite Hres, Hrem, Hcalls. cbn [remote set_remote]. split; [done|]. split.
  - destruct provisions; [|done]. subst w3. by rewrite lxdock_provision_calls_frame.
  - destruct provisions; cbn.
    + by rewrite lookup_insert_eq.
    + by rewrite env_applied_other.
Qed.

Lemma lxdock_up_provisioning_mode_witness :
  List.filter is_provisioning_call
    (events (Lxdock.up_configure ansible_container None "10.0.3.5" ansible_host))
  = [HostGetSshPubkey; GuestAddSshPubkey "ssh-rsa AAAA dev";
     ProvisionerSetup "ansible"; ProvisionerProvision "ansible"].
Proof.
  exact (proj1 (proj2 (lxdock_up_provisioning_mode ansible_container None "10.0.3.5"
                         ansible_host (mkRemote CONTAINER_RUNNING ∅ ∅) eq_refl eq_refl eq_refl
                         ltac:(by intros k d Hk)))).
Defined.

(** ** [up] from the start *)

Lemma set_start_feed_same w : set_start_feed (start_feed w) w = w.
Proof. by destruct w. Qed.

Lemma container_start_runs w r :
  remote w = Some r -> start_runs w = true ->
  container_start w = mkOut (Ok tt) (started_world w r) [ContainerStart].
Proof.
  intros Hr Hs. unfold container_start.
  rewrite (bind_ok _ _ _ _ _ _ (handle_existing w r Hr)), after_nil.
  rewrite bind_emit. cbv beta. unfold start_runs in Hs. unfold started_world.
  destruct (start_feed w) as [|s feed] eqn:Hf.
  - cbn [drop]. rewrite <- Hf, set_start_feed_same. reflexivity.
  - apply bool_decide_eq_true_1 in Hs as ->. reflexivity.
Qed.

(** The steps of [up] of [lxdock] down to the acquisition of the address,
    from the first read through [_container]. *)
Lemma lxdock_up_start_run c w w0 r0 evs0 k x rest :
  _container Lxdock.variant c w = mkOut (Ok r0) w0 evs0 ->
  remote w0 = Some r0 ->
  status_code r0 <> CONTAINER_RUNNING ->
  start_runs w0 = true ->
  ip_feed w0 = (replicate k "" ++ x :: rest)%list ->
  Py.truthy x = true ->
  k <= 10 ->
  Lxdock.up_start c w
  = mkOut (Ok (Some x)) (set_ip_feed rest (started_world w0 r0))
      (evs0 ++ Log INFO ("Starting container " +:+ dq +:+ name c +:+ dq +:+ "...")
            :: ContainerStart
            :: GetIp
            :: match k with
               | 0 => []
               | S _ => Log INFO "No IP yet, waiting for at most 10 seconds..." :: polls k
               end).
Proof.
  intros Hc Hr0 Hs Hstart Hf Hx Hk. unfold Lxdock.up_start, is_running.
  rewrite bind_assoc, (bind_ok _ _ _ _ _ _ Hc), bind_ret.
  rewrite bool_decide_eq_false_2 by done.
  unfold logger at 1. rewrite bind_emit.
  rewrite (bind_ok _ _ _ _ _ _ (container_existing _ c w0 r0 Hr0)), after_nil.
  rewrite (bind_ok _ _ _ _ _ _ (container_start_runs w0 r0 Hr0 Hstart)).
  assert (Hr1 : remote (started_world w0 r0) = Some (set_status CONTAINER_RUNNING r0))
    by reflexivity.
  rewrite bind_assoc, (bind_ok _ _ _ _ _ _ (container_existing _ c _ _ Hr1)), after_nil.
  rewrite bind_ret. cbn [status_code set_status].
  rewrite bool_decide_eq_true_2 by done. cbn [negb].
  rewrite (bind_ok _ _ _ _ _ _
             (lxdock_setup_ip_found c (started_world w0 r0) _ k x rest Hr1 Hf Hx Hk)).
  unfold ret. cbn [after]. rewrite app_nil_r. reflexivity.
Qed.

(** [up] of [lxdock] from the first read through [_container] to its end,
    when the start leaves the container running and an address shows. *)
Lemma lxdock_up_run c mode w w0 r0 evs0 k x rest :
  _container Lxdock.variant c w = mkOut (Ok r0) w0 evs0 ->
  remote w0 = Some r0 ->
  status_code r0 <> CONTAINER_RUNNING ->
  start_runs w0 = true ->
  ip_feed w0 = (replicate k "" ++ x :: rest)%list ->
  Py.truthy x = true ->
  k <= 10 ->
  shares_well_formed Lxdock.variant (devices r0) ->
  let r1 := lxdock_configured c (set_status CONTAINER_RUNNING r0) in
  let provisioned := bool_decide (config r0 !! "user.lxdock.provisioned" = Some "true") in
  res (Lxdock.up c mode w) = Ok tt
  /\ remote (world (Lxdock.up c mode w))
     = Some (if lxdock_provisions mode provisioned then lxdock_provisioned c r1 else r1)
  /\ etc_hosts (world (Lxdock.up c mode w)) = bindings (setup_result c x w0).
Proof.
  intros Hc Hr0 Hs Hstart Hf Hx Hk Hwf r1 provisioned.
  rewrite lxdock_up_split.
  rewrite (bind_ok _ _ _ _ _ _ (lxdock_up_start_run c w w0 r0 evs0 k x rest Hc Hr0 Hs Hstart Hf Hx Hk)).
  set (w2 := set_ip_feed rest (started_world w0 r0)).
  destruct (lxdock_configure_steps c mode x w2 (set_status CONTAINER_RUNNING r0) Hx eq_refl Hwf)
    as (evs & Hrun & _).
  rewrite Hrun, !res_after, !world_after.
  cbn [config set_status]. fold provisioned. fold r1.
  set (w3 := set_remote (Some r1) (setup_world c x w2)).
  destruct (provisioning_step_run c mode w3 r1 eq_refl eq_refl) as (Hres & Hw & _).
  cbn [config r1 lxdock_configured set_status] in Hres, Hw.
  rewrite env_applied_other in Hres, Hw by reflexivity.
  fold provisioned in Hres, Hw. fold r1 in Hw.
  rewrite Hres, Hw. split; [done|]. split; [done|].
  cbn [etc_hosts set_remote w3]. by rewrite setup_world_etc_hosts.
Qed.

Lemma flag_not_environment k : "user.lxdock.provisioned" <> "environment." +:+ k.
Proof. intros H. discriminate H. Qed.

(** X12: [up] of [lxdock] on a host where the daemon has no such object, when
    the daemon accepts the creation, the start leaves the container running
    and an address [x] shows within the first query and the ten rounds of the
    waiting loop, in any mode but [DISABLED]: [up] returns normally and the
    daemon holds a running container that carries the flag of the provisioning
    and every override of the environment, and whose shares mirror the
    descriptor; the resolution file is the one that [_setup_hostnames] leaves
    for [x]. *)
Theorem lxdock_up_from_scratch c mode w k x rest :
  remote w = None ->
  creation_accepted w = true ->
  start_runs w = true ->
  ip_feed w = (replicate k "" ++ x :: rest)%list ->
  Py.truthy x = true ->
  k <= 10 ->
  mode <> Some DISABLED ->
  res (Lxdock.up c mode w) = Ok tt
  /\ (exists r',
        remote (world (Lxdock.up c mode w)) = Some r'
        /\ status_code r' = CONTAINER_RUNNING
        /\ config r' !! "user.lxdock.provisioned" = Some "true"
        /\ (forall D, opt_shares (options c) = Some D ->
                      mirrors Lxdock.variant c D ∅ (devices r'))
        /\ (NoDup (default [] (opt_environment (options c))).*1 ->
            forall k v, (k, v) ∈ default [] (opt_environment (options c)) ->
                        config r' !! ("environment." +:+ k) = Some v))
  /\ etc_hosts (world (Lxdock.up c mode w)) = etc_hosts (world (_setup_hostnames c x w)).
Proof.
  intros Hw Ha Hstart Hf Hx Hk Hmode.
  destruct (lxdock_up_run c mode w (created_world Lxdock.variant c w)
              (fresh_remote Lxdock.variant c w) (creation_trace Lxdock.variant c w) k x rest)
    as (Hres & Hrem & Hhosts); try done.
  { by apply container_absent_created. }
  split; [done|]. split.
  - eexists. split; [exact Hrem|].
    set (r0 := fresh_remote Lxdock.variant c w) in *.
    set (provisioned := bool_decide (config r0 !! "user.lxdock.provisioned" = Some "true")).
    assert (Hcases : lxdock_provisions mode provisioned = true \/
                     (lxdock_provisions mode provisioned = false /\ provisioned = true)).
    { unfold lxdock_provisions. destruct mode as [[]|]; cbn [default]; try done; auto.
      all: destruct provisioned; auto. }
    destruct Hcases as [-> | [-> Hp]].
    + cbn [status_code config devices lxdock_provisioned lxdock_configured set_status].
      split; [done|]. split; [by rewrite lookup_insert_eq|]. split.
      * intros D ->. apply reconciled_mirrors.
      * intros Hnd j v Hin. rewrite lookup_insert_ne by apply flag_not_environment.
        by apply env_fold_lookup.
    + cbn [status_code config devices lxdock_configured set_status].
      split; [done|]. split; [|split].
      * rewrite env_applied_other by reflexivity.
        by apply bool_decide_eq_true_1 in Hp.
      * intros D ->. apply reconciled_mirrors.
      * intros Hnd j v Hin. by apply env_fold_lookup.
  - by rewrite Hhosts, setup_hostnames_file.
Qed.

Lemma lxdock_up_from_scratch_witness :
  res (Lxdock.up shop_ab None fresh_world) = Ok tt
  /\ etc_hosts (world (Lxdock.up shop_ab None fresh_world))
     = etc_hosts (world (_setup_hostnames shop_ab "10.0.3.5" fresh_world)).
Proof.
  pose proof (lxdock_up_from_scratch shop_ab None fresh_world 0 "10.0.3.5"
                ["10.0.3.9"; "10.0.3.9"] eq_refl eq_refl eq_refl eq_refl eq_refl
                ltac:(lia) ltac:(discriminate)) as H.
  exact (conj (proj1 H) (proj2 (proj2 H))).
Defined.

(** X13: [up] of [lxdock] on a container that exists and does not run, when
    the start leaves it running and an address [x] shows in time: the
    container runs, its shares mirror the descriptor while its other devices
    stay, the keys of its configuration outside the overrides of the
    environment and the flag of the provisioning stay, and the resolution file
    is the one that [_setup_hostnames] leaves for [x]. The flag is set
    afterwards unless the mode is [DISABLED], which leaves it as it was. *)
Theorem lxdock_up_restarts c mode w r k x rest :
  remote w = Some r ->
  status_code r <> CONTAINER_RUNNING ->
  shares_well_formed Lxdock.variant (devices r) ->
  start_runs w = true ->
  ip_feed w = (replicate k "" ++ x :: rest)%list ->
  Py.truthy x = true ->
  k <= 10 ->
  res (Lxdock.up c mode w) = Ok tt
  /\ (exists r',
        remote (world (Lxdock.up c mode w)) = Some r'
        /\ status_code r' = CONTAINER_RUNNING
        /\ (forall D, opt_shares (options c) = Some D ->
                      mirrors Lxdock.variant c D (devices r) (devices r'))
        /\ (opt_shares (options c) = None -> devices r' = devices r)
        /\ (forall j, Py.startswith j "environment." = false ->
                      j <> "user.lxdock.provisioned" -> config r' !! j = config r !! j)
        /\ config r' !! "user.lxdock.provisioned"
           = if bool_decide (mode = Some DISABLED)
             then config r !! "user.lxdock.provisioned" else Some "true")
  /\ etc_hosts (world (Lxdock.up c mode w)) = etc_hosts (world (_setup_hostnames c x w)).
Proof.
  intros Hr Hs Hwf Hstart Hf Hx Hk.
  destruct (lxdock_up_run c mode w w r [] k x rest) as (Hres & Hrem & Hhosts); try done.
  { by apply container_existing. }
  split; [done|]. split.
  - eexists. split; [exact Hrem|].
    set (provisioned := bool_decide (config r !! "user.lxdock.provisioned" = Some "true")).
    destruct (lxdock_provisions mode provisioned) eqn:Hp.
    + cbn [status_code config devices lxdock_provisioned lxdock_configured set_status].
      split; [done|]. split; [intros D ->; apply reconciled_mirrors|].
      split; [by intros ->|]. split.
      * intros j Hj Hne. rewrite lookup_insert_ne by done.
        rewrite env_applied_other by done. by apply env_applied_other.
      * rewrite lookup_insert_eq.
        unfold lxdock_provisions in Hp. by destruct mode as [[]|].
    + cbn [status_code config devices lxdock_configured set_status].
      split; [done|]. split; [intros D ->; apply reconciled_mirrors|].
      split; [by intros ->|]. split.
      * intros j Hj Hne. by apply env_applied_other.
      * rewrite env_applied_other by reflexivity.
        unfold lxdock_provisions in Hp.
        destruct mode as [[]|]; cbn [default] in Hp; try done.
        -- apply negb_false_iff in Hp. by apply bool_decide_eq_true_1 in Hp.
        -- apply negb_false_iff in Hp. by apply bool_decide_eq_true_1 in Hp.
  - by rewrite Hhosts, setup_hostnames_file.
Qed.

Lemma lxdock_up_restarts_witness :
  res (Lxdock.up shop_b None stale_world_restart) = Ok tt
  /\ etc_hosts (world (Lxdock.up shop_b None stale_world_restart))
     = etc_hosts (world (_setup_hostnames shop_b "10.0.3.7" stale_world_restart)).
Proof.
  pose proof (lxdock_up_restarts shop_b None stale_world_restart stale_remote 2 "10.0.3.7" []
                eq_refl ltac:(discriminate) stale_well_formed_lxdock eq_refl eq_refl eq_refl
                ltac:(lia)) as H.
  exact (conj (proj1 H) (proj2 (proj2 H))).
Defined.

(** X14: when the start does not leave the container running, [up] of [lxdock]
    records the error and raises [ContainerOperationFailed]: the daemon has
    received the start and nothing else, no address is asked for, and neither
    the hostnames nor the shares nor the provisioning are touched. *)
Theorem lxdock_up_start_failure c mode w r s feed :
  remote w = Some r ->
  status_code r <> CONTAINER_RUNNING ->
  start_feed w = s :: feed ->
  s <> CONTAINER_RUNNING ->
  Lxdock.up c mode w
  = mkOut (Raise ContainerOperationFailed)
      (set_remote (Some (set_status s r)) (set_start_feed feed w))
      [Log INFO ("Starting container " +:+ dq +:+ name c +:+ dq +:+ "...");
       ContainerStart;
       Log ERROR "Something went wrong trying to start the container."].
Proof.
  intros Hr Hs Hf Hne. unfold Lxdock.up.
  rewrite (bind_ok _ _ _ _ _ _ (is_running_existing _ c w r Hr)), after_nil.
  rewrite bool_decide_eq_false_2 by done.
  unfold logger at 1. rewrite bind_emit.
  rewrite (bind_ok _ _ _ _ _ _ (container_existing _ c w r Hr)), after_nil.
  assert (Hstart : container_start w
                   = mkOut (Ok tt) (set_remote (Some (set_status s r)) (set_start_feed feed w))
                       [ContainerStart]).
  { unfold container_start.
    rewrite (bind_ok _ _ _ _ _ _ (handle_existing w r Hr)), after_nil.
    rewrite bind_emit. cbv beta. by rewrite Hf. }
  rewrite (bind_ok _ _ _ _ _ _ Hstart).
  erewrite (bind_ok (is_running _ c)) by (apply is_running_existing; reflexivity).
  cbn [status_code set_status]. rewrite bool_decide_eq_false_2 by done.
  reflexivity.
Qed.

Lemma lxdock_up_start_failure_witness :
  Lxdock.up plain_container None
    (set_start_feed [CONTAINER_OTHER] (set_remote (Some stale_remote) empty_world))
  = mkOut (Raise ContainerOperationFailed)
      (set_remote (Some (set_status CONTAINER_OTHER stale_remote)) empty_world)
      [Log INFO ("Starting container " +:+ dq +:+ "web" +:+ dq +:+ "...");
       ContainerStart;
       Log ERROR "Something went wrong trying to start the container."].
Proof.
  exact (lxdock_up_start_failure plain_container None
           (set_start_feed [CONTAINER_OTHER] (set_remote (Some stale_remote) empty_world))
           stale_remote CONTAINER_OTHER [] eq_refl ltac:(discriminate) eq_refl
           ltac:(discriminate)).
Defined.

(** ** [shell] of [lxdock] *)

Section ShellProperties.

Context (shlex_quote textwrap_dedent : string -> string).

(** X15: [shell] of [lxdock] on a container that runs. The overrides of the
    environment are written first; the command is run last, once. With
    arguments, the directory of the script is made in the guest, the script is
    written and made executable before the command, which gets the script as
    its shell. A user given on the call decides the command alone: the user
    and the home of the descriptor are not read. Without any user the shell is
    the one of root. *)
Theorem lxdock_shell_runs c username cmd_args w r :
  remote w = Some r ->
  status_code r = CONTAINER_RUNNING ->
  exists cmd,
    Lxdock.shell c shlex_quote textwrap_dedent username cmd_args w
    = mkOut (Ok tt)
        (set_remote (Some (mkRemote (status_code r) (env_applied c (config r)) (devices r))) w)
        ((match default [] (opt_environment (options c)) with
          | [] => []
          | _ => [ContainerSave]
          end)
           ++ match cmd_args with
              | [] => [SubprocessCall cmd]
              | _ =>
                  [GuestRun ["mkdir"; "-p"; "/.lxdock.d"];
                   FilesPut "/.lxdock.d/shell_cmd.sh"
                     (textwrap_dedent
                        ("                #!/bin/sh" +:+ nl +:+
                         "                " +:+ Py.join_space (shlex_quote <$> cmd_args)
                         +:+ nl +:+ "                "));
                   GuestRun ["chmod"; "a+rx"; "/.lxdock.d/shell_cmd.sh"];
                   SubprocessCall (cmd +:+ " -s /.lxdock.d/shell_cmd.sh")]
              end)
    /\ (forall u, username = Some u -> Py.truthy u = true ->
                  cmd = "lxc exec " +:+ lxd_name c (folderid w) +:+ "  -- su -m " +:+ u)
    /\ (Lxdock.truthy_opt username = false ->
        Lxdock.truthy_opt (opt_shell (options c) ≫= shell_user) = false ->
        cmd = "lxc exec " +:+ lxd_name c (folderid w) +:+ " -- su -m root").
Proof.
  intros Hr Hs. eexists. split; [|split].
  - unfold Lxdock.shell. rewrite (lxdock_guard_running c _ w r Hr Hs).
    unfold Lxdock.shell_body.
    rewrite (bind_ok _ _ _ _ _ _ (lxdock_setup_env_run c w r Hr)).
    rewrite bind_get_world. cbv zeta.
    destruct cmd_args as [|a args].
    + reflexivity.
    + unfold Lxdock._guest_shell_script_file. rewrite bind_emit.
      erewrite (bind_ok (_container _ c)) by (apply container_existing; reflexivity).
      reflexivity.
  - intros u -> Hu. unfold Lxdock.truthy_opt. rewrite !Hu. reflexivity.
  - intros Hu Hc. rewrite Hu.
    destruct (opt_shell (options c)) as [[su sh]|]; cbn in Hc |- *; by rewrite ?Hc.
Qed.

End ShellProperties.

Lemma lxdock_shell_runs_witness :
  exists cmd,
    events (Lxdock.shell deploy_container id id (Some "admin") [] running_world)
    = [ContainerSave; SubprocessCall cmd]
    /\ cmd = "lxc exec " +:+ lxd_name deploy_container (folderid running_world)
                +:+ "  -- su -m admin".
Proof.
  destruct (lxdock_shell_runs id id deploy_container (Some "admin") [] running_world
              (mkRemote CONTAINER_RUNNING ∅ ∅) eq_refl eq_refl) as (cmd & Hrun & Hu & _).
  exists cmd. split; [by rewrite Hrun | by apply Hu].
Defined.

(** ** [provision] and [up] of [nomad] *)

Lemma for_each_emit_existing {A} (l : list A) (f : A -> list Event) (body : A -> M unit)
      w r :
  (forall x w, remote w = Some r -> body x w = mkOut (Ok tt) w (f x)) ->
  remote w = Some r ->
  for_each l body w = mkOut (Ok tt) w (List.concat (f <$> l)).
Proof.
  intros Hb Hr. induction l as [|x l IH]; [reflexivity|].
  rewrite for_each_cons, (bind_ok _ _ _ _ _ _ (Hb x w Hr)), IH. reflexivity.
Qed.

Lemma nomad_provision_body_run c b w r :
  remote w = Some r ->
  Nomad.provision_body c b w
  = mkOut (Ok tt) (set_remote (Some (set_config "user.nomad.provisioned" "true" r)) w)
      (nomad_provision_trace c
         (default (negb (bool_decide (config r !! "user.nomad.provisioned" = Some "true"))) b)).
Proof.
  intros Hr. unfold Nomad.provision_body.
  assert (Hb : (match b with
                | None => provisioned <- is_provisioned Nomad.variant c ;; ret (negb provisioned)
                | Some b0 => ret b0
                end) w
               = mkOut (Ok (default (negb (bool_decide (config r !! "user.nomad.provisioned"
                                                        = Some "true"))) b)) w []).
  { destruct b as [b0|]; [reflexivity|].
    by rewrite (bind_ok _ _ _ _ _ _ (is_provisioned_existing _ c w r Hr)). }
  rewrite (bind_ok _ _ _ _ _ _ Hb), after_nil.
  assert (Hloop :
    for_each (default [] (opt_provisioning (options c)))
      (fun item => logger INFO ("Provisioning with " +:+ prov_type item) ;;
                   _ <- _container Nomad.variant c ;; emit (ProvisionWithAnsible item)) w
    = mkOut (Ok tt) w
        (List.concat
           ((fun item => [Log INFO ("Provisioning with " +:+ prov_type item);
                          ProvisionWithAnsible item])
              <$> default [] (opt_provisioning (options c))))).
  { apply (for_each_emit_existing _ _ _ w r); [|done].
    intros item w' Hr'. unfold logger. rewrite bind_emit.
    by rewrite (bind_ok _ _ _ _ _ _ (container_existing _ c w' r Hr')). }
  unfold nomad_provision_trace.
  destruct (default _ b); cbn [when].
  - unfold logger at 1 2. norm.
    rewrite (bind_ok _ _ _ _ _ _ (container_existing _ c w r Hr)). norm.
    rewrite (bind_ok _ _ _ _ _ _ Hloop).
    rewrite (bind_ok _ _ _ _ _ _ (container_existing _ c w r Hr)), after_nil.
    rewrite (bind_ok _ _ _ _ _ _ (update_handle_existing w r Hr _)), after_nil.
    run_existing Nomad.variant c.
    erewrite container_save_existing by reflexivity. reflexivity.
  - unfold logger at 1. norm.
    rewrite (bind_ok _ _ _ _ _ _ Hloop).
    rewrite (bind_ok _ _ _ _ _ _ (container_existing _ c w r Hr)), after_nil.
    rewrite (bind_ok _ _ _ _ _ _ (update_handle_existing w r Hr _)), after_nil.
    run_existing Nomad.variant c.
    erewrite container_save_existing by reflexivity. reflexivity.
Qed.

Lemma nomad_provision_run c b w r :
  remote w = Some r -> status_code r = CONTAINER_RUNNING ->
  Nomad.provision c b w
  = mkOut (Ok tt) (set_remote (Some (set_config "user.nomad.provisioned" "true" r)) w)
      (nomad_provision_trace c
         (default (negb (bool_decide (config r !! "user.nomad.provisioned" = Some "true"))) b)).
Proof.
  intros Hr Hs. unfold Nomad.provision.
  rewrite (nomad_guard_running c _ w r Hr Hs). by apply nomad_provision_body_run.
Qed.

Lemma nomad_provision_trace_calls c b :
  List.filter is_provisioning_call (nomad_provision_trace c b)
  = ((if b then [PrepareDebian] else [])
       ++ (ProvisionWithAnsible <$> default [] (opt_provisioning (options c))))%list.
Proof.
  unfold nomad_provision_trace. rewrite !List.filter_app.
  rewrite (filter_concat_logged is_provisioning_call _ ProvisionWithAnsible) by done.
  cbn [List.filter is_provisioning_call]. rewrite app_nil_r. by destruct b.
Qed.



Lemma nomad_assign_static_run c w r :
  remote w = Some r ->
  Nomad._assign_free_static_ip c w
  = mkOut (Ok tt) (set_remote (Some (set_config "user.nomad.static_ip" "true" r)) w)
      [FindFreeIp; SetStaticIpOnDebian (free_ip w).1 (free_ip w).2; ContainerSave].
Proof.
  intros Hr. unfold Nomad._assign_free_static_ip. norm.
  rewrite (bind_ok _ _ _ _ _ _ (container_existing _ c w r Hr)). norm.
  rewrite (bind_ok _ _ _ _ _ _ (container_existing _ c w r Hr)). norm.
  rewrite (bind_ok _ _ _ _ _ _ (update_handle_existing w r Hr _)), after_nil.
  run_existing Nomad.variant c.
  erewrite container_save_existing by reflexivity. reflexivity.
Qed.

Lemma nomad_has_static_ip_existing c w r :
  remote w = Some r ->
  Nomad._has_static_ip c w
  = mkOut (Ok (bool_decide (config r !! "user.nomad.static_ip" = Some "true"))) w [].
Proof.
  intros Hr. unfold Nomad._has_static_ip.
  by rewrite (bind_ok _ _ _ _ _ _ (container_existing _ c w r Hr)).
Qed.

Lemma nomad_prestart_run {A} c w r (k : M A) :
  remote w = Some r ->
  shares_well_formed Nomad.variant (devices r) ->
  bind (match opt_shares (options c) with
        | Some _ => logger INFO "Setting up shares..." ;; Nomad._setup_shares c
        | None => ret tt
        end)
       (fun _ => bind (Nomad._has_static_ip c)
                   (fun static => bind (when static (Nomad._assign_free_static_ip c))
                                    (fun _ => k))) w
  = after (nomad_prestart_trace c w r) (k (set_remote (Some (nomad_prestarted c r)) w)).
Proof.
  intros Hr Hwf. destruct (existing_sources_defined _ _ Hwf) as [S HS].
  set (r1 := mkRemote (status_code r) (config r)
               (match opt_shares (options c) with
                | Some D => reconciled Nomad.variant c D (devices r)
                | None => devices r
                end)).
  assert (Hsh : (match opt_shares (options c) with
                 | Some _ => logger INFO "Setting up shares..." ;; Nomad._setup_shares c
                 | None => ret tt
                 end) w
                = mkOut (Ok tt) (set_remote (Some r1) w)
                    (match opt_shares (options c) with
                     | Some _ => Log INFO "Setting up shares..."
                                 :: events (Nomad._setup_shares c w)
                     | None => []
                     end)).
  { subst r1. destruct (opt_shares (options c)) as [D|] eqn:HD.
    - unfold logger. rewrite bind_emit.
      pose proof (nomad_setup_shares_run c w r S Hr HS) as Hrun.
      rewrite HD in Hrun. cbn [default] in Hrun. by rewrite Hrun.
    - by rewrite (set_remote_same w r Hr). }
  rewrite (bind_ok _ _ _ _ _ _ Hsh).
  rewrite (bind_ok _ _ _ _ _ _ (nomad_has_static_ip_existing c (set_remote (Some r1) w) r1 eq_refl)).
  rewrite after_nil. unfold nomad_prestart_trace, nomad_prestarted. fold r1.
  cbn [config r1].
  destruct (bool_decide (config r !! "user.nomad.static_ip" = Some "true")); cbn [when].
  - rewrite (bind_ok _ _ _ _ _ _
               (nomad_assign_static_run c (set_remote (Some r1) w) r1 eq_refl)).
    by rewrite after_after.
  - rewrite bind_ret, app_nil_r. reflexivity.
Qed.

Lemma nomad_prestart_calls c w r :
  remote w = Some r ->
  shares_well_formed Nomad.variant (devices r) ->
  Forall (fun e => is_address_query e || is_provisioning_call e = false)
         (nomad_prestart_trace c w r).
Proof.
  intros Hr Hwf. destruct (existing_sources_defined _ _ Hwf) as [S HS].
  unfold nomad_prestart_trace. apply Forall_app. split.
  - destruct (opt_shares (options c)) as [D|]; [|constructor].
    constructor; [done|]. rewrite (nomad_setup_shares_run c w r S Hr HS). cbn [events].
    repeat (apply Forall_app; split).
    + destruct (bool_decide _); by repeat constructor.
    + unfold nomad_pass_grants. apply Forall_concat, Forall_fmap, Forall_forall.
      intros s _. cbn [compose]. destruct (bool_decide _); [|constructor].
      unfold nomad_grants, nomad_grants_for.
      destruct (bool_decide _); by repeat constructor.
    + by repeat constructor.
  - destruct (bool_decide _); by repeat constructor.
Qed.

(** The steps of [up] of [nomad] down to the acquisition of the address,
    from the first read through [_container]. *)
Lemma nomad_up_start_run c w w0 r0 evs0 k x rest :
  _container Nomad.variant c w = mkOut (Ok r0) w0 evs0 ->
  remote w0 = Some r0 ->
  status_code r0 <> CONTAINER_RUNNING ->
  shares_well_formed Nomad.variant (devices r0) ->
  start_runs w0 = true ->
  ip_feed w0 = (replicate k "" ++ x :: rest)%list ->
  Py.truthy x = true ->
  k <= 10 ->
  Nomad.up_start c w
  = mkOut (Ok (Some x))
      (set_ip_feed rest
         (started_world (set_remote (Some (nomad_prestarted c r0)) w0) (nomad_prestarted c r0)))
      (evs0 ++ nomad_prestart_trace c w0 r0
            ++ Log INFO ("Starting container " +:+ dq +:+ name c +:+ dq +:+ "...")
            :: ContainerStart
            :: GetIp
            :: match k with
               | 0 => []
               | S _ => Log INFO "No IP yet, waiting 10 seconds..." :: polls k
               end).
Proof.
  intros Hc Hr0 Hs Hwf Hstart Hf Hx Hk. unfold Nomad.up_start, is_running.
  rewrite bind_assoc, (bind_ok _ _ _ _ _ _ Hc), bind_ret.
  rewrite bool_decide_eq_false_2 by done.
  rewrite (nomad_prestart_run c w0 r0 _ Hr0 Hwf).
  set (r2 := nomad_prestarted c r0). set (w2 := set_remote (Some r2) w0).
  unfold logger at 1. rewrite bind_emit.
  rewrite (bind_ok _ _ _ _ _ _ (container_existing _ c w2 r2 eq_refl)), after_nil.
  rewrite (bind_ok _ _ _ _ _ _ (container_start_runs w2 r2 eq_refl Hstart)).
  assert (Hr3 : remote (started_world w2 r2) = Some (set_status CONTAINER_RUNNING r2))
    by reflexivity.
  rewrite bind_assoc, (bind_ok _ _ _ _ _ _ (container_existing _ c _ _ Hr3)), after_nil.
  rewrite bind_ret. cbn [status_code set_status].
  rewrite bool_decide_eq_true_2 by done. cbn [negb].
  rewrite (bind_ok _ _ _ _ _ _
             (nomad_setup_ip_found c (started_world w2 r2) _ k x rest Hr3 Hf Hx Hk)).
  unfold ret. cbn [after]. rewrite app_nil_r. reflexivity.
Qed.

(** The steps of [up] of [nomad] that follow the acquisition of an address,
    on a container that runs. *)
Lemma nomad_configure_run c ip w r :
  Py.truthy ip = true ->
  remote w = Some r ->
  status_code r = CONTAINER_RUNNING ->
  let provisioned := bool_decide (config r !! "user.nomad.provisioned" = Some "true") in
  res (Nomad.up_configure c ip w) = Ok tt
  /\ world (Nomad.up_configure c ip w)
     = set_remote
         (Some (if provisioned then r else set_config "user.nomad.provisioned" "true" r))
         (setup_world c ip w)
  /\ List.filter is_provisioning_call (events (Nomad.up_configure c ip w))
     = if provisioned then []
       else PrepareDebian :: (ProvisionWithAnsible <$> default [] (opt_provisioning (options c))).
Proof.
  intros Hip Hr Hs provisioned.
  assert (Hr1 : remote (setup_world c ip w) = Some r) by (by rewrite setup_world_remote).
  assert (Hlogs : Forall (fun e => is_provisioning_call e = false)
                    (((fun h => Log INFO ("Setting " +:+ h +:+ " to point to " +:+ ip +:+ "."))
                        <$> hostnames c)
                       ++ (if changed (setup_result c ip w)
                           then [Log INFO "Saving host bindings to /etc/hosts. sudo may be needed";
                                 EtcHostsSave]
                           else []))).
  { apply Forall_app. split.
    - apply Forall_fmap, Forall_forall. by intros ? _.
    - destruct (changed _); by repeat constructor. }
  pose (o := Nomad.up_configure c ip w).
  assert (Ho : o = Nomad.up_configure c ip w) by reflexivity.
  clearbody o. rewrite <- Ho.
  unfold Nomad.up_configure in Ho. rewrite Hip in Ho. cbn [negb] in Ho.
  unfold logger at 1 in Ho. rewrite bind_emit in Ho.
  rewrite (bind_ok _ _ _ _ _ _ (setup_hostnames_run c ip w)) in Ho.
  fold (setup_world c ip w) in Ho.
  rewrite (bind_ok _ _ _ _ _ _ (is_provisioned_existing _ c _ r Hr1)), after_nil in Ho.
  change ("user." +:+ product Nomad.variant +:+ ".provisioned")
    with "user.nomad.provisioned" in Ho.
  fold provisioned in Ho.
  destruct provisioned eqn:Hp; cbn [negb] in Ho.
  - unfold logger, emit in Ho. cbn [after] in Ho. subst o. cbn [res world events].
    split; [done|]. split; [by rewrite (set_remote_id _ r Hr1)|].
    cbn [app List.filter is_provisioning_call].
    by rewrite (filter_app_none _ _ _ Hlogs).
  - rewrite (nomad_provision_run c (Some true) _ r Hr1 Hs) in Ho.
    cbn [after default] in Ho. subst o. cbn [res world events].
    split; [done|]. split; [done|].
    cbn [app List.filter is_provisioning_call].
    by rewrite (filter_app_none _ _ _ Hlogs), nomad_provision_trace_calls.
Qed.

(** X17: the provisioning at the end of [up] of [nomad], once the container
    runs and shows an address: a container without the flag is prepared and
    then provisioned with every declared item, a container with the flag gets
    no provisioning call; the flag is set afterwards in both cases, so that
    the same steps run again issue no provisioning call. *)
Theorem nomad_up_provisions_once c ip w r :
  Py.truthy ip = true ->
  remote w = Some r ->
  status_code r = CONTAINER_RUNNING ->
  res (Nomad.up_configure c ip w) = Ok tt
  /\ List.filter is_provisioning_call (events (Nomad.up_configure c ip w))
     = (if bool_decide (config r !! "user.nomad.provisioned" = Some "true") then []
        else PrepareDebian
             :: (ProvisionWithAnsible <$> default [] (opt_provisioning (options c))))
  /\ (remote (world (Nomad.up_configure c ip w))
        ≫= fun r' => config r' !! "user.nomad.provisioned") = Some "true"
  /\ List.filter is_provisioning_call
       (events (Nomad.up_configure c ip (world (Nomad.up_configure c ip w)))) = [].
Proof.
  intros Hip Hr Hs.
  destruct (nomad_configure_run c ip w r Hip Hr Hs) as (Hres & Hw & Hcalls).
  split; [done|]. split; [done|].
  set (r' := if bool_decide (config r !! "user.nomad.provisioned" = Some "true")
             then r else set_config "user.nomad.provisioned" "true" r) in Hw.
  assert (Hflag : config r' !! "user.nomad.provisioned" = Some "true").
  { subst r'. destruct (bool_decide _) eqn:Hp.
    - by apply bool_decide_eq_true_1 in Hp.
    - cbn. by rewrite lookup_insert_eq. }
  assert (Hs' : status_code r' = CONTAINER_RUNNING)
    by (subst r'; by destruct (bool_decide _)).
  rewrite Hw. split; [done|].
  destruct (nomad_configure_run c ip (set_remote (Some r') (setup_world c ip w)) r'
              Hip eq_refl Hs') as (_ & _ & Hcalls').
  rewrite Hcalls'. by rewrite bool_decide_eq_true_2.
Qed.

Lemma nomad_up_provisions_once_witness :
  List.filter is_provisioning_call
    (events (Nomad.up_configure ansible_container "10.0.3.5" ansible_host))
  = [PrepareDebian;
     ProvisionWithAnsible (mkProvisioningItem "Ansible" [("playbook", "site.yml")]);
     ProvisionWithAnsible (mkProvisioningItem "Puppet" [])].
Proof.
  exact (proj1 (proj2 (nomad_up_provisions_once ansible_container "10.0.3.5" ansible_host
                         (mkRemote CONTAINER_RUNNING ∅ ∅) eq_refl eq_refl eq_refl))).
Defined.

(** X18: the static address of [nomad] is sticky. [_assign_free_static_ip]
    asks for a free address, pushes it into the guest with its gateway and
    saves a flag, and [_has_static_ip] answers true from then on; [up] on a
    stopped container that carries the flag assigns a new free address after
    the reconciliation of the shares and before the start. *)
Theorem nomad_static_ip_sticky c w r :
  remote w = Some r ->
  Nomad._assign_free_static_ip c w
  = mkOut (Ok tt)
      (set_remote (Some (mkRemote (status_code r)
                           (<["user.nomad.static_ip" := "true"]> (config r)) (devices r))) w)
      [FindFreeIp; SetStaticIpOnDebian (free_ip w).1 (free_ip w).2; ContainerSave]
  /\ res (Nomad._has_static_ip c (world (Nomad._assign_free_static_ip c w))) = Ok true
  /\ (forall k x rest,
        config r !! "user.nomad.static_ip" = Some "true" ->
        status_code r <> CONTAINER_RUNNING ->
        shares_well_formed Nomad.variant (devices r) ->
        start_runs w = true ->
        ip_feed w = (replicate k "" ++ x :: rest)%list -> Py.truthy x = true -> k <= 10 ->
        events (Nomad.up_start c w)
        = (match opt_shares (options c) with
           | Some _ => Log INFO "Setting up shares..." :: events (Nomad._setup_shares c w)
           | None => []
           end)
            ++ [FindFreeIp; SetStaticIpOnDebian (free_ip w).1 (free_ip w).2; ContainerSave]
            ++ Log INFO ("Starting container " +:+ dq +:+ name c +:+ dq +:+ "...")
            :: ContainerStart
            :: GetIp
            :: match k with
               | 0 => []
               | S _ => Log INFO "No IP yet, waiting 10 seconds..." :: polls k
               end).
Proof.
  intros Hr. rewrite (nomad_assign_static_run c w r Hr). split; [done|]. split.
  - cbn [world]. erewrite nomad_has_static_ip_existing by reflexivity.
    cbn. by rewrite lookup_insert_eq.
  - intros k x rest Hflag Hs Hwf Hstart Hf Hx Hk.
    rewrite (nomad_up_start_run c w w r [] k x rest (container_existing _ c w r Hr)
               Hr Hs Hwf Hstart Hf Hx Hk).
    cbn [events app]. unfold nomad_prestart_trace.
    rewrite (bool_decide_eq_true_2 _ Hflag), <- app_assoc. reflexivity.
Qed.

Lemma nomad_static_ip_sticky_witness :
  events (Nomad.up_start plain_container static_world)
  = [FindFreeIp; SetStaticIpOnDebian "10.0.3.2" "10.0.3.1"; ContainerSave;
     Log INFO ("Starting container " +:+ dq +:+ "web" +:+ dq +:+ "...");
     ContainerStart; GetIp].
Proof.
  exact (proj2 (proj2 (nomad_static_ip_sticky plain_container static_world
                         (mkRemote CONTAINER_STOPPED {[ "user.nomad.static_ip" := "true" ]} ∅)
                         eq_refl))
           0 "10.0.3.2" [] eq_refl ltac:(discriminate) ltac:(by intros k d Hk) eq_refl
           eq_refl eq_refl ltac:(lia)).
Defined.

(** X19: when the start does not leave the container running, [up] of [nomad]
    records the error and raises [ContainerOperationFailed] without asking for
    an address; as the shares are reconciled before the start, the object
    keeps the shares of the descriptor. *)
Theorem nomad_up_start_failure c w r s feed :
  remote w = Some r ->
  status_code r <> CONTAINER_RUNNING ->
  shares_well_formed Nomad.variant (devices r) ->
  start_feed w = s :: feed ->
  s <> CONTAINER_RUNNING ->
  res (Nomad.up c w) = Raise ContainerOperationFailed
  /\ (exists r', remote (world (Nomad.up c w)) = Some r'
                 /\ status_code r' = s
                 /\ forall D, opt_shares (options c) = Some D ->
                              mirrors Nomad.variant c D (devices r) (devices r'))
  /\ etc_hosts (world (Nomad.up c w)) = etc_hosts w
  /\ List.filter (fun e => is_address_query e || is_provisioning_call e)
       (events (Nomad.up c w)) = [].
Proof.
  intros Hr Hs Hwf Hf Hne.
  assert (Hrun : Nomad.up c w
                 = mkOut (Raise ContainerOperationFailed)
                     (set_remote (Some (set_status s (nomad_prestarted c r)))
                                 (set_start_feed feed w))
                     (nomad_prestart_trace c w r
                        ++ [Log INFO ("Starting container " +:+ dq +:+ name c +:+ dq +:+ "...");
                            ContainerStart;
                            Log ERROR "Something went wrong trying to start the container."])).
  { unfold Nomad.up.
    rewrite (bind_ok _ _ _ _ _ _ (is_running_existing _ c w r Hr)), after_nil.
    rewrite bool_decide_eq_false_2 by done.
    rewrite (nomad_prestart_run c w r _ Hr Hwf).
    set (r2 := nomad_prestarted c r). set (w2 := set_remote (Some r2) w).
    unfold logger at 1. rewrite bind_emit.
    rewrite (bind_ok _ _ _ _ _ _ (container_existing _ c w2 r2 eq_refl)), after_nil.
    assert (Hstart : container_start w2
                     = mkOut (Ok tt) (set_remote (Some (set_status s r2)) (set_start_feed feed w))
                         [ContainerStart]).
    { unfold container_start.
      rewrite (bind_ok _ _ _ _ _ _ (handle_existing w2 r2 eq_refl)), after_nil.
      rewrite bind_emit. cbv beta. change (start_feed w2) with (start_feed w).
      by rewrite Hf. }
    rewrite (bind_ok _ _ _ _ _ _ Hstart).
    erewrite (bind_ok (is_running _ c)) by (apply is_running_existing; reflexivity).
    cbn [status_code set_status]. rewrite bool_decide_eq_false_2 by done.
    reflexivity. }
  rewrite Hrun. cbn [res world events]. split; [done|]. split; [|split; [done|]].
  - eexists. split; [reflexivity|]. split; [done|].
    intros D HD. unfold nomad_prestarted. rewrite HD.
    destruct (bool_decide _); apply reconciled_mirrors.
  - apply filter_none, Forall_app. split; [|by repeat constructor].
    by apply nomad_prestart_calls.
Qed.

Lemma nomad_up_start_failure_witness :
  res (Nomad.up shop_b (set_start_feed [CONTAINER_STOPPED] stale_world))
  = Raise ContainerOperationFailed.
Proof.
  exact (proj1 (nomad_up_start_failure shop_b (set_start_feed [CONTAINER_STOPPED] stale_world)
                  stale_remote CONTAINER_STOPPED [] eq_refl ltac:(discriminate)
                  stale_well_formed_nomad eq_refl ltac:(discriminate))).
Defined.

Lemma nomad_prestarted_config c r k :
  k <> "user.nomad.static_ip" -> config (nomad_prestarted c r) !! k = config r !! k.
Proof.
  intros Hk. unfold nomad_prestarted. destruct (bool_decide _); cbn; [|done].
  by rewrite lookup_insert_ne.
Qed.

Lemma polls_calls k : Forall (fun e => is_provisioning_call e = false) (polls k).
Proof.
  unfold polls. apply Forall_concat, Forall_forall.
  intros l ->%elem_of_replicate_inv. by repeat constructor.
Qed.

(** [up] of [nomad] from the first read through [_container] to its end,
    when the start leaves the container running and an address shows. *)
Lemma nomad_up_run c w w0 r0 evs0 k x rest :
  _container Nomad.variant c w = mkOut (Ok r0) w0 evs0 ->
  remote w0 = Some r0 ->
  status_code r0 <> CONTAINER_RUNNING ->
  shares_well_formed Nomad.variant (devices r0) ->
  start_runs w0 = true ->
  ip_feed w0 = (replicate k "" ++ x :: rest)%list ->
  Py.truthy x = true ->
  k <= 10 ->
  res (Nomad.up c w) = Ok tt
  /\ remote (world (Nomad.up c w)) = Some (nomad_converged c r0)
  /\ etc_hosts (world (Nomad.up c w)) = bindings (setup_result c x w0)
  /\ List.filter is_provisioning_call (events (Nomad.up c w))
     = (List.filter is_provisioning_call evs0
          ++ if bool_decide (config r0 !! "user.nomad.provisioned" = Some "true") then []
             else PrepareDebian
                  :: (ProvisionWithAnsible <$> default [] (opt_provisioning (options c))))%list.
Proof.
  intros Hc Hr0 Hs Hwf Hstart Hf Hx Hk.
  rewrite nomad_up_split.
  rewrite (bind_ok _ _ _ _ _ _
             (nomad_up_start_run c w w0 r0 evs0 k x rest Hc Hr0 Hs Hwf Hstart Hf Hx Hk)).
  destruct (nomad_configure_run c x
              (set_ip_feed rest
                 (started_world (set_remote (Some (nomad_prestarted c r0)) w0)
                                (nomad_prestarted c r0)))
              (set_status CONTAINER_RUNNING (nomad_prestarted c r0)) Hx eq_refl eq_refl)
    as (Hres & Hw & Hcalls).
  cbn [config set_status] in Hw, Hcalls.
  rewrite nomad_prestarted_config in Hw, Hcalls by done.
  rewrite res_after, world_after, events_after, Hres, Hw, List.filter_app, Hcalls.
  split; [done|]. split; [|split].
  - cbn [remote set_remote]. unfold nomad_converged.
    by destruct (bool_decide _).
  - cbn [etc_hosts set_remote]. by rewrite setup_world_etc_hosts.
  - f_equal. rewrite List.filter_app, (filter_app_none _ (nomad_prestart_trace c w0 r0)).
    + rewrite (filter_none is_provisioning_call (_ :: _)); [by rewrite app_nil_r|].
      do 3 (constructor; [done|]). destruct k; [constructor|].
      constructor; [done|]. apply polls_calls.
    + eapply Forall_impl; [by apply nomad_prestart_calls|].
      intros e He. cbv beta in He. by apply orb_false_elim in He as [_ He].
Qed.

(** X20: [up] of [nomad] on a host where the daemon has no such object, when
    the daemon accepts the creation, the start leaves the container running
    and an address [x] shows within the first query and the ten rounds of the
    waiting loop: [up] returns normally, the daemon holds a running container
    that carries the flag of the provisioning and whose shares mirror the
    descriptor, the resolution file is the one that [_setup_hostnames] leaves
    for [x], and the guest has been prepared once and provisioned with every
    declared item. *)
Theorem nomad_up_from_scratch c w k x rest :
  remote w = None ->
  creation_accepted w = true ->
  start_runs w = true ->
  ip_feed w = (replicate k "" ++ x :: rest)%list ->
  Py.truthy x = true ->
  k <= 10 ->
  res (Nomad.up c w) = Ok tt
  /\ (exists r',
        remote (world (Nomad.up c w)) = Some r'
        /\ status_code r' = CONTAINER_RUNNING
        /\ config r' !! "user.nomad.provisioned" = Some "true"
        /\ forall D, opt_shares (options c) = Some D ->
                     mirrors Nomad.variant c D ∅ (devices r'))
  /\ etc_hosts (world (Nomad.up c w)) = etc_hosts (world (_setup_hostnames c x w))
  /\ List.filter is_provisioning_call (events (Nomad.up c w))
     = PrepareDebian :: (ProvisionWithAnsible <$> default [] (opt_provisioning (options c))).
Proof.
  intros Hw Ha Hstart Hf Hx Hk.
  destruct (nomad_up_run c w (created_world Nomad.variant c w)
              (fresh_remote Nomad.variant c w) (creation_trace Nomad.variant c w) k x rest)
    as (Hres & Hrem & Hhosts & Hcalls); try done.
  { by apply container_absent_created. }
  split; [done|]. split; [|split].
  - eexists. split; [exact Hrem|].
    unfold nomad_converged, nomad_prestarted.
    rewrite (bool_decide_eq_false_2
               (config (fresh_remote Nomad.variant c w) !! "user.nomad.provisioned"
                = Some "true")) by done.
    rewrite (bool_decide_eq_false_2
               (config (fresh_remote Nomad.variant c w) !! "user.nomad.static_ip"
                = Some "true")) by done.
    cbn [status_code config devices set_config set_status fresh_remote].
    split; [done|]. split; [by rewrite lookup_insert_eq|].
    intros D ->. apply reconciled_mirrors.
  - by rewrite Hhosts, setup_hostnames_file.
  - rewrite Hcalls.
    by rewrite (bool_decide_eq_false_2
                  (config (fresh_remote Nomad.variant c w) !! "user.nomad.provisioned"
                   = Some "true")).
Qed.

Lemma nomad_up_from_scratch_witness :
  res (Nomad.up shop_ab fresh_world) = Ok tt
  /\ List.filter is_provisioning_call (events (Nomad.up shop_ab fresh_world))
     = [PrepareDebian].
Proof.
  pose proof (nomad_up_from_scratch shop_ab fresh_world 0 "10.0.3.5"
                ["10.0.3.9"; "10.0.3.9"] eq_refl eq_refl eq_refl eq_refl eq_refl
                ltac:(lia)) as H.
  exact (conj (proj1 H) (proj2 (proj2 (proj2 H)))).
Defined.

(** ** A share without a source *)

Lemma existing_sources_undefined V (devs : Devices) k d :
  devs !! k = Some d -> is_share V k -> d !! "source" = None ->
  existing_sources (existing_shares V devs) = None.
Proof.
  intros Hk Hs Hd. unfold existing_sources.
  destruct (mapM _ _) as [l|] eqn:Hm; [|done]. exfalso.
  assert (His : is_Some (mapM (fun d : Device => d !! "source")
                           (map_to_list (existing_shares V devs)).*2)) by (by eexists).
  apply mapM_is_Some in His. rewrite Forall_forall in His.
  destruct (His d) as [s Hsrc]; [|cbn in Hsrc; congruence].
  apply list_elem_of_fmap. exists (k, d). split; [done|].
  apply elem_of_map_to_list, map_lookup_filter_Some. by split.
Qed.

(** X21: the inventory of [_setup_shares] reads the ['source'] of every device
    in the namespace of the shares: when one of them has none, the pass ends
    with [KeyError] before anything is removed, granted, installed or saved.
    *)
Theorem setup_shares_missing_source c w r k d :
  remote w = Some r ->
  devices r !! k = Some d ->
  d !! "source" = None ->
  (is_share Lxdock.variant k ->
   forall D, opt_shares (options c) = Some D ->
             Lxdock._setup_shares c w
             = mkOut (Raise (KeyError "source")) w [Log INFO "Setting up shares..."])
  /\ (is_share Nomad.variant k ->
      Nomad._setup_shares c w = mkOut (Raise (KeyError "source")) w []).
Proof.
  intros Hr Hk Hd. split.
  - intros Hs D HD. unfold Lxdock._setup_shares. rewrite HD.
    unfold logger. rewrite bind_emit.
    rewrite (bind_raise _ _ _ _ _ _
               (inventory_keyerror _ c w r Hr (existing_sources_undefined _ _ k d Hk Hs Hd))).
    reflexivity.
  - intros Hs. unfold Nomad._setup_shares.
    by rewrite (bind_raise _ _ _ _ _ _
                  (inventory_keyerror _ c w r Hr (existing_sources_undefined _ _ k d Hk Hs Hd))).
Qed.

Lemma setup_shares_missing_source_witness :
  Lxdock._setup_shares shop_a broken_share_world
  = mkOut (Raise (KeyError "source")) broken_share_world [Log INFO "Setting up shares..."].
Proof.
  exact (proj1 (setup_shares_missing_source shop_a broken_share_world broken_share_remote
                  "lxdockshare1" (<["type" := "disk"]> (<["path" := "/srv/a"]> ∅))
                  eq_refl eq_refl eq_refl) I [share_a] eq_refl).
Defined.

(** ** More on the name of the container *)

Lemma take_all n s : String.length s <= n -> Py.take n s = s.
Proof.
  revert s. induction n as [|n IH]; intros [|a s] Hl; simpl in *; try done; [lia|].
  rewrite IH; [done | lia].
Qed.

Lemma string_app_suffix (a a' b b' : string) :
  a +:+ b = a' +:+ b' -> String.length b = String.length b' -> b = b'.
Proof.
  revert a'. induction a as [|x a IH]; intros [|y a'] Heq Hl.
  - done.
  - change (b = String y (a' +:+ b')) in Heq. subst b.
    cbn [String.length] in Hl. rewrite length_app_string in Hl. lia.
  - change (String x (a +:+ b) = b') in Heq. subst b'.
    cbn [String.length] in Hl. rewrite length_app_string in Hl. lia.
  - change (String x (a +:+ b) = String y (a' +:+ b')) in Heq.
    injection Heq as _ Heq. by apply (IH a').
Qed.

(** X22: the name of the container ends with the identifier of the directory,
    which tells the projects apart: two names with identifiers of the same
    length are equal only if the identifiers are. The prefix is not cut as
    long as it fits: the name is then the name of the project, the name of the
    container and the identifier, joined by hyphens. *)
Theorem lxd_name_tells_projects_apart c c' fid fid' :
  String.length (fid (homedir c)) = String.length (fid' (homedir c')) ->
  (lxd_name c fid = lxd_name c' fid' -> fid (homedir c) = fid' (homedir c'))
  /\ (String.length (project_name c +:+ "-" +:+ name c) + String.length (fid (homedir c)) <= 63 ->
      lxd_name c fid = project_name c +:+ "-" +:+ name c +:+ "-" +:+ fid (homedir c)).
Proof.
  intros Hl. split.
  - unfold lxd_name. intros Heq. rewrite <- !app_assoc_string in Heq.
    by apply string_app_suffix in Heq.
  - intros Hfit. unfold lxd_name, Py.slice_to.
    destruct (Z.ltb_spec (63 - Z.of_nat (String.length (fid (homedir c)))) 0); [lia|].
    rewrite take_all by lia. by rewrite !app_assoc_string.
Qed.

Lemma lxd_name_tells_projects_apart_witness :
  lxd_name plain_container (fun _ => "a1b2c3d4") = "shop-web-a1b2c3d4".
Proof.
  exact (proj2 (lxd_name_tells_projects_apart plain_container plain_container
                  (fun _ => "a1b2c3d4") (fun _ => "a1b2c3d4") eq_refl) ltac:(simpl; lia)).
Defined.

(** ** [shell] of [nomad] *)

(** X23: [shell] of [nomad] on a container that runs issues one command and
    touches nothing: the shell of the declared user, with its home when the
    descriptor gives one, or [bash] when no user is declared. *)
Theorem nomad_shell_runs c w r :
  remote w = Some r ->
  status_code r = CONTAINER_RUNNING ->
  exists cmd,
    Nomad.shell c w = mkOut (Ok tt) w [SubprocessCall cmd]
    /\ (Nomad.truthy_opt (opt_shell (options c) ≫= shell_user) = false ->
        cmd = "lxc exec " +:+ lxd_name c (folderid w) +:+ " -- bash")
    /\ (forall u h, opt_shell (options c) = Some (mkShellConfig (Some u) (Some h)) ->
                    Py.truthy u = true -> Py.truthy h = true ->
                    cmd = "lxc exec " +:+ lxd_name c (folderid w) +:+ " --env HOME=" +:+ h
                            +:+ " -- su -m " +:+ u).
Proof.
  intros Hr Hs.
  exists (let shellcfg := default (mkShellConfig None None) (opt_shell (options c)) in
          if Nomad.truthy_opt (shell_user shellcfg)
          then "lxc exec " +:+ lxd_name c (folderid w) +:+ " "
                 +:+ (if Nomad.truthy_opt (shell_home shellcfg)
                      then "--env HOME=" +:+ default "" (shell_home shellcfg) else "")
                 +:+ " -- su -m " +:+ default "" (shell_user shellcfg)
          else "lxc exec " +:+ lxd_name c (folderid w) +:+ " -- bash").
  cbv zeta. split; [|split].
  - unfold Nomad.shell. rewrite (nomad_guard_running c _ w r Hr Hs).
    unfold Nomad.shell_body. rewrite bind_get_world. cbv zeta.
    by destruct (Nomad.truthy_opt _).
  - intros Hu. destruct (opt_shell (options c)) as [[su sh]|]; cbn in Hu |- *; by rewrite ?Hu.
  - intros u h -> Hu Hh. cbn. by rewrite Hu, Hh.
Qed.

Lemma nomad_shell_runs_witness :
  exists cmd,
    Nomad.shell deploy_container running_world
    = mkOut (Ok tt) running_world [SubprocessCall cmd]
    /\ cmd = "lxc exec " +:+ lxd_name deploy_container (folderid running_world)
                +:+ " --env HOME=/srv/app -- su -m deploy".
Proof.
  destruct (nomad_shell_runs deploy_container running_world (mkRemote CONTAINER_RUNNING ∅ ∅)
              eq_refl eq_refl) as (cmd & Hrun & _ & Hu).
  exists cmd. split; [exact Hrun|]. exact (Hu "deploy" "/srv/app" eq_refl eq_refl eq_refl).
Defined.

(** ** What the actions leave alone *)

(** X24: the resolution file is written by the installation and the removal of
    the hostnames only: whatever the host, and whether they return or raise,
    [provision], [shell], the reconciliation of the shares, [_setup_env],
    [_setup_users], the acquisition of the address and [status] leave its
    bindings as they are. In turn the installation and the removal of the
    hostnames leave the object of the daemon as it is. *)
Theorem resolution_file_frame c :
  keeps etc_hosts (Lxdock.provision c)
  /\ (forall quote dedent username cmd_args,
        keeps etc_hosts (Lxdock.shell c quote dedent username cmd_args))
  /\ keeps etc_hosts (Lxdock._setup_shares c)
  /\ keeps etc_hosts (Lxdock._setup_env c)
  /\ keeps etc_hosts (Lxdock._setup_users c)
  /\ keeps etc_hosts (Lxdock._setup_ip c)
  /\ (forall barebone, keeps etc_hosts (Nomad.provision c barebone))
  /\ keeps etc_hosts (Nomad.shell c)
  /\ keeps etc_hosts (Nomad._setup_shares c)
  /\ keeps etc_hosts (Nomad._setup_ip c)
  /\ (forall V, keeps etc_hosts (status V c))
  /\ (forall ip, keeps remote (_setup_hostnames c ip))
  /\ keeps remote (_unsetup_hostnames c).
Proof.
  repeat apply conj; intros.
  all: try (unfold status; frame).
  - intros w. rewrite setup_hostnames_run. cbn [world]. by destruct (changed _).
  - intros w. rewrite unsetup_hostnames_run. cbn [world]. by destruct (changed _).
Qed.
